(** * GOLP: readers for MULTI [fort.10] output and their query layer

    A shallow embedding of the two [fort.10] readers of the repository
    ([Test1/Ti_hot/density_block.py] and [Test1/Ti_hot/density_plot.py]):
    the classic-format reader (section headers, run-length compressed
    variable directory, flat records), the block-format reader
    ([step= ... time= ...] markers followed by seven-column rows), the format
    detector, block/frame selection and the length-unit table.

    Text is modelled as [string] (the bytes of ASCII text), an open text file
    as the list of its remaining lines, Python [int] as [Z], Python [float]
    and NumPy [float64] as the primitive binary64 [float], a [dict] keyed by
    variable name as a [gmap string].  Exceptions are explicit: a call
    returns [Ok v], [Raise e], or [OutOfFuel] when a [while] loop was cut
    by the fuel it was given. *)

From Stdlib Require Import ZArith Lia Ascii String List Bool Floats.
From stdpp Require Import base option list gmap strings.

Set Warnings "-inexact-float".

Local Open Scope string_scope.
Local Open Scope list_scope.
Local Open Scope Z_scope.

(** ** Outcomes of a call *)

Inductive exn : Set :=
| EOFError
| ValueError
| IndexError
| KeyError
| SystemExit.

Inductive outcome (A : Type) : Type :=
| Ok (a : A)
| Raise (e : exn)
| OutOfFuel.

Arguments Ok {A} a.
Arguments Raise {A} e.
Arguments OutOfFuel {A}.

Definition obind {A B : Type} (f : A -> outcome B) (m : outcome A) : outcome B :=
  match m with
  | Ok a => f a
  | Raise e => Raise e
  | OutOfFuel => OutOfFuel
  end.

#[global] Instance outcome_bind : MBind outcome := @obind.
#[global] Instance outcome_ret : MRet outcome := @Ok.

(** ** Python built-ins used by the readers *)

Module Py.

(** [l[i]] with Python's negative indices; [IndexError] out of range. *)
Definition index {A : Type} (l : list A) (i : Z) : outcome A :=
  let n := Z.of_nat (length l) in
  let k := if i <? 0 then i + n else i in
  if (0 <=? k) && (k <? n)
  then match nth_error l (Z.to_nat k) with
       | Some a => Ok a
       | None => Raise IndexError
       end
  else Raise IndexError.

(** A slice bound brought into [0, len], as [l[i:j]] does. *)
Definition bound (n i : Z) : Z :=
  if i <? 0 then Z.max (i + n) 0 else Z.min i n.

(** [l[i:j]]. *)
Definition slice {A : Type} (l : list A) (i j : Z) : list A :=
  let n := Z.of_nat (length l) in
  let lo := bound n i in
  let hi := bound n j in
  firstn (Z.to_nat (hi - lo)) (skipn (Z.to_nat lo) l).

(** [l[:j]]. *)
Definition slice_to {A : Type} (l : list A) (j : Z) : list A := slice l 0 j.

Definition len {A : Type} (l : list A) : Z := Z.of_nat (length l).

(** [range(0, n, step)] for a positive [step]. *)
Definition range_step (n step : Z) : list Z :=
  map (fun k => step * Z.of_nat k) (seq 0 (Z.to_nat ((n + step - 1) / step))).

(** [sum(l)] over integers. *)
Definition sum (l : list Z) : Z := fold_left Z.add l 0.

(** [str.isspace] on one ASCII character: TAB..CR, FS..US and the space. *)
Definition isspace (c : ascii) : bool :=
  let n := nat_of_ascii c in
  ((9 <=? n)%nat && (n <=? 13)%nat) || ((28 <=? n)%nat && (n <=? 32)%nat).

Definition isdigit (c : ascii) : bool :=
  let n := nat_of_ascii c in (48 <=? n)%nat && (n <=? 57)%nat.

Definition isupper (c : ascii) : bool :=
  let n := nat_of_ascii c in (65 <=? n)%nat && (n <=? 90)%nat.

Definition isalpha (c : ascii) : bool :=
  let n := nat_of_ascii c in
  ((65 <=? n)%nat && (n <=? 90)%nat) || ((97 <=? n)%nat && (n <=? 122)%nat).

(** A word character of the [re] module ([\w]). *)
Definition isword (c : ascii) : bool :=
  isalpha c || isdigit c || Ascii.eqb c "_"%char.

Definition lower_char (c : ascii) : ascii :=
  if isupper c then ascii_of_nat (nat_of_ascii c + 32) else c.

(** [s.lower()]. *)
Definition lower (s : string) : string :=
  string_of_list_ascii (map lower_char (list_ascii_of_string s)).

Fixpoint lstrip_chars (s : list ascii) : list ascii :=
  match s with
  | c :: s' => if isspace c then lstrip_chars s' else s
  | [] => []
  end.

Definition strip_chars (s : list ascii) : list ascii :=
  rev (lstrip_chars (rev (lstrip_chars s))).

(** [s.strip()]. *)
Definition strip (s : string) : string :=
  string_of_list_ascii (strip_chars (list_ascii_of_string s)).

(** The words of [s], [cur] holding the current word backwards. *)
Fixpoint split_chars (s cur : list ascii) : list (list ascii) :=
  match s with
  | [] => match cur with [] => [] | _ => [rev cur] end
  | c :: s' =>
      if isspace c
      then match cur with
           | [] => split_chars s' []
           | _ => rev cur :: split_chars s' []
           end
      else split_chars s' (c :: cur)
  end.

(** [s.split()]: the maximal runs of non-blank characters. *)
Definition split (s : string) : list string :=
  map string_of_list_ascii (split_chars (list_ascii_of_string s) []).

(** [sub in s]. *)
Fixpoint contains_chars (sub s : list ascii) : bool :=
  match s with
  | [] => match sub with [] => true | _ => false end
  | _ :: s' =>
      bool_decide (firstn (length sub) s = sub) || contains_chars sub s'
  end.

Definition contains (sub s : string) : bool :=
  contains_chars (list_ascii_of_string sub) (list_ascii_of_string s).

(** *** Numeric literals *)

Definition digit_val (c : ascii) : Z := Z.of_nat (nat_of_ascii c) - 48.

Definition digits_val (ds : list ascii) : Z :=
  fold_left (fun acc d => 10 * acc + digit_val d) ds 0.

(** The rest of a [digitpart] (digits, single underscores between them):
    the digits read, oldest last in [acc], and what follows them. *)
Fixpoint digitpart_rest (s acc : list ascii) : list ascii * list ascii :=
  match s with
  | c :: s' =>
      if isdigit c then digitpart_rest s' (c :: acc)
      else if Ascii.eqb c "_"%char then
        match s' with
        | d :: _ => if isdigit d then digitpart_rest s' acc else (rev acc, s)
        | [] => (rev acc, s)
        end
      else (rev acc, s)
  | [] => (rev acc, [])
  end.

(** A [digitpart] at the head of [s], if there is one. *)
Definition digitpart (s : list ascii) : option (list ascii * list ascii) :=
  match s with
  | c :: s' => if isdigit c then Some (digitpart_rest s' [c]) else None
  | [] => None
  end.

(** An optional sign: [true] for [-]. *)
Definition sign (s : list ascii) : bool * list ascii :=
  match s with
  | c :: s' =>
      if Ascii.eqb c "-"%char then (true, s')
      else if Ascii.eqb c "+"%char then (false, s')
      else (false, s)
  | [] => (false, [])
  end.

(** [int(s)] for a decimal literal; [ValueError] otherwise. *)
Definition int (s : string) : outcome Z :=
  let '(neg, body) := sign (strip_chars (list_ascii_of_string s)) in
  match digitpart body with
  | Some (ds, []) => Ok (if neg then - digits_val ds else digits_val ds)
  | _ => Raise ValueError
  end.

(** The binary64 number nearest to [(-1)^neg * m * 10^e] for [0 <= m],
    ties to even, overflow to an infinity: the value of a decimal literal. *)
Definition float_of_decimal (neg : bool) (m e : Z) : PrimFloat.float :=
  if 0 <=? e
  then SF2Prim (binary_normalize prec emax
                  ((if neg then - m else m) * 10 ^ e) 0 neg)
  else match m, 10 ^ (- e) with
       | Zpos p, Zpos q =>
           SF2Prim (SFdiv prec emax (S754_finite neg p 0) (S754_finite false q 0))
       | _, _ => SF2Prim (S754_zero neg)
       end.

(** The digits after a decimal point, if the literal has one. *)
Definition fraction (s : list ascii) : option (list ascii * list ascii) :=
  match s with
  | c :: s' =>
      if Ascii.eqb c "."%char
      then match digitpart s' with
           | Some r => Some r
           | None => Some ([], s')
           end
      else None
  | [] => None
  end.

(** The exponent of a literal, up to the end of the text: [0] when there
    is none, nothing when what is left is not an exponent. *)
Definition exponent (s : list ascii) : option Z :=
  match s with
  | [] => Some 0
  | c :: s' =>
      if Ascii.eqb c "e"%char || Ascii.eqb c "E"%char
      then let '(neg, body) := sign s' in
           match digitpart body with
           | Some (ds, []) => Some (if neg then - digits_val ds else digits_val ds)
           | _ => None
           end
      else None
  end.

(** [float(s)]: an optional sign, then [inf], [infinity] or [nan] in any
    case, or digits with an optional point and exponent; [ValueError]
    otherwise. *)
Definition float (s : string) : outcome PrimFloat.float :=
  let '(neg, body) := sign (strip_chars (list_ascii_of_string s)) in
  let word := string_of_list_ascii (map lower_char body) in
  if String.eqb word "inf" || String.eqb word "infinity"
  then Ok (if neg then neg_infinity else infinity)
  else if String.eqb word "nan" then Ok nan
  else
    let '(ints, rest) :=
      match digitpart body with Some r => r | None => ([], body) end in
    let '(fracs, rest) :=
      match fraction rest with Some r => r | None => ([], rest) end in
    match ints ++ fracs, exponent rest with
    | _ :: _, Some e =>
        Ok (float_of_decimal neg (digits_val (ints ++ fracs))
              (e - Z.of_nat (length fracs)))
    | _, _ => Raise ValueError
    end.

(** *** Pieces of the two regular expressions

    Both patterns are sequences of literals, [\s*], [\s+] and one greedy
    character class, each followed by something the class excludes, so a
    greedy left-to-right match never has to give characters back. *)

(** A literal under [re.IGNORECASE] ([p] in lower case): what follows it. *)
Fixpoint literal (p s : list ascii) : option (list ascii) :=
  match p, s with
  | [], _ => Some s
  | a :: p', c :: s' => if Ascii.eqb (lower_char c) a then literal p' s' else None
  | _ :: _, [] => None
  end.

(** [\s+]: what follows the blanks. *)
Definition blanks1 (s : list ascii) : option (list ascii) :=
  match s with
  | c :: s' => if isspace c then Some (lstrip_chars s') else None
  | [] => None
  end.

(** The longest prefix of characters in the class [p], and the rest. *)
Fixpoint span (p : ascii -> bool) (s : list ascii) : list ascii * list ascii :=
  match s with
  | c :: s' => if p c then let '(a, b) := span p s' in (c :: a, b) else ([], s)
  | [] => ([], [])
  end.

(** A class repeated once or more ([+]). *)
Definition span1 (p : ascii -> bool) (s : list ascii)
    : option (list ascii * list ascii) :=
  match span p s with
  | ([], _) => None
  | r => Some r
  end.

End Py.

(** ** [Test1/Ti_hot/density_block.py] *)

Module density_block.

(** *** Utilities *)

(** [xunit] may be [None]: [(xunit or "")]. *)
Definition unit_factor_to_um (xunit : option string) : outcome float :=
  let xunit := Py.lower (default "" xunit) in
  if bool_decide (xunit ∈ ["cm"]) then Ok 1e4%float
  else if bool_decide (xunit ∈ ["m"; "meter"; "meters"]) then Ok 1e6%float
  else if bool_decide (xunit ∈ ["um"; "µm"; "micron"; "microns"]) then Ok 1.0%float
  else Raise SystemExit.

(** *** Format B: the block ASCII parser *)

Definition chars (s : string) : list ascii := list_ascii_of_string s.

(** The class [[Ee0-9\+\-\.]]. *)
Definition time_char (c : ascii) : bool :=
  Py.isdigit c
  || Ascii.eqb c "E"%char || Ascii.eqb c "e"%char
  || Ascii.eqb c "+"%char || Ascii.eqb c "-"%char || Ascii.eqb c "."%char.

(** [step\s*=\s*(\d+)\s+time\s*=\s*([Ee0-9\+\-\.]+)] at the head of [s]:
    the two groups. *)
Definition block_start_at (s : list ascii) : option (string * string) :=
  s ← Py.literal (chars "step") s;
  s ← Py.literal (chars "=") (Py.lstrip_chars s);
  '(g1, s) ← Py.span1 Py.isdigit (Py.lstrip_chars s);
  s ← Py.blanks1 s;
  s ← Py.literal (chars "time") s;
  s ← Py.literal (chars "=") (Py.lstrip_chars s);
  '(g2, _) ← Py.span1 time_char (Py.lstrip_chars s);
  Some (string_of_list_ascii g1, string_of_list_ascii g2).

(** The leftmost match from here on; [prev_word] tells whether the
    character before is a word character, where [\b] cannot hold. *)
Fixpoint block_start_from (prev_word : bool) (s : list ascii)
    : option (string * string) :=
  match (if prev_word then None else block_start_at s) with
  | Some m => Some m
  | None =>
      match s with
      | [] => None
      | c :: s' => block_start_from (Py.isword c) s'
      end
  end.

(** [BLOCK_START_RE.search(raw)]: groups 1 and 2 of the match. *)
Definition BLOCK_START_RE (raw : string) : option (string * string) :=
  block_start_from false (chars raw).

(** [\s*i\s+x\s+v\s+rho\s+te\s+ti\s+depo] at the head of [s]. *)
Definition header_at (s : list ascii) : bool :=
  bool_decide (is_Some (
    s ← Py.literal (chars "i") (Py.lstrip_chars s);
    s ← Py.blanks1 s; s ← Py.literal (chars "x") s;
    s ← Py.blanks1 s; s ← Py.literal (chars "v") s;
    s ← Py.blanks1 s; s ← Py.literal (chars "rho") s;
    s ← Py.blanks1 s; s ← Py.literal (chars "te") s;
    s ← Py.blanks1 s; s ← Py.literal (chars "ti") s;
    s ← Py.blanks1 s; Py.literal (chars "depo") s)).

Fixpoint header_from (s : list ascii) : bool :=
  header_at s || match s with [] => false | _ :: s' => header_from s' end.

(** [HEADER_RE.search(raw)] as a truth value. *)
Definition HEADER_RE (raw : string) : bool := header_from (chars raw).

(** A flushed block: [step], [time_s] and the rows of [data]. *)
Record block : Type := Block {
  step : Z;
  time_s : float;
  data : list (list float)
}.

(** The block in progress, [cur]: [step], [time_s] and [rows]. *)
Record partial : Type := Partial {
  cur_step : Z;
  cur_time_s : float;
  rows : list (list float)
}.

(** [if cur and cur.get("rows"): ... blocks.append(cur)]. *)
Definition flush (blocks : list block) (cur : option partial) : list block :=
  match cur with
  | Some c =>
      match rows c with
      | [] => blocks
      | _ :: _ => blocks ++ [Block (cur_step c) (cur_time_s c) (rows c)]
      end
  | None => blocks
  end.

(** The body of the [for raw in stream] loop. *)
Definition parse_line (blocks : list block) (cur : option partial)
    (raw : string) : outcome (list block * option partial) :=
  match BLOCK_START_RE raw with
  | Some (g1, g2) =>
      let blocks := flush blocks cur in
      s ← Py.int g1;
      t ← Py.float g2;
      Ok (blocks, Some (Partial s t []))
  | None =>
      match cur with
      | None => Ok (blocks, cur)
      | Some c =>
          if HEADER_RE raw then Ok (blocks, cur)
          else
            let parts := Py.split (Py.strip raw) in
            if Py.len parts =? 7 then
              match mapM Py.float parts with
              | Ok row =>
                  Ok (blocks, Some (Partial (cur_step c) (cur_time_s c) (rows c ++ [row])))
              | Raise ValueError => Ok (blocks, cur)
              | Raise e => Raise e
              | OutOfFuel => OutOfFuel
              end
            else Ok (blocks, cur)
      end
  end.

Fixpoint parse_lines (stream : list string) (blocks : list block)
    (cur : option partial) : outcome (list block * option partial) :=
  match stream with
  | [] => Ok (blocks, cur)
  | raw :: stream' =>
      '(blocks, cur) ← parse_line blocks cur raw;
      parse_lines stream' blocks cur
  end.

Definition parse_block_ascii (stream : list string) : outcome (list block) :=
  '(blocks, cur) ← parse_lines stream [] None;
  let blocks := flush blocks cur in
  match blocks with
  | [] => Raise ValueError
  | _ :: _ => Ok blocks
  end.

(** [np.clip(a, lo, hi)] on integers: the value NumPy returns whenever it
    returns one, which it does for [0 <= hi] and for [a] in the range of a
    signed 64-bit integer.  With [hi = -1] (no blocks) and
    [2^63 <= a < 2^64] NumPy raises [OverflowError] instead; the
    properties on an empty sequence leave that range out. *)
Definition np_clip (a lo hi : Z) : Z := Z.min (Z.max a lo) hi.

(** The scan of NumPy's [argmin] over [float64]: [mp] the least value so
    far, at [best]; a value replaces it when [not (x >= mp)], and a NaN
    ends the scan as the answer. *)
Fixpoint argmin_from (mp : float) (best i : Z) (l : list float) : Z :=
  match l with
  | [] => best
  | x :: l' =>
      if negb (PrimFloat.leb mp x)
      then if PrimFloat.is_nan x then i else argmin_from x i (i + 1) l'
      else argmin_from mp best (i + 1) l'
  end.

(** [a.argmin()]. *)
Definition np_argmin (a : list float) : outcome Z :=
  match a with
  | [] => Raise ValueError
  | x :: l => Ok (if PrimFloat.is_nan x then 0 else argmin_from x 0 1 l)
  end.

(** [np.abs(times - target)]. *)
Definition abs_diff (times : list float) (target : float) : list float :=
  map (fun t => PrimFloat.abs (PrimFloat.sub t target)) times.

Definition pick_block (blocks : list block) (frame : option Z)
    (time_ps : option float) : outcome (block * Z) :=
  match frame with
  | Some frame =>
      let i := np_clip frame 0 (Py.len blocks - 1) in
      b ← Py.index blocks i; Ok (b, i)
  | None =>
      match time_ps with
      | Some time_ps =>
          let target := PrimFloat.mul time_ps 1e-12%float in
          let times := map time_s blocks in
          i ← np_argmin (abs_diff times target);
          b ← Py.index blocks i; Ok (b, i)
      | None =>
          b ← Py.index blocks (-1); Ok (b, Py.len blocks - 1)
      end
  end.

(** *** Format A: the classic [fort.10] parser *)

(** An open text file [fp]: the lines not yet read, each without its
    newline.  [fp.readline()] takes the first one; at the end of the file
    it returns the empty string, which is how the source tests for it. *)
Definition file : Type := list string.

(** One line of packed names: the slots [line[i:i+8]] at every eighth
    position, stripped, the blank ones dropped. *)
Definition name_chunks (line : string) : list string :=
  let chars := list_ascii_of_string line in
  let chunks :=
    map (fun i => string_of_list_ascii (Py.slice chars i (i + 8)))
        (Py.range_step (Py.len chars) 8) in
  filter (fun c => c <> "") (map Py.strip chunks).

Fixpoint _read_exact_names_loop (fp : file) (names : list string)
    (nfields : Z) : outcome (list string * file) :=
  if Py.len names <? nfields then
    match fp with
    | [] => Raise EOFError
    | line :: fp' => _read_exact_names_loop fp' (names ++ name_chunks line) nfields
    end
  else Ok (Py.slice_to names nfields, fp).

Definition _read_exact_names (fp : file) (nfields : Z)
    : outcome (list string * file) :=
  _read_exact_names_loop fp [] nfields.

(** [s.replace(",", " ")]. *)
Definition commas_to_spaces (s : string) : string :=
  string_of_list_ascii
    (map (fun c => if Ascii.eqb c ","%char then " "%char else c)
         (list_ascii_of_string s)).

Fixpoint _read_exact_ints_loop (fp : file) (vals : list Z) (nfields : Z)
    : outcome (list Z * file) :=
  if Py.len vals <? nfields then
    match fp with
    | [] => Raise EOFError
    | line :: fp' =>
        new ← mapM Py.int (Py.split (commas_to_spaces (Py.strip line)));
        _read_exact_ints_loop fp' (vals ++ new) nfields
    end
  else Ok (Py.slice_to vals nfields, fp).

Definition _read_exact_ints (fp : file) (nfields : Z)
    : outcome (list Z * file) :=
  _read_exact_ints_loop fp [] nfields.

(** A decoded section header: the variable directory and the number of
    values of one record. *)
Record section : Type := Section_ {
  items : list (string * Z);
  total_values : Z
}.

(** The compression loop of [_read_section_header], from position [i] with
    the descriptors emitted so far: [Some items] when the loop ran to the
    end ([ok] still true), [None] when it broke off at an inconsistent
    run. *)
Fixpoint compress (fuel : nat) (names : list string) (lens : list Z)
    (n_tokens i : Z) (items : list (string * Z))
    : outcome (option (list (string * Z))) :=
  match fuel with
  | O => OutOfFuel
  | S fuel' =>
      if i <? n_tokens then
        name ← Py.index names i;
        L ← Py.index lens i;
        if L =? 0 then
          compress fuel' names lens n_tokens (i + 1) (items ++ [(name, 0)])
        else
          let j := i + L in
          if (j <=? n_tokens)
             && forallb (fun n => String.eqb n name) (Py.slice names i j)
             && forallb (fun v => v =? L) (Py.slice lens i j)
          then compress fuel' names lens n_tokens j (items ++ [(name, L)])
          else Ok None
      else Ok (Some items)
  end.

(** [sum(1 if L == 0 else L for _, L in items)]. *)
Definition count_values (items : list (string * Z)) : Z :=
  Py.sum (map (fun it => if snd it =? 0 then 1 else snd it) items).

(** The directory built from the names and lengths of a header. *)
Definition build_items (fuel : nat) (names : list string) (lens : list Z)
    (n_tokens : Z) : outcome (list (string * Z)) :=
  r ← compress fuel names lens n_tokens 0 [];
  match r with
  | Some items => Ok items
  | None => Ok (zip names lens)
  end.

Definition _read_section_header (fuel : nat) (fp : file)
    : outcome (section * file) :=
  match fp with
  | [] => Raise EOFError
  | line :: fp =>
      tok ← Py.index (Py.split (Py.strip line)) 0;
      n_tokens ← Py.int tok;
      '(names, fp) ← _read_exact_names fp n_tokens;
      '(lens, fp) ← _read_exact_ints fp n_tokens;
      if negb (Py.len names =? Py.len lens) then Raise ValueError
      else
        items ← build_items fuel names lens n_tokens;
        Ok (Section_ items (count_values items), fp)
  end.

Fixpoint _read_values_loop (fp : file) (vals : list float) (nvals : Z)
    : outcome (list float * file) :=
  if Py.len vals <? nvals then
    match fp with
    | [] => Raise EOFError
    | line :: fp' =>
        new ← mapM Py.float (Py.split (Py.strip line));
        _read_values_loop fp' (vals ++ new) nvals
    end
  else Ok (Py.slice_to vals nvals, fp).

Definition _read_values (fp : file) (nvals : Z) : outcome (list float * file) :=
  _read_values_loop fp [] nvals.

Definition _skip_static (fuel : nat) (fp : file) : outcome file :=
  '(meta, fp) ← _read_section_header fuel fp;
  '(_, fp) ← _read_values fp (total_values meta);
  Ok fp.

(** What one frame appends to a variable's list: a value for a scalar, a
    list of values for an array. *)
Inductive entry : Type :=
| Scalar (v : float)
| Vector (vs : list float).

(** [np.array(seq, dtype=float)] on such a list. *)
Inductive ndarray : Type :=
| Array1 (vs : list float)
| Array2 (rows : list (list float)).

Definition as_scalar (e : entry) : outcome float :=
  match e with
  | Scalar v => Ok v
  | Vector _ => Raise ValueError
  end.

Definition as_row (width : nat) (e : entry) : outcome (list float) :=
  match e with
  | Vector vs => if Nat.eqb (length vs) width then Ok vs else Raise ValueError
  | Scalar _ => Raise ValueError
  end.

(** NumPy builds a one-dimensional array from numbers and a
    two-dimensional one from lists of one length; a ragged or mixed list
    is a [ValueError]. *)
Definition np_array (seq : list entry) : outcome ndarray :=
  match seq with
  | [] => Ok (Array1 [])
  | Scalar _ :: _ => vs ← mapM as_scalar seq; Ok (Array1 vs)
  | Vector v0 :: _ => rows ← mapM (as_row (length v0)) seq; Ok (Array2 rows)
  end.

Definition series : Type := gmap string (list entry).

(** [data[name].append(x)]. *)
Definition append_to (data : series) (name : string) (x : entry)
    : outcome series :=
  match data !! name with
  | Some seq => Ok (<[name := seq ++ [x]]> data)
  | None => Raise KeyError
  end.

(** The body of the frame loop after the values are read: the flat record
    is cut along the directory, from position [cur]. *)
Fixpoint store_frame (items : list (string * Z)) (vals : list float)
    (cur : Z) (data : series) : outcome series :=
  match items with
  | [] => Ok data
  | (name, L) :: items' =>
      if L =? 0 then
        seq ← (match data !! name with Some q => Ok q | None => Raise KeyError end);
        v ← Py.index vals cur;
        store_frame items' vals (cur + 1) (<[name := seq ++ [Scalar v]]> data)
      else
        data' ← append_to data name (Vector (Py.slice vals cur (cur + L)));
        store_frame items' vals (cur + L) data'
  end.

(** The [while True] loop of [read_classic_fort10]. *)
Fixpoint read_frames (fuel : nat) (fp : file) (rec_n : Z)
    (items : list (string * Z)) (data : series) : outcome series :=
  match fuel with
  | O => OutOfFuel
  | S fuel' =>
      match fp with
      | [] => Ok data
      | _ :: _ =>
          match _read_values fp rec_n with
          | Ok (vals, fp') =>
              data' ← store_frame items vals 0 data;
              read_frames fuel' fp' rec_n items data'
          | Raise EOFError => Ok data
          | Raise e => Raise e
          | OutOfFuel => OutOfFuel
          end
      end
  end.

(** [{name: [] for name, _ in items}]. *)
Definition empty_series (items : list (string * Z)) : series :=
  list_to_map (map (fun it => (fst it, [])) items).

(** The conversion loop at the end of [read_classic_fort10]. *)
Definition to_arrays (data : series) : outcome (gmap string ndarray) :=
  map_fold (fun k seq acc => out ← acc; arr ← np_array seq; Ok (<[k := arr]> out))
           (Ok ∅) data.

(** [read_classic_fort10], on the lines of the file at [path]. *)
Definition read_classic_fort10 (fuel : nat) (fp : file)
    : outcome (gmap string ndarray) :=
  fp ← _skip_static fuel fp;
  '(dyn, fp) ← _read_section_header fuel fp;
  data ← read_frames fuel fp (total_values dyn) (items dyn) (empty_series (items dyn));
  to_arrays data.

(** *** Auto-detection and the frame choice of [main] *)

Definition is_block_ascii_head (sample : string) : bool :=
  (Py.contains "step=" (Py.lower sample) && Py.contains "time=" (Py.lower sample))
  || Py.contains "ascii_ouput" (Py.lower sample).

(** The frame choice of [main] in the classic branch: [t] the [TIME]
    series, [Nt] the frame count of [R]. *)
Definition main_frame (t : list float) (Nt : Z) (frame : option Z)
    (time_ps : option float) : outcome Z :=
  match frame with
  | Some frame => Ok (np_clip frame 0 (Nt - 1))
  | None =>
      match time_ps with
      | Some time_ps => np_argmin (abs_diff t (PrimFloat.mul time_ps 1e-12%float))
      | None => Ok (Nt - 1)
      end
  end.

(** [x * unit_factor_to_um(args.xunit)] of [main], on the column [x]. *)
Definition x_um (x : list float) (xunit : option string) : outcome (list float) :=
  factor ← unit_factor_to_um xunit;
  Ok (map (fun v => PrimFloat.mul v factor) x).

(** *** The block branch of [main], up to the sort *)

(** [data.shape[1]] of the array made of the rows of a block. *)
Definition shape1 (data : list (list float)) : outcome Z :=
  match data with
  | row :: _ => Ok (Py.len row)
  | [] => Raise IndexError
  end.

(** [data[:, k]]. *)
Definition column (k : Z) (data : list (list float)) : outcome (list float) :=
  mapM (fun row => Py.index row k) data.

(** What [main] computes for a block file before it sorts and plots:
    [x_um], [rho], [t_ps] and [idx]. *)
Definition main_block (stream : list string) (frame : option Z)
    (time_ps : option float) (xunit : option string)
    : outcome (list float * list float * float * Z) :=
  blocks ← parse_block_ascii stream;
  '(blk, idx) ← pick_block blocks frame time_ps;
  width ← shape1 (data blk);
  if width <? 4 then Raise SystemExit
  else
    x ← column 1 (data blk);
    rho ← column 3 (data blk);
    let t_ps := PrimFloat.mul (time_s blk) 1e12%float in
    x_um ← x_um x xunit;
    Ok (x_um, rho, t_ps, idx).

End density_block.

(** ** [Test1/Ti_hot/density_plot.py]

    The earlier reader.  Its [_read_exact_names], [_read_values], frame loop
    and frame choice are, statement for statement, those of
    [density_block.py]; its integer reader and its header compression
    differ. *)

Module density_plot.

Import density_block.

Definition _read_exact_names := density_block._read_exact_names.

(** [tok.rstrip(",")]. *)
Fixpoint rstrip_commas_rev (s : list ascii) : list ascii :=
  match s with
  | c :: s' => if Ascii.eqb c ","%char then rstrip_commas_rev s' else s
  | [] => []
  end.

Definition rstrip_commas (s : string) : string :=
  string_of_list_ascii (rev (rstrip_commas_rev (rev (list_ascii_of_string s)))).

(** The inner [for tok in line.strip().split()] of [_read_exact_ints]. *)
Fixpoint ints_of_tokens (toks : list string) : outcome (list Z) :=
  match toks with
  | [] => Ok []
  | tok :: toks' =>
      let tok := rstrip_commas (Py.strip tok) in
      if bool_decide (tok = "") then ints_of_tokens toks'
      else v ← Py.int tok; vs ← ints_of_tokens toks'; Ok (v :: vs)
  end.

Fixpoint _read_exact_ints_loop (fp : file) (vals : list Z) (nfields : Z)
    : outcome (list Z * file) :=
  if Py.len vals <? nfields then
    match fp with
    | [] => Raise EOFError
    | line :: fp' =>
        new ← ints_of_tokens (Py.split (Py.strip line));
        _read_exact_ints_loop fp' (vals ++ new) nfields
    end
  else Ok (Py.slice_to vals nfields, fp).

Definition _read_exact_ints (fp : file) (nfields : Z) : outcome (list Z * file) :=
  _read_exact_ints_loop fp [] nfields.

(** The compression loop of [_read_section_header]: a run that passes the
    end or is not uniform raises. *)
Fixpoint compress (fuel : nat) (names_repeated : list string)
    (lens_repeated : list Z) (n_elems i : Z) (items : list (string * Z))
    : outcome (list (string * Z)) :=
  match fuel with
  | O => OutOfFuel
  | S fuel' =>
      if i <? n_elems then
        name ← Py.index names_repeated i;
        L ← Py.index lens_repeated i;
        if L =? 0 then
          compress fuel' names_repeated lens_repeated n_elems (i + 1)
                   (items ++ [(name, 0)])
        else if n_elems <? i + L then Raise ValueError
        else if existsb (fun n => negb (String.eqb n name))
                        (Py.slice names_repeated i (i + L))
                || existsb (fun v => negb (v =? L))
                           (Py.slice lens_repeated i (i + L))
        then Raise ValueError
        else compress fuel' names_repeated lens_repeated n_elems (i + L)
                      (items ++ [(name, L)])
      else Ok items
  end.

Definition _read_section_header (fuel : nat) (fp : file)
    : outcome (section * file) :=
  match fp with
  | [] => Raise EOFError
  | n_elems_line :: fp =>
      tok ← Py.index (Py.split (Py.strip n_elems_line)) 0;
      n_elems ← Py.int tok;
      '(names_repeated, fp) ← _read_exact_names fp n_elems;
      '(lens_repeated, fp) ← _read_exact_ints fp n_elems;
      if negb (Py.len names_repeated =? Py.len lens_repeated) then Raise ValueError
      else
        items ← compress fuel names_repeated lens_repeated n_elems 0 [];
        Ok (Section_ items (count_values items), fp)
  end.

Definition _read_values := density_block._read_values.

Definition _skip_static_section (fuel : nat) (fp : file) : outcome file :=
  '(meta, fp) ← _read_section_header fuel fp;
  '(_, fp) ← _read_values fp (total_values meta);
  Ok fp.

(** [read_fort10_dynamic], on the lines of the file at [path]. *)
Definition read_fort10_dynamic (fuel : nat) (fp : file)
    : outcome (gmap string ndarray) :=
  fp ← _skip_static_section fuel fp;
  '(dyn_meta, fp) ← _read_section_header fuel fp;
  data ← read_frames fuel fp (total_values dyn_meta) (items dyn_meta)
                     (empty_series (items dyn_meta));
  to_arrays data.

(** The frame choice of [main]. *)
Definition main_frame := density_block.main_frame.

End density_plot.

(** * Vocabulary of the properties *)

Import density_block.

(** [sub] occurs in [s] as a contiguous piece. *)
Definition occurs_in (sub s : string) : Prop :=
  exists p q : string, s = (p ++ sub ++ q)%string.

(** The numbers on one line: [[float(t) for t in line.strip().split()]]. *)
Definition line_values (line : string) : outcome (list float) :=
  mapM Py.float (Py.split (Py.strip line)).

(** The numbers on several lines, in reading order. *)
Fixpoint values_of (lines : list string) : outcome (list float) :=
  match lines with
  | [] => Ok []
  | line :: lines' =>
      a ← line_values line; b ← values_of lines'; Ok (a ++ b)
  end.

(** [chunk] is the run of lines that holds one record of [n] values: its
    lines but the last hold fewer than [n] numbers, with the last they are
    [n] or more, and [vals] are the first [n]. *)
Definition record_lines (n : Z) (chunk : list string) (vals : list float) : Prop :=
  exists pre line vp vl,
    chunk = pre ++ [line] /\
    values_of pre = Ok vp /\ line_values line = Ok vl /\
    Py.len vp < n <= Py.len vp + Py.len vl /\
    vals = firstn (Z.to_nat n) (vp ++ vl).

(** The frames stored one after the other, as the frame loop does. *)
Fixpoint store_frames (items : list (string * Z)) (frames : list (list float))
    (data : series) : outcome series :=
  match frames with
  | [] => Ok data
  | vals :: frames' =>
      data' ← store_frame items vals 0 data;
      store_frames items frames' data'
  end.

(** [rle pairs items]: the (name, length) pairs of a header are a
    consistent run-length encoding, and [items] are its descriptors: a pair
    of length 0 is a scalar, a positive length [L] begins a run of [L] equal
    pairs, which is one array of [L] cells. *)
Inductive rle : list (string * Z) -> list (string * Z) -> Prop :=
| rle_nil : rle [] []
| rle_scalar (name : string) (rest items : list (string * Z)) :
    rle rest items ->
    rle ((name, 0) :: rest) ((name, 0) :: items)
| rle_array (name : string) (L : Z) (rest items : list (string * Z)) :
    0 < L ->
    rle rest items ->
    rle (replicate (Z.to_nat L) (name, L) ++ rest) ((name, L) :: items).

(** The run that starts at position [i] with length [L] is uniform: it
    ends within the [n] pairs, repeats one name and one length. *)
Definition uniform_run (names : list string) (lens : list Z) (n i : Z)
    (name : string) (L : Z) : Prop :=
  i + L <= n /\
  Forall (fun x => x = name) (Py.slice names i (i + L)) /\
  Forall (fun v => v = L) (Py.slice lens i (i + L)).

(** A character that is neither [p] nor [x] in any case: every character
    of a number, and every blank, is one. *)
Definition plain (c : ascii) : bool :=
  negb (Ascii.eqb (Py.lower_char c) "p"%char)
  && negb (Ascii.eqb (Py.lower_char c) "x"%char).

(** A marker line: [BLOCK_START_RE] matches, and its groups convert to the
    step [s] and the time [t]. *)
Definition marker_line (raw : string) (s : Z) (t : float) : Prop :=
  exists g1 g2,
    BLOCK_START_RE raw = Some (g1, g2) /\ Py.int g1 = Ok s /\ Py.float g2 = Ok t.

(** A data row: exactly seven blank-separated tokens, all of them numbers. *)
Definition data_row (raw : string) (row : list float) : Prop :=
  Py.len (Py.split (Py.strip raw)) = 7 /\ line_values raw = Ok row.

(** A line the block reader passes over inside a block: no marker, and
    either column labels, or not seven tokens, or a token that is no
    number. *)
Definition ignored_line (raw : string) : Prop :=
  BLOCK_START_RE raw = None /\
  (HEADER_RE raw = true \/
   Py.len (Py.split (Py.strip raw)) <> 7 \/
   line_values raw = Raise ValueError).

(** The lines of one block: its marker, then its data rows, at least one. *)
Definition segment_lines (seg : list string) (b : block) : Prop :=
  exists m rows,
    seg = m :: rows /\ marker_line m (step b) (time_s b) /\
    Forall2 data_row rows (data b) /\ data b <> [].

(** A flushed block as the caller may rely on it: at least one row, and
    every row of seven numbers. *)
Definition well_formed_block (b : block) : Prop :=
  data b <> [] /\ Forall (fun row => length row = 7%nat) (data b).

(** A key that orders the binary64 numbers other than NaN as the
    comparisons of the format do: sign class, then exponent, then
    mantissa. *)
Definition sf_key (f : spec_float) : Z * Z * Z :=
  match f with
  | S754_infinity true => (-2, 0, 0)
  | S754_finite true m e => (-1, - e, - Zpos m)
  | S754_zero _ => (0, 0, 0)
  | S754_nan => (0, 0, 0)
  | S754_finite false m e => (1, e, Zpos m)
  | S754_infinity false => (2, 0, 0)
  end.

Definition key_lt (a b : Z * Z * Z) : Prop :=
  fst (fst a) < fst (fst b) \/
  (fst (fst a) = fst (fst b) /\
   (snd (fst a) < snd (fst b) \/ (snd (fst a) = snd (fst b) /\ snd a < snd b))).

Definition key_le (a b : Z * Z * Z) : Prop :=
  fst (fst a) < fst (fst b) \/
  (fst (fst a) = fst (fst b) /\
   (snd (fst a) < snd (fst b) \/ (snd (fst a) = snd (fst b) /\ snd a <= snd b))).

(** [d] at position [i] of [a] is a least element of [a], and the first
    such: nothing in [a] is below it, everything before it is above it. *)
Definition first_minimum (a : list float) (i : nat) (d : float) : Prop :=
  nth_error a i = Some d /\
  forall j dj, nth_error a j = Some dj ->
    PrimFloat.leb d dj = true /\ ((j < i)%nat -> PrimFloat.ltb d dj = true).

(** The (name, length) pairs that a directory stands for: a scalar is one
    pair, an array of [L] cells is [L] equal pairs. *)
Definition expand (items : list (string * Z)) : list (string * Z) :=
  flat_map (fun it => if snd it =? 0 then [it] else replicate (Z.to_nat (snd it)) it)
           items.

(** An entry of the kind a descriptor of length [L] stores: a number for a
    scalar, a list of [L] numbers for an array. *)
Definition entry_fits (L : Z) (e : entry) : Prop :=
  match e with
  | Scalar _ => L = 0
  | Vector vs => L <> 0 /\ Py.len vs = L
  end.

(** [data] holds [F] frames of the directory [items]: it has the names of
    the directory for keys, and under each name [F] entries of its kind. *)
Definition holds_frames (items : list (string * Z)) (F : nat) (data : series) : Prop :=
  (forall k, is_Some (data !! k) -> k ∈ items.*1) /\
  forall name L, (name, L) ∈ items ->
    exists seq, data !! name = Some seq /\ length seq = F /\
                Forall (entry_fits L) seq.

(** The extent of an array along its first axis. *)
Definition nframes (a : ndarray) : nat :=
  match a with
  | Array1 vs => length vs
  | Array2 rows => length rows
  end.

(** A small classic file: a static section of two scalars with its record,
    a dynamic section [TIME], [R] (two cells), [XC], two complete frames,
    and a third frame that the end of the file cuts after two values. *)
Definition fort10_static : file :=
  [ "2"; "NX      DT      "; "0 0"; "10 0.5" ].

Definition fort10_dynamic_header : file :=
  [ "4"; "TIME    R       R       XC      "; "0 2 2 0" ].

Definition fort10_cut : file :=
  fort10_static ++ fort10_dynamic_header ++
  [ "0.0 1.0 2.0"; "3.0"; "1e-12 4.0 5.0 6.0"; "2e-12 7.0" ].

(** * Properties *)

(** ** Length units *)

Ltac float_neq :=
  let H := fresh "H" in
  let E := fresh "E" in
  intros H; injection H as E;
  apply (f_equal Prim2SF) in E; vm_compute in E; discriminate E.

(** C9, as the source has it.  [unit_factor_to_um] lower-cases the unit
    (an absent one counts as the empty text) and looks it up in three tuples:
    the factor is 1e4 exactly for [cm]; 1e6 exactly for [m], [meter] and
    [meters]; 1.0 exactly for [um], [µm], [micron] and [microns]; a unit
    whose lower-case spelling is none of these eight exits with [SystemExit]
    and gives no factor.  [x_um] multiplies each value by the factor, so one
    centimetre is 1e4 and one metre 1e6 micrometres. *)
Theorem unit_factor_to_um_table (xunit : option string) :
  let u := Py.lower (default "" xunit) in
  (unit_factor_to_um xunit = Ok 1e4%float <-> u = "cm") /\
  (unit_factor_to_um xunit = Ok 1e6%float <-> u ∈ ["m"; "meter"; "meters"]) /\
  (unit_factor_to_um xunit = Ok 1.0%float <->
     u ∈ ["um"; "µm"; "micron"; "microns"]) /\
  (unit_factor_to_um xunit = Raise SystemExit <->
     u ∉ ["cm"; "m"; "meter"; "meters"; "um"; "µm"; "micron"; "microns"]) /\
  (forall x : list float,
     x_um x xunit =
     match unit_factor_to_um xunit with
     | Ok factor => Ok (map (fun v => PrimFloat.mul v factor) x)
     | Raise e => Raise e
     | OutOfFuel => OutOfFuel
     end) /\
  x_um [1.0%float] (Some "cm") = Ok [1e4%float] /\
  x_um [1.0%float] (Some "m") = Ok [1e6%float] /\
  x_um [1.0%float] (Some "ft") = Raise SystemExit.
Proof.
  cbv zeta. unfold unit_factor_to_um.
  set (u := Py.lower (default "" xunit)).
  assert (Hcm : u ∈ ["cm"] <-> u = "cm") by (rewrite list_elem_of_singleton; tauto).
  repeat split; try (vm_compute; reflexivity).
  - repeat case_bool_decide; intros HH; try discriminate HH; try (exfalso; revert HH; float_neq);
      tauto.
  - intros E. rewrite bool_decide_eq_true_2; [reflexivity | apply Hcm, E].
  - repeat case_bool_decide; intros HH; try discriminate HH; try (exfalso; revert HH; float_neq);
      assumption.
  - intros H. case_bool_decide as H1.
    + exfalso. apply Hcm in H1. rewrite H1 in H. revert H.
      rewrite !elem_of_cons, elem_of_nil. intros [H|[H|[H|[]]]]; discriminate H.
    + rewrite bool_decide_eq_true_2; [reflexivity | assumption].
  - repeat case_bool_decide; intros HH; try discriminate HH; try (exfalso; revert HH; float_neq);
      assumption.
  - intros H. case_bool_decide as H1; [|case_bool_decide as H2].
    + exfalso. apply Hcm in H1. rewrite H1 in H. revert H.
      rewrite !elem_of_cons, elem_of_nil. intros [H|[H|[H|[H|[]]]]]; discriminate H.
    + exfalso. revert H H2. rewrite !elem_of_cons, !elem_of_nil.
      intros [->|[->|[->|[->|[]]]]] [H|[H|[H|[]]]]; discriminate H.
    + rewrite bool_decide_eq_true_2; [reflexivity | assumption].
  - repeat case_bool_decide; intros HH; try discriminate HH.
    rewrite !elem_of_cons, elem_of_nil in *. tauto.
  - intros H. rewrite !elem_of_cons, elem_of_nil in H.
    repeat (case_bool_decide as Hx;
            [exfalso; revert Hx; rewrite !elem_of_cons, elem_of_nil; tauto | clear Hx]).
    reflexivity.
Qed.

(** C9, the claim as written fails: [meter] is outside the units the claim
    lists, and is converted (as metres) instead of being refused. *)
Lemma unit_factor_to_um_meter_not_refused :
  ("meter" ∉ ["cm"; "m"; "um"; "µm"; "micron"]) /\
  unit_factor_to_um (Some "meter") = Ok 1e6%float /\
  unit_factor_to_um (Some "meter") <> Raise SystemExit.
Proof.
  split; [|split].
  - rewrite !elem_of_cons, elem_of_nil.
    intros [H|[H|[H|[H|[H|[]]]]]]; discriminate H.
  - vm_compute. reflexivity.
  - vm_compute. discriminate.
Qed.

(** ** Text helpers *)

Lemma chars_app (a b : string) :
  list_ascii_of_string (a ++ b) = list_ascii_of_string a ++ list_ascii_of_string b.
Proof.
  induction a as [|c a IH]; simpl; [reflexivity | now rewrite IH].
Qed.

Lemma contains_chars_spec (sub s : list ascii) :
  Py.contains_chars sub s = true <-> exists p q, s = p ++ sub ++ q.
Proof.
  induction s as [|c s IH]; simpl.
  - destruct sub as [|d sub]; split; try discriminate; try reflexivity.
    + intros _. exists [], []. reflexivity.
    + intros (p & q & E). destruct p; discriminate E.
  - rewrite orb_true_iff, bool_decide_eq_true, IH. split.
    + intros [E | (p & q & E)].
      * exists [], (skipn (length sub) (c :: s)). simpl.
        rewrite <- E at 1. symmetry. apply firstn_skipn.
      * exists (c :: p), q. simpl. now rewrite E.
    + intros (p & q & E). destruct p as [|c' p]; simpl in E.
      * left. rewrite E. rewrite firstn_app, Nat.sub_diag, firstn_all. simpl.
        apply app_nil_r.
      * right. injection E as _ E. exists p, q. exact E.
Qed.

Lemma contains_spec (sub s : string) :
  Py.contains sub s = true <-> occurs_in sub s.
Proof.
  unfold Py.contains, occurs_in. rewrite contains_chars_spec. split.
  - intros (p & q & E).
    exists (string_of_list_ascii p), (string_of_list_ascii q).
    apply (f_equal string_of_list_ascii) in E.
    rewrite string_of_list_ascii_of_string in E. rewrite E.
    rewrite <- (string_of_list_ascii_of_string (_ ++ _ ++ _)%string).
    f_equal. now rewrite !chars_app, !list_ascii_of_string_of_list_ascii.
  - intros (p & q & ->).
    exists (list_ascii_of_string p), (list_ascii_of_string q).
    now rewrite !chars_app.
Qed.

(** ** Format detection *)

(** C4, as the source has it.  [is_block_ascii_head] never raises (it is a
    total truth-valued function of the sample) and answers block format
    exactly when the lower-cased sample contains both [step=] and [time=],
    or contains [ascii_ouput]; the classic format is chosen in every other
    case. *)
Theorem is_block_ascii_head_spec (sample : string) :
  (is_block_ascii_head sample = true <->
     (occurs_in "step=" (Py.lower sample) /\ occurs_in "time=" (Py.lower sample))
     \/ occurs_in "ascii_ouput" (Py.lower sample)) /\
  (is_block_ascii_head sample = false <->
     ~ (occurs_in "step=" (Py.lower sample) /\ occurs_in "time=" (Py.lower sample))
     /\ ~ occurs_in "ascii_ouput" (Py.lower sample)).
Proof.
  unfold is_block_ascii_head.
  rewrite <- !contains_spec.
  destruct (Py.contains "step=" _), (Py.contains "time=" _),
    (Py.contains "ascii_ouput" _); simpl; intuition congruence.
Qed.

(** C4, the claim as written fails: a sample with [ascii_ouput] and neither
    marker is taken for block format, not classic. *)
Lemma is_block_ascii_head_ascii_ouput :
  ~ occurs_in "step=" (Py.lower "# ASCII_OUPUT of run 7") /\
  ~ occurs_in "time=" (Py.lower "# ASCII_OUPUT of run 7") /\
  is_block_ascii_head "# ASCII_OUPUT of run 7" = true.
Proof.
  rewrite <- !contains_spec. repeat split; vm_compute; congruence.
Qed.

(** ** Records of the classic format *)

Lemma len_app {A} (l k : list A) : Py.len (l ++ k) = Py.len l + Py.len k.
Proof. unfold Py.len. rewrite length_app. lia. Qed.

Lemma len_nonneg {A} (l : list A) : 0 <= Py.len l.
Proof. unfold Py.len. lia. Qed.

Lemma slice_to_firstn {A} (l : list A) (n : Z) :
  0 <= n -> Py.slice_to l n = firstn (Z.to_nat n) l.
Proof.
  intros Hn. unfold Py.slice_to, Py.slice, Py.bound.
  destruct (0 <? 0) eqn:E0; [lia|].
  destruct (n <? 0) eqn:En; [lia|].
  rewrite (Z.min_l 0) by lia. rewrite Z.sub_0_r.
  change (skipn (Z.to_nat 0) l) with l.
  destruct (Z.le_ge_cases n (Z.of_nat (length l))) as [H|H].
  - now rewrite Z.min_l by lia.
  - rewrite Z.min_r by lia. rewrite Nat2Z.id.
    rewrite firstn_all. symmetry. apply firstn_all2. lia.
Qed.

(** Lines that leave the record short are read through. *)
Lemma _read_values_loop_skip (pre fp : list string) (vals vp : list float) (n : Z) :
  values_of pre = Ok vp -> Py.len (vals ++ vp) < n ->
  _read_values_loop (pre ++ fp) vals n = _read_values_loop fp (vals ++ vp) n.
Proof.
  revert vals vp. induction pre as [|line pre IH]; intros vals vp Hv Hlen.
  - injection Hv as <-. now rewrite app_nil_r.
  - simpl in Hv. unfold line_values in Hv.
    destruct (mapM Py.float (Py.split (Py.strip line))) as [a| |] eqn:Ea;
      try discriminate Hv.
    destruct (values_of pre) as [b| |] eqn:Eb; try discriminate Hv.
    simpl in Hv. injection Hv as <-.
    rewrite app_assoc, len_app in Hlen. pose proof (len_nonneg b).
    simpl. destruct (Py.len vals <? n) eqn:E.
    + rewrite Ea. simpl. rewrite (IH (vals ++ a) b eq_refl) by (rewrite len_app; lia).
      now rewrite app_assoc.
    + rewrite len_app in Hlen. pose proof (len_nonneg a). lia.
Qed.

(** The line that completes the record ends the read; what it holds beyond
    the record is cut off. *)
Lemma _read_values_loop_last (line : string) (fp : list string)
    (vals vl : list float) (n : Z) :
  line_values line = Ok vl -> Py.len vals < n <= Py.len vals + Py.len vl ->
  _read_values_loop (line :: fp) vals n = Ok (firstn (Z.to_nat n) (vals ++ vl), fp).
Proof.
  intros Hl [H1 H2]. simpl.
  destruct (Py.len vals <? n) eqn:E; [|lia].
  unfold line_values in Hl. rewrite Hl. simpl.
  destruct fp; simpl; rewrite len_app;
    (destruct (Py.len vals + Py.len vl <? n) eqn:E'; [lia|]);
    rewrite slice_to_firstn by (pose proof (len_nonneg vals); lia); reflexivity.
Qed.

(** Lines that end before the record is complete: [EOFError]. *)
Lemma _read_values_loop_eof (tail : list string) (vals vs : list float) (n : Z) :
  values_of tail = Ok vs -> Py.len (vals ++ vs) < n ->
  _read_values_loop tail vals n = Raise EOFError.
Proof.
  intros Hv Hlen.
  rewrite <- (app_nil_r tail), (_read_values_loop_skip _ _ _ _ _ Hv Hlen).
  simpl. destruct (_ <? n) eqn:E; [reflexivity | lia].
Qed.

Lemma _read_values_chunk (n : Z) (chunk fp : list string) (vals : list float) :
  record_lines n chunk vals ->
  _read_values (chunk ++ fp) n = Ok (vals, fp) /\ Py.len vals = n.
Proof.
  intros (pre & line & vp & vl & -> & Hp & Hl & [H1 H2] & ->).
  pose proof (len_nonneg vp). split.
  - unfold _read_values. rewrite <- app_assoc.
    rewrite (_read_values_loop_skip _ _ [] vp n Hp) by (simpl; lia).
    simpl app. now apply _read_values_loop_last.
  - unfold Py.len. rewrite length_firstn, length_app.
    unfold Py.len in *. lia.
Qed.

(** C7, as the source has it.  For a record of [nvals] values,
    [_read_values] reads whole lines until they hold [nvals] numbers or
    more, and returns exactly the first [nvals] of them: the record may
    span several lines ([pre] and then [line]).  The numbers that [line]
    holds beyond the record are not kept, and the next read starts at the
    line after it ([fp]).  [density_plot.py] has the same function. *)
Theorem _read_values_record (pre : list string) (line : string) (fp : file)
    (vp vl : list float) (nvals : Z) :
  values_of pre = Ok vp ->
  line_values line = Ok vl ->
  Py.len vp < nvals <= Py.len vp + Py.len vl ->
  _read_values (pre ++ line :: fp) nvals
    = Ok (firstn (Z.to_nat nvals) (vp ++ vl), fp) /\
  density_plot._read_values (pre ++ line :: fp) nvals
    = Ok (firstn (Z.to_nat nvals) (vp ++ vl), fp) /\
  Py.len (firstn (Z.to_nat nvals) (vp ++ vl)) = nvals.
Proof.
  intros Hp Hl Hn.
  destruct (_read_values_chunk nvals (pre ++ [line]) fp
              (firstn (Z.to_nat nvals) (vp ++ vl))) as [H1 H2].
  { exists pre, line, vp, vl. repeat split; try assumption; apply Hn. }
  rewrite <- app_assoc in H1. simpl in H1.
  repeat split; assumption.
Qed.

Lemma _read_values_record_witness :
  _read_values (["1 2"] ++ "3 4 5" :: ["6 7"]) 4
    = Ok (firstn (Z.to_nat 4) ([1; 2] ++ [3; 4; 5])%float, ["6 7"]) /\
  density_plot._read_values (["1 2"] ++ "3 4 5" :: ["6 7"]) 4
    = Ok (firstn (Z.to_nat 4) ([1; 2] ++ [3; 4; 5])%float, ["6 7"]) /\
  Py.len (firstn (Z.to_nat 4) ([1; 2] ++ [3; 4; 5])%float) = 4.
Proof.
  apply (_read_values_record ["1 2"] "3 4 5" ["6 7"]).
  - vm_compute. reflexivity.
  - vm_compute. reflexivity.
  - vm_compute. split; [reflexivity | discriminate].
Defined.

(** C7, the claim as written fails: two records of two values read from
    the lines [1 2 3] and [4 5 6] are [1 2] and [4 5]; the 3 between them is
    dropped with the rest of its line. *)
Lemma _read_values_drops_rest_of_line :
  _read_values ["1 2 3"; "4 5 6"] 2 = Ok ([1; 2]%float, ["4 5 6"]) /\
  _read_values ["4 5 6"] 2 = Ok ([4; 5]%float, []) /\
  values_of ["1 2 3"; "4 5 6"] = Ok [1; 2; 3; 4; 5; 6]%float.
Proof. repeat split; vm_compute; reflexivity. Qed.

(** ** The frame loop *)

Lemma read_frames_records (items : list (string * Z)) (n : Z)
    (chunks : list (list string)) (frames : list (list float))
    (tail : list string) (vs : list float) :
  Forall2 (record_lines n) chunks frames ->
  values_of tail = Ok vs -> Py.len vs < n ->
  forall (fuel : nat) (data : series),
    (length (concat chunks ++ tail) < fuel)%nat ->
    read_frames fuel (concat chunks ++ tail) n items data
    = store_frames items frames data.
Proof.
  intros HF Ht Hn. induction HF as [|chunk vals chunks frames Hc HF IH];
    intros fuel data Hfuel.
  - simpl in *. destruct fuel as [|fuel]; [lia|]. simpl.
    destruct tail as [|l tail]; [reflexivity|].
    unfold _read_values.
    now rewrite (_read_values_loop_eof (l :: tail) [] vs n Ht Hn).
  - destruct fuel as [|fuel]; [simpl in Hfuel; lia|].
    simpl concat in *. rewrite <- app_assoc in *.
    destruct (_read_values_chunk n chunk (concat chunks ++ tail) vals Hc) as [Hr _].
    assert (Hne : chunk <> []).
    { destruct Hc as (pre & line & _ & _ & -> & _). now destruct pre. }
    simpl. destruct chunk as [|l chunk]; [congruence|].
    simpl app in *. rewrite Hr. simpl.
    destruct (store_frame items vals 0 data) as [data'| |]; simpl; try reflexivity.
    apply IH. simpl in Hfuel. rewrite (length_app chunk) in Hfuel. lia.
Qed.

Lemma index_raises {A} (l : list A) (i : Z) (e : exn) :
  Py.index l i = Raise e -> e = IndexError.
Proof.
  unfold Py.index. destruct (_ && _); [destruct (nth_error _ _)|]; congruence.
Qed.

Lemma index_fuel {A} (l : list A) (i : Z) : Py.index l i <> OutOfFuel.
Proof.
  unfold Py.index. destruct (_ && _); [destruct (nth_error _ _)|]; congruence.
Qed.

(** Storing a frame can only fail on a missing key or a short record. *)
Lemma store_frame_raises (items : list (string * Z)) (vals : list float) :
  forall (cur : Z) (data : series),
    store_frame items vals cur data <> OutOfFuel /\
    forall e, store_frame items vals cur data = Raise e ->
              e = KeyError \/ e = IndexError.
Proof.
  induction items as [|[name L] items IH]; intros cur data; simpl.
  - split; [discriminate | intros e H; discriminate H].
  - destruct (L =? 0).
    + destruct (data !! name) as [seq|]; simpl.
      * pose proof (index_raises vals cur) as Hi.
        pose proof (index_fuel vals cur) as Hf.
        destruct (Py.index vals cur) as [v|e'|]; simpl.
        -- apply IH.
        -- split; [discriminate|]. intros e [= <-]. right. now apply Hi.
        -- congruence.
      * split; [discriminate|]. intros e [= <-]. now left.
    + unfold append_to. destruct (data !! name) as [seq|]; simpl.
      * apply IH.
      * split; [discriminate|]. intros e [= <-]. now left.
Qed.

Lemma store_frames_raises (items : list (string * Z)) (frames : list (list float)) :
  forall data : series,
    store_frames items frames data <> OutOfFuel /\
    forall e, store_frames items frames data = Raise e ->
              e = KeyError \/ e = IndexError.
Proof.
  induction frames as [|vals frames IH]; intros data; simpl.
  - split; [discriminate | intros e H; discriminate H].
  - destruct (store_frame_raises items vals 0 data) as [Hf Hr].
    destruct (store_frame items vals 0 data) as [data'|e'|]; simpl.
    + apply IH.
    + split; [discriminate|]. intros e [= <-]. now apply Hr.
    + congruence.
Qed.

Lemma mapM_raises {A B} (f : A -> outcome B) (l : list A) (e0 : exn) :
  (forall x, f x <> OutOfFuel) ->
  (forall x e, f x = Raise e -> e = e0) ->
  mapM f l <> OutOfFuel /\ forall e, mapM f l = Raise e -> e = e0.
Proof.
  intros Hf Hr. induction l as [|x l [IH1 IH2]]; simpl.
  - split; [discriminate | intros e H; discriminate H].
  - specialize (Hf x). specialize (Hr x).
    destruct (f x) as [y|e'|]; simpl; [| |congruence].
    + destruct (mapM f l) as [k|e'|]; simpl; [| |congruence].
      * split; [discriminate | intros e H; discriminate H].
      * split; [discriminate|]. intros e [= <-]. now apply IH2.
    + split; [discriminate|]. intros e [= <-]. now apply Hr.
Qed.

Lemma np_array_raises (seq : list entry) :
  np_array seq <> OutOfFuel /\ forall e, np_array seq = Raise e -> e = ValueError.
Proof.
  assert (Hs : forall k : list entry,
             mapM as_scalar k <> OutOfFuel /\
             forall e, mapM as_scalar k = Raise e -> e = ValueError).
  { intros k. apply mapM_raises; intros []; simpl; congruence. }
  assert (Hv : forall w (k : list entry),
             mapM (as_row w) k <> OutOfFuel /\
             forall e, mapM (as_row w) k = Raise e -> e = ValueError).
  { intros w k. apply mapM_raises; intros []; simpl;
      try destruct (Nat.eqb _ _); congruence. }
  destruct seq as [|[v|v0] seq]; cbn [np_array].
  - split; [discriminate | intros e H; discriminate H].
  - destruct (Hs (Scalar v :: seq)) as [H1 H2].
    destruct (mapM as_scalar _) as [vs|e'|]; simpl; [| |congruence].
    + split; [discriminate | intros e H; discriminate H].
    + split; [discriminate|]. intros e [= <-]. now apply H2.
  - destruct (Hv (length v0) (Vector v0 :: seq)) as [H1 H2].
    destruct (mapM (as_row _) _) as [vs|e'|]; simpl; [| |congruence].
    + split; [discriminate | intros e H; discriminate H].
    + split; [discriminate|]. intros e [= <-]. now apply H2.
Qed.

(** The conversion to arrays can only fail with [ValueError]. *)
Lemma to_arrays_raises (data : series) :
  to_arrays data <> OutOfFuel /\ forall e, to_arrays data = Raise e -> e = ValueError.
Proof.
  unfold to_arrays.
  apply (map_fold_weak_ind
           (fun (r : outcome (gmap string ndarray)) (_ : series) =>
              r <> OutOfFuel /\ forall e, r = Raise e -> e = ValueError)).
  - split; [discriminate | intros e H; discriminate H].
  - intros k seq m r _ [IH1 IH2].
    destruct r as [out|e'|]; simpl; [| |congruence].
    + destruct (np_array_raises seq) as [H1 H2].
      destruct (np_array seq) as [arr|e'|]; simpl; [| |congruence].
      * split; [discriminate | intros e H; discriminate H].
      * split; [discriminate|]. intros e [= <-]. now apply H2.
    + split; [discriminate|]. intros e [= <-]. now apply IH2.
Qed.

(** What the frame loop and the conversion return for a stream that holds
    the records [frames] and then ends, inside a record or not. *)
Lemma frames_then_arrays (fuel : nat) (dyn : section)
    (chunks : list (list string)) (frames : list (list float))
    (tail : list string) (vs : list float) :
  Forall2 (record_lines (total_values dyn)) chunks frames ->
  values_of tail = Ok vs -> Py.len vs < total_values dyn ->
  (length (concat chunks ++ tail) < fuel)%nat ->
  let result :=
    read_frames fuel (concat chunks ++ tail) (total_values dyn) (items dyn)
                (empty_series (items dyn)) ≫= to_arrays in
  result = store_frames (items dyn) frames (empty_series (items dyn)) ≫= to_arrays
  /\ result <> Raise EOFError /\ result <> OutOfFuel.
Proof.
  intros HF Ht Hn Hfuel result. subst result.
  rewrite (read_frames_records _ _ _ _ _ _ HF Ht Hn fuel _ Hfuel).
  split; [reflexivity|].
  destruct (store_frames_raises (items dyn) frames (empty_series (items dyn)))
    as [H1 H2].
  destruct (store_frames _ _ _) as [data|e|]; simpl; [| |congruence].
  - destruct (to_arrays_raises data) as [H3 H4].
    split; [|exact H3]. intros H. apply H4 in H. discriminate H.
  - split; [|discriminate]. intros [= ->]. destruct (H2 _ eq_refl); discriminate.
Qed.

(** ** End of the stream in the classic readers *)

(** C1, as the source has it.  After the two headers the stream holds the
    complete records [frames] and then ends, either at a frame boundary
    ([tail] holds no number) or inside a frame ([tail] holds some but fewer
    than [total_values] numbers).  In both cases the reader stops cleanly:
    it returns the arrays built from the complete frames, the values of a
    cut frame are dropped, and no [EOFError] leaves the reader.  The same
    holds for [read_fort10_dynamic] of [density_plot.py]. *)
Theorem read_classic_fort10_end_of_stream (fuel : nat) (fp fp1 : file)
    (dyn : section) (chunks : list (list string)) (frames : list (list float))
    (tail : list string) (vs : list float) :
  Forall2 (record_lines (total_values dyn)) chunks frames ->
  values_of tail = Ok vs ->
  Py.len vs < total_values dyn ->
  (length (concat chunks ++ tail) < fuel)%nat ->
  let returned :=
    store_frames (items dyn) frames (empty_series (items dyn)) ≫= to_arrays in
  (_skip_static fuel fp = Ok fp1 ->
   _read_section_header fuel fp1 = Ok (dyn, concat chunks ++ tail) ->
   read_classic_fort10 fuel fp = returned /\
   read_classic_fort10 fuel fp <> Raise EOFError) /\
  (density_plot._skip_static_section fuel fp = Ok fp1 ->
   density_plot._read_section_header fuel fp1 = Ok (dyn, concat chunks ++ tail) ->
   density_plot.read_fort10_dynamic fuel fp = returned /\
   density_plot.read_fort10_dynamic fuel fp <> Raise EOFError).
Proof.
  intros HF Ht Hn Hfuel returned.
  destruct (frames_then_arrays fuel dyn chunks frames tail vs HF Ht Hn Hfuel)
    as (H1 & H2 & _).
  split; intros Hs Hh.
  - unfold read_classic_fort10. rewrite Hs. simpl. rewrite Hh. simpl.
    split; [exact H1 | exact H2].
  - unfold density_plot.read_fort10_dynamic. rewrite Hs. simpl. rewrite Hh. simpl.
    split; [exact H1 | exact H2].
Qed.

Lemma read_classic_fort10_end_of_stream_witness :
  let dyn := Section_ [("TIME", 0); ("R", 2); ("XC", 0)] 4 in
  let frames := [[0; 1; 2; 3]; [1e-12; 4; 5; 6]]%float in
  let returned :=
    store_frames (items dyn) frames (empty_series (items dyn)) ≫= to_arrays in
  (read_classic_fort10 20 fort10_cut = returned /\
   read_classic_fort10 20 fort10_cut <> Raise EOFError) /\
  (density_plot.read_fort10_dynamic 20 fort10_cut = returned /\
   density_plot.read_fort10_dynamic 20 fort10_cut <> Raise EOFError).
Proof.
  intros dyn frames returned.
  destruct (read_classic_fort10_end_of_stream 20 fort10_cut
              (skipn 4 fort10_cut) dyn
              [["0.0 1.0 2.0"; "3.0"]; ["1e-12 4.0 5.0 6.0"]] frames
              ["2e-12 7.0"] [2e-12; 7]%float) as [H1 H2].
  - constructor; [|constructor; [|constructor]].
    + exists ["0.0 1.0 2.0"], "3.0", [0; 1; 2]%float, [3]%float.
      repeat split; vm_compute; first [reflexivity | discriminate].
    + exists [], "1e-12 4.0 5.0 6.0", [], [1e-12; 4; 5; 6]%float.
      repeat split; vm_compute; first [reflexivity | discriminate].
  - vm_compute. reflexivity.
  - vm_compute. reflexivity.
  - vm_compute. lia.
  - split; [apply H1 | apply H2]; vm_compute; reflexivity.
Defined.

(** C1, the claim as written fails: [fort10_cut] ends inside its third
    frame, after two of the four values, and both readers return the two
    complete frames instead of failing. *)
Lemma read_classic_fort10_cut_frame_returns :
  read_classic_fort10 20 fort10_cut
    = Ok (list_to_map [ ("TIME", Array1 [0; 1e-12]%float);
                        ("R", Array2 [[1; 2]; [4; 5]]%float);
                        ("XC", Array1 [3; 6]%float) ]) /\
  density_plot.read_fort10_dynamic 20 fort10_cut
    = Ok (list_to_map [ ("TIME", Array1 [0; 1e-12]%float);
                        ("R", Array2 [[1; 2]; [4; 5]]%float);
                        ("XC", Array1 [3; 6]%float) ]).
Proof. split; vm_compute; reflexivity. Qed.

(** ** Reads that find no data *)

Lemma empty_series_lookup (items : list (string * Z)) (k : string) (seq : list entry) :
  empty_series items !! k = Some seq -> seq = [].
Proof.
  unfold empty_series. intros H. apply elem_of_list_to_map_2 in H.
  apply list_elem_of_fmap in H as (it & E & _). now injection E.
Qed.

Lemma to_arrays_of_empty (data : series) :
  map_Forall (fun _ seq => seq = []) data ->
  to_arrays data = Ok ((fun _ => Array1 []) <$> data).
Proof.
  unfold to_arrays.
  apply (map_fold_weak_ind
           (fun (r : outcome (gmap string ndarray)) (m : series) =>
              map_Forall (fun _ seq => seq = []) m ->
              r = Ok ((fun _ => Array1 []) <$> m))).
  - intros _. now rewrite fmap_empty.
  - intros k seq m r Hk IH Hall.
    apply map_Forall_insert in Hall as [-> Hall]; [|exact Hk].
    rewrite (IH Hall). simpl. now rewrite fmap_insert.
Qed.

(** C8, as the source has it.  The block reader raises [ValueError]
    ("No block-ascii data found") exactly when no block was collected, so a
    sequence it returns is never empty.  The classic readers have no such
    check: when the stream after the two headers holds no complete record,
    they return every variable of the directory with an empty array. *)
Theorem no_data_found (stream : list string) (blocks : list block)
    (cur : option partial) (fuel : nat) (fp fp1 : file) (dyn : section)
    (tail : list string) (vs : list float) :
  values_of tail = Ok vs ->
  Py.len vs < total_values dyn ->
  (length tail < fuel)%nat ->
  let empty_arrays : gmap string ndarray :=
    (fun _ => Array1 []) <$> empty_series (items dyn) in
  (parse_lines stream [] None = Ok (blocks, cur) -> flush blocks cur = [] ->
   parse_block_ascii stream = Raise ValueError) /\
  (forall found, parse_block_ascii stream = Ok found -> found <> []) /\
  (_skip_static fuel fp = Ok fp1 ->
   _read_section_header fuel fp1 = Ok (dyn, tail) ->
   read_classic_fort10 fuel fp = Ok empty_arrays) /\
  (density_plot._skip_static_section fuel fp = Ok fp1 ->
   density_plot._read_section_header fuel fp1 = Ok (dyn, tail) ->
   density_plot.read_fort10_dynamic fuel fp = Ok empty_arrays).
Proof.
  intros Ht Hn Hfuel empty_arrays.
  assert (Hloop : read_frames fuel tail (total_values dyn) (items dyn)
                    (empty_series (items dyn)) ≫= to_arrays = Ok empty_arrays).
  { rewrite (read_frames_records (items dyn) (total_values dyn) [] [] tail vs
               (List.Forall2_nil _) Ht Hn fuel _ Hfuel).
    simpl. apply to_arrays_of_empty. intros k seq. apply empty_series_lookup. }
  repeat split.
  - intros Hp Hf. unfold parse_block_ascii. rewrite Hp. simpl. now rewrite Hf.
  - intros found. unfold parse_block_ascii.
    destruct (parse_lines stream [] None) as [[bs c]| |]; simpl;
      try (intros H; discriminate H).
    destruct (flush bs c); intros H; [discriminate H|].
    injection H as <-. discriminate.
  - intros Hs Hh. unfold read_classic_fort10.
    rewrite Hs. simpl. rewrite Hh. simpl. exact Hloop.
  - intros Hs Hh. unfold density_plot.read_fort10_dynamic.
    rewrite Hs. simpl. rewrite Hh. simpl. exact Hloop.
Qed.

Lemma no_data_found_witness :
  let dyn := Section_ [("TIME", 0); ("R", 2); ("XC", 0)] 4 in
  let fp := fort10_static ++ fort10_dynamic_header ++ ["1e-12 4.0"] in
  let empty_arrays : gmap string ndarray :=
    (fun _ => Array1 []) <$> empty_series (items dyn) in
  parse_block_ascii ["step=1 time=1e-12"; "no rows follow"] = Raise ValueError /\
  read_classic_fort10 20 fp = Ok empty_arrays /\
  density_plot.read_fort10_dynamic 20 fp = Ok empty_arrays.
Proof.
  intros dyn fp empty_arrays.
  destruct (no_data_found ["step=1 time=1e-12"; "no rows follow"] []
              (Some (Partial 1 1e-12 [])) 20 fp (skipn 4 fp) dyn
              ["1e-12 4.0"] [1e-12; 4]%float) as (H1 & _ & H3 & H4).
  - vm_compute. reflexivity.
  - vm_compute. reflexivity.
  - vm_compute. lia.
  - split; [apply H1 | split; [apply H3 | apply H4]]; vm_compute; reflexivity.
Defined.

(** C8, the claim as written fails for the classic readers: a file that
    ends right after the dynamic header yields no frame, and both readers
    return empty arrays instead of raising. *)
Lemma read_classic_fort10_no_frames_returns :
  read_classic_fort10 20 (fort10_static ++ fort10_dynamic_header)
    = Ok (list_to_map [ ("TIME", Array1 []); ("R", Array1 []); ("XC", Array1 []) ]) /\
  density_plot.read_fort10_dynamic 20 (fort10_static ++ fort10_dynamic_header)
    = Ok (list_to_map [ ("TIME", Array1 []); ("R", Array1 []); ("XC", Array1 []) ]).
Proof. split; vm_compute; reflexivity. Qed.

(** ** The header directory *)

Lemma index_middle {A} (a b : list A) (x : A) :
  Py.index (a ++ x :: b) (Py.len a) = Ok x.
Proof.
  unfold Py.index, Py.len.
  destruct (Z.of_nat (length a) <? 0) eqn:E; [apply Z.ltb_lt in E; lia|].
  rewrite length_app. simpl length.
  rewrite (proj2 (Z.leb_le _ _)), (proj2 (Z.ltb_lt _ _)) by lia. simpl.
  rewrite Nat2Z.id, nth_error_app2, Nat.sub_diag by lia. reflexivity.
Qed.

Lemma slice_middle {A} (a b c : list A) :
  Py.slice (a ++ b ++ c) (Py.len a) (Py.len a + Py.len b) = b.
Proof.
  unfold Py.slice, Py.bound, Py.len. rewrite !length_app.
  destruct (Z.of_nat (length a) <? 0) eqn:E; [apply Z.ltb_lt in E; lia|].
  destruct (Z.of_nat (length a) + Z.of_nat (length b) <? 0) eqn:E';
    [apply Z.ltb_lt in E'; lia|].
  rewrite !Z.min_l by lia.
  replace (Z.to_nat (_ + _ - _)) with (length b) by lia.
  rewrite Nat2Z.id, drop_app_length, take_app_length. reflexivity.
Qed.

Lemma fold_add_from (l : list Z) (a : Z) :
  fold_left Z.add l a = a + fold_left Z.add l 0.
Proof.
  revert a. induction l as [|y l IH]; intros a; simpl; [lia|].
  rewrite (IH (a + y)), (IH (0 + y)). lia.
Qed.

Lemma sum_cons (x : Z) (l : list Z) : Py.sum (x :: l) = x + Py.sum l.
Proof. unfold Py.sum. simpl. apply fold_add_from. Qed.

Lemma count_values_cons (name : string) (L : Z) (items : list (string * Z)) :
  count_values ((name, L) :: items)
  = (if L =? 0 then 1 else L) + count_values items.
Proof. unfold count_values. simpl map. apply sum_cons. Qed.

(** The descriptors of a consistent encoding account for every pair. *)
Lemma rle_count (pairs items : list (string * Z)) :
  rle pairs items -> count_values items = Py.len pairs.
Proof.
  induction 1 as [|name rest items _ IH|name L rest items HL _ IH].
  - reflexivity.
  - rewrite count_values_cons, IH. unfold Py.len. simpl. lia.
  - rewrite count_values_cons, IH.
    destruct (L =? 0) eqn:E; [apply Z.eqb_eq in E; lia|].
    unfold Py.len. rewrite length_app, length_replicate. lia.
Qed.

Lemma compress_unfold (fuel : nat) (names : list string) (lens : list Z)
    (n i : Z) (acc : list (string * Z)) :
  compress (S fuel) names lens n i acc =
  if i <? n then
    name ← Py.index names i;
    L ← Py.index lens i;
    if L =? 0 then compress fuel names lens n (i + 1) (acc ++ [(name, 0)])
    else
      if (i + L <=? n)
         && forallb (fun x => String.eqb x name) (Py.slice names i (i + L))
         && forallb (fun v => v =? L) (Py.slice lens i (i + L))
      then compress fuel names lens n (i + L) (acc ++ [(name, L)])
      else Ok None
  else Ok (Some acc).
Proof. reflexivity. Qed.

Lemma plot_compress_unfold (fuel : nat) (names : list string) (lens : list Z)
    (n i : Z) (acc : list (string * Z)) :
  density_plot.compress (S fuel) names lens n i acc =
  if i <? n then
    name ← Py.index names i;
    L ← Py.index lens i;
    if L =? 0 then density_plot.compress fuel names lens n (i + 1) (acc ++ [(name, 0)])
    else if n <? i + L then Raise ValueError
    else if existsb (fun x => negb (String.eqb x name)) (Py.slice names i (i + L))
            || existsb (fun v => negb (v =? L)) (Py.slice lens i (i + L))
    then Raise ValueError
    else density_plot.compress fuel names lens n (i + L) (acc ++ [(name, L)])
  else Ok acc.
Proof. reflexivity. Qed.

Lemma uniform_run_test (names : list string) (lens : list Z) (n i : Z)
    (name : string) (L : Z) :
  (i + L <=? n)
  && forallb (fun x => String.eqb x name) (Py.slice names i (i + L))
  && forallb (fun v => v =? L) (Py.slice lens i (i + L)) = true
  <-> uniform_run names lens n i name L.
Proof.
  unfold uniform_run.
  rewrite !andb_true_iff, Z.leb_le, !forallb_forall, !List.Forall_forall.
  assert (Hs : forall x, String.eqb x name = true <-> x = name)
    by (intros x; apply String.eqb_eq).
  assert (Hz : forall v, (v =? L) = true <-> v = L) by (intros v; apply Z.eqb_eq).
  split; intros [[H1 H2] H3] || intros [H1 [H2 H3]]; repeat split; try assumption;
    intros x Hx; first [apply Hs | apply Hz]; auto.
Qed.

Lemma existsb_negb_forallb {A} (p : A -> bool) (l : list A) :
  existsb (fun x => negb (p x)) l = negb (forallb p l).
Proof.
  induction l as [|x l IH]; simpl; [reflexivity|].
  rewrite IH. now destruct (p x).
Qed.

Lemma uniform_run_plot_test (names : list string) (lens : list Z) (n i : Z)
    (name : string) (L : Z) :
  (n <? i + L)
  || (existsb (fun x => negb (String.eqb x name)) (Py.slice names i (i + L))
      || existsb (fun v => negb (v =? L)) (Py.slice lens i (i + L))) = false
  <-> uniform_run names lens n i name L.
Proof.
  rewrite <- uniform_run_test, !existsb_negb_forallb.
  rewrite Z.ltb_antisym.
  destruct (i + L <=? n), (forallb _ (Py.slice names _ _)),
    (forallb _ (Py.slice lens _ _)); simpl; intuition congruence.
Qed.

Lemma index_pairs (done tl : list (string * Z)) (name : string) (L : Z) :
  Py.index (done ++ (name, L) :: tl).*1 (Py.len done) = Ok name /\
  Py.index (done ++ (name, L) :: tl).*2 (Py.len done) = Ok L.
Proof.
  rewrite !fmap_app, !fmap_cons. simpl. split.
  - replace (Py.len done) with (Py.len done.*1)
      by (unfold Py.len; now rewrite length_fmap).
    apply index_middle.
  - replace (Py.len done) with (Py.len done.*2)
      by (unfold Py.len; now rewrite length_fmap).
    apply index_middle.
Qed.

Lemma replicate_uniform (done tl : list (string * Z)) (name : string) (L : Z) :
  0 < L ->
  let pairs := done ++ replicate (Z.to_nat L) (name, L) ++ tl in
  uniform_run pairs.*1 pairs.*2 (Py.len pairs) (Py.len done) name L.
Proof.
  intros HL pairs. subst pairs. unfold uniform_run.
  assert (Hk : Py.len (replicate (Z.to_nat L) (name, L)) = L)
    by (unfold Py.len; rewrite length_replicate; lia).
  split; [|split].
  - rewrite !len_app, Hk. pose proof (len_nonneg tl). lia.
  - rewrite !fmap_app, fmap_replicate. simpl.
    replace (Py.len done) with (Py.len done.*1)
      by (unfold Py.len; now rewrite length_fmap).
    replace (Py.len done.*1 + L)
      with (Py.len done.*1 + Py.len (replicate (Z.to_nat L) name))
      by (unfold Py.len; rewrite length_replicate; lia).
    rewrite slice_middle. now apply Forall_replicate.
  - rewrite !fmap_app, fmap_replicate. simpl.
    replace (Py.len done) with (Py.len done.*2)
      by (unfold Py.len; now rewrite length_fmap).
    replace (Py.len done.*2 + L)
      with (Py.len done.*2 + Py.len (replicate (Z.to_nat L) L))
      by (unfold Py.len; rewrite length_replicate; lia).
    rewrite slice_middle. now apply Forall_replicate.
Qed.

Lemma replicate_head (name : string) (L : Z) :
  0 < L ->
  replicate (Z.to_nat L) (name, L)
  = (name, L) :: replicate (Z.to_nat L - 1) (name, L).
Proof.
  intros HL. destruct (Z.to_nat L) as [|k] eqn:E; [lia|].
  simpl. now rewrite Nat.sub_0_r.
Qed.

(** Both compression loops walk a consistent stretch [seg] of the pairs,
    one descriptor per step. *)
Lemma compress_run (pairs seg items rest : list (string * Z)) :
  rle seg items ->
  forall (fuel : nat) (done acc : list (string * Z)),
    pairs = done ++ seg ++ rest ->
    compress (length items + fuel) pairs.*1 pairs.*2 (Py.len pairs) (Py.len done) acc
    = compress fuel pairs.*1 pairs.*2 (Py.len pairs)
               (Py.len done + Py.len seg) (acc ++ items) /\
    density_plot.compress (length items + fuel) pairs.*1 pairs.*2 (Py.len pairs)
                          (Py.len done) acc
    = density_plot.compress fuel pairs.*1 pairs.*2 (Py.len pairs)
                            (Py.len done + Py.len seg) (acc ++ items).
Proof.
  induction 1 as [|name seg items _ IH|name L seg items HL _ IH];
    intros fuel done acc Hp.
  - simpl. unfold Py.len at 3 6. simpl. now rewrite Z.add_0_r, app_nil_r.
  - assert (Hlt : (Py.len done <? Py.len pairs) = true).
    { apply Z.ltb_lt. rewrite Hp, len_app. unfold Py.len at 3. simpl length.
      lia. }
    destruct (index_pairs done (seg ++ rest) name 0) as [Hn Hl].
    simpl app in Hp. rewrite <- Hp in Hn, Hl.
    specialize (IH fuel (done ++ [(name, 0)]) (acc ++ [(name, 0)])).
    rewrite <- !app_assoc in IH. specialize (IH Hp).
    rewrite len_app in IH. change (Py.len [(name, 0)]) with 1 in IH.
    replace (Py.len done + Py.len ((name, 0) :: seg))
      with (Py.len done + 1 + Py.len seg)
      by (unfold Py.len; simpl length; lia).
    simpl length. simpl plus.
    rewrite compress_unfold, plot_compress_unfold, Hlt, Hn, Hl. simpl.
    exact IH.
  - set (run := replicate (Z.to_nat L) (name, L)) in *.
    assert (Hrun : Py.len run = L)
      by (unfold Py.len, run; rewrite length_replicate; lia).
    assert (Hlt : (Py.len done <? Py.len pairs) = true).
    { apply Z.ltb_lt. rewrite Hp, !len_app, Hrun.
      pose proof (len_nonneg seg). pose proof (len_nonneg rest). lia. }
    rewrite <- app_assoc in Hp.
    pose proof (replicate_uniform done (seg ++ rest) name L HL) as Hu.
    fold run in Hu. cbv zeta in Hu. rewrite <- Hp in Hu.
    destruct (index_pairs done (replicate (Z.to_nat L - 1) (name, L) ++ seg ++ rest)
                name L) as [Hn Hl].
    rewrite app_comm_cons, <- replicate_head in Hn, Hl by exact HL.
    fold run in Hn, Hl. rewrite <- Hp in Hn, Hl.
    specialize (IH fuel (done ++ run) (acc ++ [(name, L)])).
    rewrite <- !app_assoc in IH. specialize (IH Hp).
    rewrite len_app, Hrun in IH.
    replace (Py.len done + Py.len (run ++ seg)) with (Py.len done + L + Py.len seg)
      by (rewrite len_app, Hrun; lia).
    simpl length. simpl plus.
    rewrite compress_unfold, plot_compress_unfold, Hlt, Hn, Hl. simpl.
    destruct (L =? 0) eqn:E0; [apply Z.eqb_eq in E0; lia|].
    rewrite (proj2 (uniform_run_test _ _ _ _ _ _) Hu).
    pose proof (proj2 (uniform_run_plot_test _ _ _ _ _ _) Hu) as Hq.
    apply orb_false_iff in Hq as [Hq1 Hq2]. rewrite Hq1, Hq2.
    exact IH.
Qed.

Lemma rle_length (pairs items : list (string * Z)) :
  rle pairs items -> (length items <= length pairs)%nat.
Proof.
  induction 1 as [|name rest items _ IH|name L rest items HL _ IH]; simpl.
  - lia.
  - lia.
  - rewrite length_app, length_replicate. lia.
Qed.

(** On a consistent encoding both loops run to the end and emit its
    descriptors. *)
Lemma compress_consistent (fuel : nat) (pairs items : list (string * Z)) :
  rle pairs items -> (length pairs < fuel)%nat ->
  compress fuel pairs.*1 pairs.*2 (Py.len pairs) 0 [] = Ok (Some items) /\
  density_plot.compress fuel pairs.*1 pairs.*2 (Py.len pairs) 0 [] = Ok items.
Proof.
  intros Hr Hfuel. pose proof (rle_length _ _ Hr) as Hlen.
  replace fuel with (length items + S (fuel - length items - 1))%nat by lia.
  destruct (compress_run pairs pairs items [] Hr
              (S (fuel - length items - 1)) [] [])
    as [H1 H2]; [now rewrite app_nil_r|].
  change (Py.len []) with 0 in H1, H2. simpl app in H1, H2.
  rewrite H1, H2, compress_unfold, plot_compress_unfold.
  now rewrite Z.add_0_l, Z.ltb_irrefl.
Qed.

(** The readers of names and lengths return as many as were declared. *)
Lemma slice_to_len {A} (acc : list A) (n : Z) :
  0 <= n -> ~ Py.len acc < n -> Py.len (Py.slice_to acc n) = n.
Proof.
  intros H0 H. rewrite slice_to_firstn by exact H0.
  unfold Py.len in *. rewrite length_firstn. lia.
Qed.

Lemma _read_exact_names_len (n : Z) (fp : file) :
  forall (acc names : list string) (fp' : file),
    0 <= n -> _read_exact_names_loop fp acc n = Ok (names, fp') ->
    Py.len names = n.
Proof.
  induction fp as [|line fp IH]; intros acc names fp' H0; simpl;
    destruct (Py.len acc <? n) eqn:E; try discriminate.
  - intros [= <- _]. apply slice_to_len; [exact H0 | apply Z.ltb_ge in E; lia].
  - apply IH, H0.
  - intros [= <- _]. apply slice_to_len; [exact H0 | apply Z.ltb_ge in E; lia].
Qed.

Lemma _read_exact_ints_len (n : Z) (fp : file) :
  forall (acc lens : list Z) (fp' : file),
    0 <= n -> _read_exact_ints_loop fp acc n = Ok (lens, fp') ->
    Py.len lens = n.
Proof.
  induction fp as [|line fp IH]; intros acc lens fp' H0; simpl;
    destruct (Py.len acc <? n) eqn:E; try discriminate.
  - intros [= <- _]. apply slice_to_len; [exact H0 | apply Z.ltb_ge in E; lia].
  - destruct (mapM Py.int _) as [new| |]; simpl; try discriminate.
    apply IH, H0.
  - intros [= <- _]. apply slice_to_len; [exact H0 | apply Z.ltb_ge in E; lia].
Qed.

Lemma plot_read_exact_ints_len (n : Z) (fp : file) :
  forall (acc lens : list Z) (fp' : file),
    0 <= n -> density_plot._read_exact_ints_loop fp acc n = Ok (lens, fp') ->
    Py.len lens = n.
Proof.
  induction fp as [|line fp IH]; intros acc lens fp' H0; simpl;
    destruct (Py.len acc <? n) eqn:E; try discriminate.
  - intros [= <- _]. apply slice_to_len; [exact H0 | apply Z.ltb_ge in E; lia].
  - destruct (density_plot.ints_of_tokens _) as [new| |]; simpl; try discriminate.
    apply IH, H0.
  - intros [= <- _]. apply slice_to_len; [exact H0 | apply Z.ltb_ge in E; lia].
Qed.

Lemma zip_halves (names : list string) (lens : list Z) :
  Py.len names = Py.len lens ->
  (zip names lens).*1 = names /\ (zip names lens).*2 = lens /\
  Py.len (zip names lens) = Py.len names.
Proof.
  unfold Py.len. intros H.
  rewrite fst_zip, snd_zip, length_zip by lia.
  repeat split. lia.
Qed.

(** C6.  A header declares [n] elements ([0 <= n], the integer on its first
    line) and its [n] names and [n] lengths form a consistent run-length
    encoding with descriptors [dir].  Then the decoder of either file
    returns the directory [dir], and its [total_values], the sum of the
    descriptor counts (1 for a scalar, [L] for an array of [L]), is [n]. *)
Theorem section_total_is_declared_count (fuel : nat) (line tok : string)
    (fp fp1 fp2 : file) (n : Z) (names : list string) (lens : list Z)
    (dir : list (string * Z)) :
  Py.index (Py.split (Py.strip line)) 0 = Ok tok ->
  Py.int tok = Ok n ->
  0 <= n ->
  rle (zip names lens) dir ->
  (Z.to_nat n < fuel)%nat ->
  (_read_exact_names fp n = Ok (names, fp1) ->
   _read_exact_ints fp1 n = Ok (lens, fp2) ->
   _read_section_header fuel (line :: fp) = Ok (Section_ dir n, fp2) /\
   count_values dir = n) /\
  (density_plot._read_exact_names fp n = Ok (names, fp1) ->
   density_plot._read_exact_ints fp1 n = Ok (lens, fp2) ->
   density_plot._read_section_header fuel (line :: fp) = Ok (Section_ dir n, fp2) /\
   count_values dir = n).
Proof.
  intros Htok Hint H0 Hr Hfuel.
  assert (Hcore : Py.len names = n -> Py.len lens = n ->
            compress fuel names lens n 0 [] = Ok (Some dir) /\
            density_plot.compress fuel names lens n 0 [] = Ok dir /\
            count_values dir = n).
  { intros Hn Hl.
    destruct (zip_halves names lens) as (E1 & E2 & E3); [congruence|].
    destruct (compress_consistent fuel (zip names lens) dir Hr) as [H1 H2].
    { apply Nat2Z.inj_lt. fold (Py.len (zip names lens)). rewrite E3, Hn. lia. }
    rewrite E1, E2, E3, Hn in H1, H2.
    repeat split; try assumption.
    rewrite (rle_count _ _ Hr), E3. exact Hn. }
  split; intros Hnames Hlens.
  - pose proof (_read_exact_names_len n fp [] names fp1 H0 Hnames) as Hn.
    pose proof (_read_exact_ints_len n fp1 [] lens fp2 H0 Hlens) as Hl.
    destruct (Hcore Hn Hl) as (H1 & _ & H3). split; [|exact H3].
    unfold _read_section_header. rewrite Htok. simpl. rewrite Hint. simpl.
    rewrite Hnames. simpl. rewrite Hlens. simpl.
    rewrite Hn, Hl, Z.eqb_refl. simpl.
    unfold build_items. rewrite H1. simpl. now rewrite H3.
  - pose proof (_read_exact_names_len n fp [] names fp1 H0 Hnames) as Hn.
    pose proof (plot_read_exact_ints_len n fp1 [] lens fp2 H0 Hlens) as Hl.
    destruct (Hcore Hn Hl) as (_ & H2 & H3). split; [|exact H3].
    unfold density_plot._read_section_header. rewrite Htok. simpl.
    rewrite Hint. simpl. rewrite Hnames. simpl. rewrite Hlens. simpl.
    rewrite Hn, Hl, Z.eqb_refl. simpl. rewrite H2. simpl. now rewrite H3.
Qed.

Lemma section_total_is_declared_count_witness :
  let dir := [("TIME", 0); ("R", 2); ("XC", 0)] in
  (_read_section_header 10 fort10_dynamic_header = Ok (Section_ dir 4, []) /\
   count_values dir = 4) /\
  (density_plot._read_section_header 10 fort10_dynamic_header
     = Ok (Section_ dir 4, []) /\
   count_values dir = 4).
Proof.
  intros dir.
  destruct (section_total_is_declared_count 10 "4" "4"
              (skipn 1 fort10_dynamic_header) ["0 2 2 0"] [] 4
              ["TIME"; "R"; "R"; "XC"] [0; 2; 2; 0] dir) as [H1 H2].
  - vm_compute. reflexivity.
  - vm_compute. reflexivity.
  - lia.
  - apply rle_scalar.
    apply (rle_array "R" 2 [("XC", 0)] [("XC", 0)]); [lia|].
    apply rle_scalar, rle_nil.
  - vm_compute. lia.
  - split; [apply H1 | apply H2]; vm_compute; reflexivity.
Defined.






(** ** Lines of the block format *)

Ltac ascii_cases c :=
  destruct c as [[] [] [] [] [] [] [] []]; vm_compute;
  first [reflexivity | discriminate | tauto].

Lemma plain_space (c : ascii) : Py.isspace c = true -> plain c = true.
Proof. ascii_cases c. Qed.

Lemma plain_digit (c : ascii) : Py.isdigit c = true -> plain c = true.
Proof. ascii_cases c. Qed.

Lemma plain_punct (c : ascii) :
  Ascii.eqb c "_"%char || Ascii.eqb c "."%char || Ascii.eqb c "+"%char
  || Ascii.eqb c "-"%char || Ascii.eqb c "e"%char || Ascii.eqb c "E"%char = true ->
  plain c = true.
Proof. ascii_cases c. Qed.

Lemma plain_word (c d : ascii) :
  d ∈ list_ascii_of_string "infinityan" -> Py.lower_char c = d -> plain c = true.
Proof.
  intros Hd <-. unfold plain.
  simpl in Hd. rewrite !elem_of_cons, elem_of_nil in Hd.
  destruct Hd as [->|[->|[->|[->|[->|[->|[->|[->|[->|[->|[]]]]]]]]]]];
    reflexivity.
Qed.

Lemma plain_not_p (c : ascii) :
  plain c = true -> Ascii.eqb (Py.lower_char c) "p"%char = false.
Proof. unfold plain. now destruct (Ascii.eqb _ "p"%char). Qed.

Lemma plain_not_x (c : ascii) :
  plain c = true -> Ascii.eqb (Py.lower_char c) "x"%char = false.
Proof.
  unfold plain. destruct (Ascii.eqb _ "p"%char), (Ascii.eqb _ "x"%char);
    simpl; congruence.
Qed.

(** No [step] without a [p]. *)
Lemma block_start_at_plain (s : list ascii) :
  Forall (fun c => plain c = true) s -> block_start_at s = None.
Proof.
  intros H. unfold block_start_at.
  assert (E : Py.literal (chars "step") s = None).
  { destruct s as [|c1 [|c2 [|c3 [|c4 s]]]]; simpl; try reflexivity;
      repeat match goal with |- context [Ascii.eqb ?a ?b] =>
        match b with
        | "p"%char => fail 1
        | _ => destruct (Ascii.eqb a b); try reflexivity
        end end.
    apply Forall_cons in H as [_ H]. apply Forall_cons in H as [_ H].
    apply Forall_cons in H as [_ H]. apply Forall_cons in H as [H _].
    now rewrite (plain_not_p _ H). }
  now rewrite E.
Qed.

Lemma block_start_from_plain (s : list ascii) :
  Forall (fun c => plain c = true) s ->
  forall prev_word, block_start_from prev_word s = None.
Proof.
  induction 1 as [|c s Hc Hs IH]; intros prev_word.
  - simpl. destruct prev_word; reflexivity.
  - cbn [block_start_from]. rewrite block_start_at_plain by (now constructor).
    destruct prev_word; apply IH.
Qed.

Lemma lstrip_plain (s : list ascii) :
  Forall (fun c => plain c = true) s ->
  Forall (fun c => plain c = true) (Py.lstrip_chars s).
Proof.
  induction 1 as [|c s Hc Hs IH]; simpl; [constructor|].
  destruct (Py.isspace c); [exact IH | now constructor].
Qed.

Lemma literal_plain (p s r : list ascii) :
  Py.literal p s = Some r ->
  Forall (fun c => plain c = true) s -> Forall (fun c => plain c = true) r.
Proof.
  revert s. induction p as [|a p IH]; intros s; simpl.
  - now intros [= ->].
  - destruct s as [|c s]; [discriminate|].
    destruct (Ascii.eqb _ a); [|discriminate].
    intros H Hs. apply Forall_cons in Hs as [_ Hs]. now apply (IH s).
Qed.

Lemma blanks1_plain (s r : list ascii) :
  Py.blanks1 s = Some r ->
  Forall (fun c => plain c = true) s -> Forall (fun c => plain c = true) r.
Proof.
  destruct s as [|c s]; simpl; [discriminate|].
  destruct (Py.isspace c); [|discriminate].
  intros [= <-] Hs. apply Forall_cons in Hs as [_ Hs]. now apply lstrip_plain.
Qed.

(** No column-label line without an [x]. *)
Lemma header_at_plain (s : list ascii) :
  Forall (fun c => plain c = true) s -> header_at s = false.
Proof.
  intros H. unfold header_at. apply bool_decide_eq_false. intros [r Hr].
  apply lstrip_plain in H.
  destruct (Py.literal (chars "i") (Py.lstrip_chars s)) as [r1|] eqn:E1;
    [|discriminate Hr].
  apply (literal_plain _ _ _ E1) in H. simpl in Hr.
  destruct (Py.blanks1 r1) as [r2|] eqn:E2; [|discriminate Hr].
  apply (blanks1_plain _ _ E2) in H. simpl in Hr.
  destruct H as [|c r2 Hc _]; [discriminate Hr|].
  rewrite (plain_not_x _ Hc) in Hr. discriminate Hr.
Qed.

Lemma header_from_plain (s : list ascii) :
  Forall (fun c => plain c = true) s -> header_from s = false.
Proof.
  induction 1 as [|c s Hc Hs IH]; cbn [header_from].
  - now rewrite header_at_plain by constructor.
  - rewrite header_at_plain by (now constructor). exact IH.
Qed.

Lemma lstrip_decomp (s : list ascii) :
  exists ws, s = ws ++ Py.lstrip_chars s /\ Forall (fun c => Py.isspace c = true) ws.
Proof.
  induction s as [|c s (ws & E & Hws)]; simpl.
  - exists []. split; [reflexivity | constructor].
  - destruct (Py.isspace c) eqn:Ec.
    + exists (c :: ws). split; [simpl; now rewrite <- E | now constructor].
    + exists []. split; [reflexivity | constructor].
Qed.

Lemma spaces_plain (ws : list ascii) :
  Forall (fun c => Py.isspace c = true) ws -> Forall (fun c => plain c = true) ws.
Proof. intros H. eapply Forall_impl; [exact H|]. intros c. apply plain_space. Qed.

Lemma strip_plain (s : list ascii) :
  Forall (fun c => plain c = true) (Py.strip_chars s) ->
  Forall (fun c => plain c = true) s.
Proof.
  unfold Py.strip_chars. intros H.
  destruct (lstrip_decomp s) as (ws1 & E1 & H1).
  destruct (lstrip_decomp (rev (Py.lstrip_chars s))) as (ws2 & E2 & H2).
  rewrite E1. apply Forall_app. split; [now apply spaces_plain|].
  rewrite <- (rev_involutive (Py.lstrip_chars s)), E2, rev_app_distr.
  apply Forall_app. split; [exact H|].
  apply Forall_rev. now apply spaces_plain.
Qed.

Lemma sign_plain (s body : list ascii) (neg : bool) :
  Py.sign s = (neg, body) ->
  Forall (fun c => plain c = true) body -> Forall (fun c => plain c = true) s.
Proof.
  destruct s as [|c s]; simpl.
  - now intros [= _ <-].
  - destruct (Ascii.eqb c "-"%char) eqn:E1; [|destruct (Ascii.eqb c "+"%char) eqn:E2].
    + intros [= _ <-] H. constructor; [|exact H].
      apply plain_punct. rewrite E1. now rewrite !orb_true_r.
    + intros [= _ <-] H. constructor; [|exact H].
      apply plain_punct. rewrite E2. now rewrite !orb_true_r.
    + now intros [= _ <-].
Qed.

Lemma digitpart_rest_decomp (s : list ascii) :
  forall acc ds rest,
    Py.digitpart_rest s acc = (ds, rest) ->
    exists used, s = used ++ rest /\ Forall (fun c => plain c = true) used.
Proof.
  induction s as [|c s IH]; intros acc ds rest; simpl.
  - intros [= _ <-]. exists []. split; [reflexivity | constructor].
  - destruct (Py.isdigit c) eqn:Ed.
    + intros H. destruct (IH _ _ _ H) as (used & -> & Hu).
      exists (c :: used). split; [reflexivity|].
      constructor; [now apply plain_digit | exact Hu].
    + destruct (Ascii.eqb c "_"%char) eqn:Eu.
      * destruct s as [|d s'].
        -- intros [= _ <-]. exists []. split; [reflexivity | constructor].
        -- destruct (Py.isdigit d).
           ++ intros H. destruct (IH _ _ _ H) as (used & E & Hu).
              exists (c :: used). split; [simpl; now rewrite <- E|].
              constructor; [|exact Hu]. apply plain_punct. now rewrite Eu.
           ++ intros [= _ <-]. exists []. split; [reflexivity | constructor].
      * intros [= _ <-]. exists []. split; [reflexivity | constructor].
Qed.

Lemma digitpart_decomp (s ds rest : list ascii) :
  Py.digitpart s = Some (ds, rest) ->
  exists used, s = used ++ rest /\ Forall (fun c => plain c = true) used.
Proof.
  destruct s as [|c s]; simpl; [discriminate|].
  destruct (Py.isdigit c) eqn:Ed; [|discriminate].
  intros [= H]. destruct (digitpart_rest_decomp _ _ _ _ H) as (used & -> & Hu).
  exists (c :: used). split; [reflexivity|].
  constructor; [now apply plain_digit | exact Hu].
Qed.

Lemma fraction_decomp (s ds rest : list ascii) :
  Py.fraction s = Some (ds, rest) ->
  exists used, s = used ++ rest /\ Forall (fun c => plain c = true) used.
Proof.
  destruct s as [|c s]; simpl; [discriminate|].
  destruct (Ascii.eqb c "."%char) eqn:Ec; [|discriminate].
  assert (Hc : plain c = true).
  { apply plain_punct. rewrite Ec. now rewrite !orb_true_r. }
  destruct (Py.digitpart s) as [[ds' rest']|] eqn:Ed.
  - intros [= _ <-]. destruct (digitpart_decomp _ _ _ Ed) as (used & -> & Hu).
    exists (c :: used). split; [reflexivity | now constructor].
  - intros [= _ <-]. exists [c]. split; [reflexivity | now repeat constructor].
Qed.

Lemma exponent_plain (s : list ascii) (e : Z) :
  Py.exponent s = Some e -> Forall (fun c => plain c = true) s.
Proof.
  destruct s as [|c s]; simpl; [constructor|].
  destruct (Ascii.eqb c "e"%char || Ascii.eqb c "E"%char) eqn:Ec; [|discriminate].
  destruct (Py.sign s) as [neg body] eqn:Es.
  destruct (Py.digitpart body) as [[ds [|x rest]]|] eqn:Ed; try discriminate.
  intros _. constructor.
  - apply plain_punct. apply orb_true_iff in Ec as [-> | ->];
      now rewrite !orb_true_r.
  - apply (sign_plain _ _ _ Es).
    destruct (digitpart_decomp _ _ _ Ed) as (used & -> & Hu).
    now rewrite app_nil_r.
Qed.

Lemma word_plain (body : list ascii) (w : string) :
  Forall (fun d => d ∈ list_ascii_of_string "infinityan") (list_ascii_of_string w) ->
  String.eqb (string_of_list_ascii (map Py.lower_char body)) w = true ->
  Forall (fun c => plain c = true) body.
Proof.
  intros Hw E. apply String.eqb_eq in E.
  apply (f_equal list_ascii_of_string) in E.
  rewrite list_ascii_of_string_of_list_ascii in E. rewrite <- E in Hw.
  clear E. induction body as [|c body IH]; [constructor|].
  simpl in Hw. apply Forall_cons in Hw as [Hc Hw].
  constructor; [now apply (plain_word c _ Hc) | now apply IH].
Qed.

(** The characters of a number. *)
Lemma float_plain (s : string) (v : float) :
  Py.float s = Ok v -> Forall (fun c => plain c = true) (list_ascii_of_string s).
Proof.
  unfold Py.float. intros H. apply strip_plain.
  destruct (Py.sign _) as [neg body] eqn:Es.
  apply (sign_plain _ _ _ Es). clear Es.
  destruct (String.eqb _ "inf") eqn:E1.
  { apply (word_plain body "inf"); [|exact E1].
    repeat constructor; set_solver. }
  destruct (String.eqb _ "infinity") eqn:E2.
  { apply (word_plain body "infinity"); [|exact E2].
    repeat constructor; set_solver. }
  destruct (String.eqb _ "nan") eqn:E3.
  { apply (word_plain body "nan"); [|exact E3].
    repeat constructor; set_solver. }
  simpl in H.
  assert (Hi : exists ints r1 u1, body = u1 ++ r1 /\
            Forall (fun c => plain c = true) u1 /\
            match Py.digitpart body with Some r => r | None => ([], body) end
            = (ints, r1)).
  { destruct (Py.digitpart body) as [[ints r1]|] eqn:Ed.
    - destruct (digitpart_decomp _ _ _ Ed) as (u & E & Hu).
      exists ints, r1, u. auto.
    - exists [], body, []. repeat split. constructor. }
  destruct Hi as (ints & r1 & u1 & -> & Hu1 & Ei). rewrite Ei in H.
  assert (Hf : exists fracs r2 u2, r1 = u2 ++ r2 /\
            Forall (fun c => plain c = true) u2 /\
            match Py.fraction r1 with Some r => r | None => ([], r1) end
            = (fracs, r2)).
  { destruct (Py.fraction r1) as [[fracs r2]|] eqn:Ef.
    - destruct (fraction_decomp _ _ _ Ef) as (u & E & Hu).
      exists fracs, r2, u. auto.
    - exists [], r1, []. repeat split. constructor. }
  destruct Hf as (fracs & r2 & u2 & -> & Hu2 & Ef). rewrite Ef in H.
  destruct (ints ++ fracs); [discriminate H|].
  destruct (Py.exponent r2) as [e|] eqn:Ee; [|discriminate H].
  repeat (apply Forall_app; split); try assumption.
  now apply (exponent_plain _ e).
Qed.

Lemma split_chars_plain (s : list ascii) :
  forall cur,
    Forall (Forall (fun c => plain c = true)) (Py.split_chars s cur) ->
    Forall (fun c => plain c = true) s /\
    (cur <> [] -> Forall (fun c => plain c = true) cur).
Proof.
  induction s as [|c s IH]; intros cur; simpl.
  - destruct cur as [|d cur]; intros H.
    + split; [constructor | congruence].
    + split; [constructor|]. intros _. apply Forall_cons in H as [H _].
      apply Forall_rev in H. now rewrite rev_involutive in H.
  - destruct (Py.isspace c) eqn:Ec.
    + destruct cur as [|d cur]; intros H.
      * destruct (IH [] H) as [Hs _]. split; [|congruence].
        constructor; [now apply plain_space | exact Hs].
      * apply Forall_cons in H as [Hcur H]. destruct (IH [] H) as [Hs _].
        split; [constructor; [now apply plain_space | exact Hs]|].
        intros _. apply Forall_rev in Hcur. now rewrite rev_involutive in Hcur.
    + intros H. destruct (IH (c :: cur) H) as [Hs Hcur].
      specialize (Hcur ltac:(discriminate)).
      apply Forall_cons in Hcur as [Hc Hcur].
      split; [now constructor | intros _; exact Hcur].
Qed.

Lemma mapM_ok {A B} (f : A -> outcome B) (l : list A) (k : list B) :
  mapM f l = Ok k -> Forall2 (fun x y => f x = Ok y) l k.
Proof.
  revert k. induction l as [|x l IH]; intros k; simpl.
  - intros [= <-]. constructor.
  - destruct (f x) as [y| |] eqn:Ex; simpl; try discriminate.
    destruct (mapM f l) as [k'| |]; simpl; try discriminate.
    intros [= <-]. constructor; [exact Ex | now apply IH].
Qed.

(** A line of numbers holds no marker and no column labels. *)
Lemma numbers_line_plain (raw : string) (row : list float) :
  line_values raw = Ok row ->
  BLOCK_START_RE raw = None /\ HEADER_RE raw = false.
Proof.
  unfold line_values, Py.split, Py.strip. intros H.
  apply mapM_ok in H.
  assert (Hp : Forall (fun c => plain c = true) (list_ascii_of_string raw)).
  { apply strip_plain.
    rewrite list_ascii_of_string_of_list_ascii in H.
    remember (Py.split_chars _ []) as toks eqn:Et.
    assert (Ht : Forall (Forall (fun c => plain c = true)) toks).
    { clear Et. remember (map string_of_list_ascii toks) as strs eqn:Es.
      revert toks Es. induction H as [|x y strs row Hx _ IH]; intros toks Es.
      - destruct toks; [constructor | discriminate].
      - destruct toks as [|t toks]; [discriminate|]. injection Es as -> ->.
        constructor; [|now apply IH].
        apply float_plain in Hx.
        now rewrite list_ascii_of_string_of_list_ascii in Hx. }
    rewrite Et in Ht. now apply split_chars_plain in Ht as [Ht _]. }
  split.
  - now apply block_start_from_plain.
  - now apply header_from_plain.
Qed.

(** ** The block reader, line by line *)

Lemma parse_lines_app (a b : list string) :
  forall blocks cur,
    parse_lines (a ++ b) blocks cur
    = parse_lines a blocks cur ≫= fun st => parse_lines b st.1 st.2.
Proof.
  induction a as [|raw a IH]; intros blocks cur; simpl; [reflexivity|].
  destruct (parse_line blocks cur raw) as [[bl c]| |]; simpl; [apply IH|reflexivity..].
Qed.

Lemma parse_line_marker (blocks : list block) (cur : option partial)
    (raw : string) (s : Z) (t : float) :
  marker_line raw s t ->
  parse_line blocks cur raw = Ok (flush blocks cur, Some (Partial s t [])).
Proof.
  intros (g1 & g2 & Hm & Hs & Ht). unfold parse_line.
  rewrite Hm, Hs. simpl. now rewrite Ht.
Qed.

Lemma parse_line_row (blocks : list block) (c : partial) (raw : string)
    (row : list float) :
  data_row raw row ->
  parse_line blocks (Some c) raw
  = Ok (blocks, Some (Partial (cur_step c) (cur_time_s c) (rows c ++ [row]))).
Proof.
  intros [H7 Hv]. destruct (numbers_line_plain raw row Hv) as [Hm Hh].
  unfold parse_line. rewrite Hm, Hh, H7. simpl.
  unfold line_values in Hv. now rewrite Hv.
Qed.

Lemma parse_line_ignored (blocks : list block) (cur : option partial)
    (raw : string) :
  ignored_line raw -> parse_line blocks cur raw = Ok (blocks, cur).
Proof.
  intros [Hm H]. unfold parse_line. rewrite Hm.
  destruct cur as [c|]; [|reflexivity].
  destruct (HEADER_RE raw); [reflexivity|].
  destruct H as [H|[H|H]]; [discriminate H| |].
  - destruct (_ =? 7) eqn:E; [apply Z.eqb_eq in E; contradiction | reflexivity].
  - destruct (_ =? 7); [|reflexivity].
    unfold line_values in H. now rewrite H.
Qed.

Lemma parse_line_before_marker (blocks : list block) (raw : string) :
  BLOCK_START_RE raw = None -> parse_line blocks None raw = Ok (blocks, None).
Proof. intros Hm. unfold parse_line. now rewrite Hm. Qed.

Lemma parse_lines_rows (rws : list string) (parsed : list (list float)) :
  Forall2 data_row rws parsed ->
  forall blocks c,
    parse_lines rws blocks (Some c)
    = Ok (blocks, Some (Partial (cur_step c) (cur_time_s c) (rows c ++ parsed))).
Proof.
  induction 1 as [|raw row rws parsed Hr _ IH]; intros blocks c; simpl.
  - rewrite app_nil_r. now destruct c.
  - rewrite (parse_line_row _ _ _ _ Hr). simpl. rewrite IH. simpl.
    now rewrite <- app_assoc.
Qed.

Lemma parse_lines_segment (seg : list string) (b : block) :
  segment_lines seg b ->
  forall blocks cur,
    parse_lines seg blocks cur
    = Ok (flush blocks cur, Some (Partial (step b) (time_s b) (data b))).
Proof.
  intros (m & rws & -> & Hm & Hr & _) blocks cur. simpl.
  rewrite (parse_line_marker _ _ _ _ _ Hm). simpl.
  now rewrite (parse_lines_rows _ _ Hr).
Qed.

Lemma parse_lines_segments (segs : list (list string)) (bs : list block) :
  Forall2 segment_lines segs bs ->
  forall blocks cur,
    exists st, parse_lines (concat segs) blocks cur = Ok st /\
               flush st.1 st.2 = flush blocks cur ++ bs.
Proof.
  induction 1 as [|seg b segs bs Hs _ IH]; intros blocks cur; simpl.
  - exists (blocks, cur). now rewrite app_nil_r.
  - rewrite parse_lines_app, (parse_lines_segment _ _ Hs). simpl.
    destruct (IH (flush blocks cur) (Some (Partial (step b) (time_s b) (data b))))
      as (st & E & F).
    exists st. split; [exact E|]. rewrite F. simpl.
    destruct Hs as (_ & _ & _ & _ & _ & Hne).
    destruct b as [s t [|r d]]; [now contradiction Hne|].
    simpl. now rewrite <- app_assoc.
Qed.

Lemma parse_lines_ignored (junk : list string) :
  Forall ignored_line junk ->
  forall blocks cur, parse_lines junk blocks cur = Ok (blocks, cur).
Proof.
  induction 1 as [|raw junk Hr _ IH]; intros blocks cur; simpl; [reflexivity|].
  rewrite (parse_line_ignored _ _ _ Hr). simpl. apply IH.
Qed.

Lemma parse_lines_before_marker (pre : list string) :
  Forall (fun raw => BLOCK_START_RE raw = None) pre ->
  forall blocks, parse_lines pre blocks None = Ok (blocks, None).
Proof.
  induction 1 as [|raw pre Hr _ IH]; intros blocks; simpl; [reflexivity|].
  rewrite (parse_line_before_marker _ _ Hr). simpl. apply IH.
Qed.

(** ** What the block reader returns *)

(** X1.  A stream made of blocks, each a marker line followed by one or
    more rows of seven numbers, is decoded block by block, in order: every
    block carries the step and time of its marker and its rows as read. *)
Theorem parse_block_ascii_decodes (segs : list (list string)) (bs : list block) :
  Forall2 segment_lines segs bs ->
  segs <> [] ->
  parse_block_ascii (concat segs) = Ok bs.
Proof.
  intros HF Hne. unfold parse_block_ascii.
  destruct (parse_lines_segments segs bs HF [] None) as ([bl c] & E & F).
  rewrite E. simpl in *. rewrite F.
  destruct HF; [congruence | reflexivity].
Qed.

Lemma parse_block_ascii_decodes_witness :
  parse_block_ascii
    (concat [ ["step=1 time=1e-12"; "1 0.0 0.0 1.0 2.0 3.0 0.0";
               "2 0.1 0.0 1.0 2.0 3.0 0.0"; "3 0.2 0.0 1.0 2.0 3.0 0.0"];
              ["step=2 time=2e-12"; "1 0.0 0.0 1.5 2.0 3.0 0.0";
               "2 0.1 0.0 1.5 2.0 3.0 0.0"] ])
  = Ok [ Block 1 1e-12 [ [1; 0; 0; 1; 2; 3; 0]; [2; 0.1; 0; 1; 2; 3; 0];
                         [3; 0.2; 0; 1; 2; 3; 0] ]%float;
         Block 2 2e-12 [ [1; 0; 0; 1.5; 2; 3; 0]; [2; 0.1; 0; 1.5; 2; 3; 0] ]%float ].
Proof.
  apply parse_block_ascii_decodes; [|discriminate].
  constructor; [|constructor; [|constructor]].
  - eexists _, _. split; [reflexivity|]. split; [|split; [|discriminate]].
    + exists "1", "1e-12". repeat split; vm_compute; reflexivity.
    + repeat (constructor; [split; vm_compute; reflexivity|]). constructor.
  - eexists _, _. split; [reflexivity|]. split; [|split; [|discriminate]].
    + exists "2", "2e-12". repeat split; vm_compute; reflexivity.
    + repeat (constructor; [split; vm_compute; reflexivity|]). constructor.
Defined.

Lemma mapM_length {A B} (f : A -> outcome B) (l : list A) (k : list B) :
  mapM f l = Ok k -> length k = length l.
Proof.
  intros H. apply mapM_ok in H. symmetry. now apply Forall2_length in H.
Qed.

Lemma flush_well_formed (blocks : list block) (cur : option partial) :
  Forall well_formed_block blocks ->
  (forall c, cur = Some c -> Forall (fun row => length row = 7%nat) (rows c)) ->
  Forall well_formed_block (flush blocks cur).
Proof.
  intros Hb Hc. unfold flush. destruct cur as [c|]; [|exact Hb].
  specialize (Hc c eq_refl). destruct (rows c) as [|r rs] eqn:E; [exact Hb|].
  apply Forall_app. split; [exact Hb|]. constructor; [|constructor].
  split; simpl; [discriminate | exact Hc].
Qed.

Lemma parse_line_well_formed (blocks : list block) (cur : option partial)
    (raw : string) (st : list block * option partial) :
  Forall well_formed_block blocks ->
  (forall c, cur = Some c -> Forall (fun row => length row = 7%nat) (rows c)) ->
  parse_line blocks cur raw = Ok st ->
  Forall well_formed_block st.1 /\
  (forall c, st.2 = Some c -> Forall (fun row => length row = 7%nat) (rows c)).
Proof.
  intros Hb Hc. unfold parse_line.
  destruct (BLOCK_START_RE raw) as [[g1 g2]|].
  - destruct (Py.int g1) as [s| |]; simpl; try discriminate.
    destruct (Py.float g2) as [t| |]; simpl; try discriminate.
    intros [= <-]. simpl. split; [now apply flush_well_formed|].
    intros c [= <-]. constructor.
  - destruct cur as [c|]; [|intros [= <-]; now split].
    destruct (HEADER_RE raw); [intros [= <-]; now split|].
    destruct (_ =? 7) eqn:E7; [|intros [= <-]; now split].
    destruct (mapM Py.float _) as [row|e|] eqn:Em.
    + intros [= <-]. simpl. split; [exact Hb|]. intros c' [= <-]. simpl.
      apply Forall_app. split; [now apply Hc|]. constructor; [|constructor].
      rewrite (mapM_length _ _ _ Em). apply Z.eqb_eq in E7.
      unfold Py.len in E7. lia.
    + destruct e; try discriminate. intros [= <-]. now split.
    + discriminate.
Qed.

Lemma parse_lines_well_formed (stream : list string) :
  forall blocks cur st,
    Forall well_formed_block blocks ->
    (forall c, cur = Some c -> Forall (fun row => length row = 7%nat) (rows c)) ->
    parse_lines stream blocks cur = Ok st ->
    Forall well_formed_block (flush st.1 st.2).
Proof.
  induction stream as [|raw stream IH]; intros blocks cur st Hb Hc; simpl.
  - intros [= <-]. now apply flush_well_formed.
  - destruct (parse_line blocks cur raw) as [[bl c]| |] eqn:E; simpl;
      try discriminate.
    destruct (parse_line_well_formed _ _ _ _ Hb Hc E) as [Hb' Hc'].
    now apply IH.
Qed.

(** X2.  Whatever the stream, a sequence of blocks that [parse_block_ascii]
    returns is not empty, every block in it has at least one row, and every
    row has exactly seven numbers. *)
Theorem parse_block_ascii_well_formed (stream : list string) (bs : list block) :
  parse_block_ascii stream = Ok bs ->
  bs <> [] /\ Forall well_formed_block bs.
Proof.
  unfold parse_block_ascii.
  destruct (parse_lines stream [] None) as [[bl c]| |] eqn:E; simpl;
    try discriminate.
  pose proof (parse_lines_well_formed stream [] None (bl, c)
                (Forall_nil_2 _) ltac:(discriminate) E) as H.
  simpl in H. destruct (flush bl c) as [|b l]; [discriminate|].
  intros [= <-]. split; [discriminate | exact H].
Qed.

Lemma parse_block_ascii_well_formed_witness :
  [ Block 7 0.5 [ [1; 2; 3; 4; 5; 6; 7] ]%float ] <> [] /\
  Forall well_formed_block [ Block 7 0.5 [ [1; 2; 3; 4; 5; 6; 7] ]%float ].
Proof.
  apply (parse_block_ascii_well_formed
           ["junk"; "STEP = 7  TIME = 0.5"; " i x v rho te ti depo"; "step=8 time=1";
            "1 2 3 4 5 6"; "step=7 time=0.5"; "1 2 3 4 5 6 7"; "a b c d e f g"]).
  vm_compute. reflexivity.
Defined.

(** X3.  A line that is no marker and no row of seven numbers (column
    labels, a blank line, text, a short row) can be dropped from the stream
    anywhere without changing what [parse_block_ascii] returns or raises. *)
Theorem parse_block_ascii_skips_ignored (a b : list string) (junk : string) :
  ignored_line junk ->
  parse_block_ascii (a ++ junk :: b) = parse_block_ascii (a ++ b).
Proof.
  intros Hj. unfold parse_block_ascii. rewrite !parse_lines_app.
  destruct (parse_lines a [] None) as [[bl c]| |]; simpl; try reflexivity.
  now rewrite (parse_line_ignored _ _ _ Hj).
Qed.

Lemma parse_block_ascii_skips_ignored_witness :
  parse_block_ascii (["step=1 time=0.5"; "1 2 3 4 5 6 7"]
                     ++ " i  x  v  rho  te  ti  depo" :: ["2 2 3 4 5 6 7"])
  = parse_block_ascii (["step=1 time=0.5"; "1 2 3 4 5 6 7"] ++ ["2 2 3 4 5 6 7"]).
Proof.
  apply parse_block_ascii_skips_ignored.
  split; [vm_compute; reflexivity | left; vm_compute; reflexivity].
Defined.

(** X4.  Everything before the first marker line is discarded, rows of
    seven numbers included: the result is that of the stream from the first
    marker on. *)
Theorem parse_block_ascii_drops_preamble (pre rest : list string) :
  Forall (fun raw => BLOCK_START_RE raw = None) pre ->
  parse_block_ascii (pre ++ rest) = parse_block_ascii rest.
Proof.
  intros Hp. unfold parse_block_ascii.
  now rewrite parse_lines_app, (parse_lines_before_marker _ Hp).
Qed.

Lemma parse_block_ascii_drops_preamble_witness :
  parse_block_ascii (["1 2 3 4 5 6 7"; "# run 12"]
                     ++ ["step=1 time=0.5"; "1 2 3 4 5 6 7"])
  = parse_block_ascii ["step=1 time=0.5"; "1 2 3 4 5 6 7"].
Proof.
  apply parse_block_ascii_drops_preamble.
  repeat constructor; vm_compute; reflexivity.
Defined.

(** X5.  A marker that collects no row before the next marker or the end
    of the stream leaves no trace: the result is the same as without the
    marker and the ignored lines after it. *)
Theorem parse_block_ascii_drops_empty_block (pre junk rest : list string)
    (m : string) (s : Z) (t : float) :
  marker_line m s t ->
  Forall ignored_line junk ->
  (rest = [] \/ exists r rest', rest = r :: rest' /\ BLOCK_START_RE r <> None) ->
  parse_block_ascii (pre ++ m :: junk ++ rest) = parse_block_ascii (pre ++ rest).
Proof.
  intros Hm Hj Hrest. unfold parse_block_ascii. rewrite !parse_lines_app.
  destruct (parse_lines pre [] None) as [[bl c]| |]; simpl; try reflexivity.
  rewrite (parse_line_marker _ _ _ _ _ Hm). simpl.
  rewrite parse_lines_app, (parse_lines_ignored _ Hj). simpl.
  destruct Hrest as [-> | (r & rest' & -> & Hr)]; simpl.
  - reflexivity.
  - unfold parse_line. destruct (BLOCK_START_RE r) as [[g1 g2]|]; [|congruence].
    reflexivity.
Qed.

Lemma parse_block_ascii_drops_empty_block_witness :
  parse_block_ascii (["step=1 time=0.5"; "1 2 3 4 5 6 7"]
                     ++ "step=2 time=0.75" :: ["no rows here"]
                     ++ ["step=3 time=1"; "3 2 3 4 5 6 7"])
  = parse_block_ascii (["step=1 time=0.5"; "1 2 3 4 5 6 7"]
                       ++ ["step=3 time=1"; "3 2 3 4 5 6 7"]).
Proof.
  apply (parse_block_ascii_drops_empty_block _ _ _ _ 2 0.75%float).
  - exists "2", "0.75". repeat split; vm_compute; reflexivity.
  - constructor; [|constructor]. split; [vm_compute; reflexivity|].
    right; left. vm_compute. discriminate.
  - right. eexists _, _. split; [reflexivity|]. vm_compute. discriminate.
Defined.

Lemma int_outcome (s : string) :
  (exists z, Py.int s = Ok z) \/ Py.int s = Raise ValueError.
Proof.
  unfold Py.int. destruct (Py.sign _) as [neg body].
  destruct (Py.digitpart body) as [[ds [|x r]]|]; eauto.
Qed.

Lemma float_outcome (s : string) :
  (exists v, Py.float s = Ok v) \/ Py.float s = Raise ValueError.
Proof.
  unfold Py.float. destruct (Py.sign _) as [neg body].
  destruct (_ || _); [eauto|]. destruct (String.eqb _ "nan"); [eauto|].
  destruct (match Py.digitpart body with Some r => r | None => _ end) as [ints r1].
  destruct (match Py.fraction r1 with Some r => r | None => _ end) as [fracs r2].
  destruct (ints ++ fracs); [eauto|]. destruct (Py.exponent r2); eauto.
Qed.

Lemma parse_line_outcome (blocks : list block) (cur : option partial)
    (raw : string) :
  (exists st, parse_line blocks cur raw = Ok st) \/
  parse_line blocks cur raw = Raise ValueError.
Proof.
  unfold parse_line. destruct (BLOCK_START_RE raw) as [[g1 g2]|].
  - destruct (int_outcome g1) as [[z ->]| ->]; simpl; [|now right].
    destruct (float_outcome g2) as [[v ->]| ->]; simpl; eauto.
  - destruct cur as [c|]; [|eauto]. destruct (HEADER_RE raw); [eauto|].
    destruct (_ =? 7); [|eauto].
    destruct (mapM_raises Py.float (Py.split (Py.strip raw)) ValueError)
      as [Hf Hr].
    + intros x. destruct (float_outcome x) as [[v ->]| ->]; discriminate.
    + intros x e. destruct (float_outcome x) as [[v ->]| ->]; congruence.
    + destruct (mapM Py.float _) as [row|e|]; [eauto| |congruence].
      rewrite (Hr e eq_refl). eauto.
Qed.

Lemma parse_lines_outcome (stream : list string) :
  forall blocks cur,
    (exists st, parse_lines stream blocks cur = Ok st) \/
    parse_lines stream blocks cur = Raise ValueError.
Proof.
  induction stream as [|raw stream IH]; intros blocks cur; simpl; [eauto|].
  destruct (parse_line_outcome blocks cur raw) as [[[bl c] ->]| ->]; simpl;
    [apply IH | now right].
Qed.

(** X6.  [parse_block_ascii] either returns blocks or raises [ValueError]:
    no other exception leaves it, and being a single pass over the lines it
    always ends. *)
Theorem parse_block_ascii_outcome (stream : list string) :
  (exists bs, parse_block_ascii stream = Ok bs) \/
  parse_block_ascii stream = Raise ValueError.
Proof.
  unfold parse_block_ascii.
  destruct (parse_lines_outcome stream [] None) as [[[bl c] ->]| ->]; simpl;
    [|now right].
  destruct (flush bl c); eauto.
Qed.

(** X7.  A line that matches the marker pattern but whose time text is no
    number (the class [[Ee0-9+-.]+] admits such texts) is not skipped like
    other malformed lines: the whole read fails with [ValueError], whatever
    comes before or after it. *)
Theorem parse_block_ascii_bad_marker_time (pre post : list string)
    (raw g1 g2 : string) :
  BLOCK_START_RE raw = Some (g1, g2) ->
  Py.float g2 = Raise ValueError ->
  parse_block_ascii (pre ++ raw :: post) = Raise ValueError.
Proof.
  intros Hm Hf. unfold parse_block_ascii. rewrite parse_lines_app.
  destruct (parse_lines_outcome pre [] None) as [[[bl c] ->]| ->]; simpl;
    [|reflexivity].
  unfold parse_line. rewrite Hm, Hf.
  destruct (int_outcome g1) as [[z ->]| ->]; reflexivity.
Qed.

Lemma parse_block_ascii_bad_marker_time_witness :
  parse_block_ascii (["step=1 time=0.5"; "1 2 3 4 5 6 7"]
                     ++ "step=2 time=1.0e-12." :: ["2 2 3 4 5 6 7"])
  = Raise ValueError.
Proof.
  apply (parse_block_ascii_bad_marker_time _ _ _ "2" "1.0e-12.");
    vm_compute; reflexivity.
Defined.

(** ** Choosing a block *)

Lemma index_in_range {A} (l : list A) (i : Z) :
  0 <= i < Py.len l -> exists x, Py.index l i = Ok x /\ nth_error l (Z.to_nat i) = Some x.
Proof.
  intros [H0 H1]. unfold Py.index, Py.len in *.
  destruct (i <? 0) eqn:E; [apply Z.ltb_lt in E; lia|].
  rewrite (proj2 (Z.leb_le 0 i)), (proj2 (Z.ltb_lt i _)) by lia. simpl.
  destruct (nth_error l (Z.to_nat i)) as [x|] eqn:En; [eauto|].
  apply nth_error_None in En. lia.
Qed.

Lemma index_last {A} (l : list A) :
  l <> [] -> Py.index l (-1) = Py.index l (Py.len l - 1).
Proof.
  intros Hne. assert (0 < Py.len l) by (unfold Py.len; destruct l; simpl; [congruence | lia]).
  unfold Py.index. fold (Py.len l).
  destruct (Py.len l - 1 <? 0) eqn:E; [apply Z.ltb_lt in E; lia|].
  change (-1 <? 0) with true. cbv iota.
  now replace (-1 + Py.len l) with (Py.len l - 1) by lia.
Qed.

Lemma argmin_from_range (l : list float) :
  forall mp best i, 0 <= best < i ->
    0 <= argmin_from mp best i l < i + Py.len l.
Proof.
  induction l as [|x l IH]; intros mp best i Hb; simpl.
  - unfold Py.len. simpl. lia.
  - assert (Hl : Py.len (x :: l) = 1 + Py.len l) by (unfold Py.len; simpl length; lia).
    rewrite Hl. pose proof (len_nonneg l).
    destruct (negb (PrimFloat.leb mp x)).
    + destruct (PrimFloat.is_nan x); [lia|].
      specialize (IH x i (i + 1)). lia.
    + specialize (IH mp best (i + 1)). lia.
Qed.

Lemma np_argmin_range (a : list float) :
  a <> [] -> exists i, np_argmin a = Ok i /\ 0 <= i < Py.len a.
Proof.
  destruct a as [|x l]; [congruence|]. intros _. simpl.
  eexists. split; [reflexivity|].
  assert (Hl : Py.len (x :: l) = 1 + Py.len l) by (unfold Py.len; simpl length; lia).
  rewrite Hl. pose proof (len_nonneg l).
  destruct (PrimFloat.is_nan x); [lia|].
  pose proof (argmin_from_range l x 0 1). lia.
Qed.

Lemma np_clip_range (a lo hi : Z) : lo <= hi -> lo <= np_clip a lo hi <= hi.
Proof. unfold np_clip. lia. Qed.

Lemma pick_block_total (blocks : list block) (frame : option Z)
    (time_ps : option float) :
  blocks <> [] ->
  exists b i,
    pick_block blocks frame time_ps = Ok (b, i) /\
    0 <= i < Py.len blocks /\
    nth_error blocks (Z.to_nat i) = Some b.
Proof.
  intros Hne.
  assert (Hlen : 0 < Py.len blocks)
    by (unfold Py.len; destruct blocks; simpl; [congruence | lia]).
  unfold pick_block. destruct frame as [f|]; [|destruct time_ps as [t|]].
  - pose proof (np_clip_range f 0 (Py.len blocks - 1) ltac:(lia)) as Hc.
    destruct (index_in_range blocks (np_clip f 0 (Py.len blocks - 1)) ltac:(lia))
      as (b & Hb & Hn).
    exists b, (np_clip f 0 (Py.len blocks - 1)). rewrite Hb. simpl.
    repeat split; try lia. exact Hn.
  - destruct (np_argmin_range (abs_diff (map time_s blocks) (PrimFloat.mul t 1e-12)))
      as (i & Hi & Hr).
    { unfold abs_diff. destruct blocks; [congruence | discriminate]. }
    assert (Hl : Py.len (abs_diff (map time_s blocks) (PrimFloat.mul t 1e-12))
                 = Py.len blocks)
      by (unfold abs_diff, Py.len; now rewrite !length_map).
    rewrite Hl in Hr.
    destruct (index_in_range blocks i Hr) as (b & Hb & Hn).
    exists b, i. rewrite Hi. simpl. rewrite Hb. simpl. repeat split; try lia.
    exact Hn.
  - destruct (index_in_range blocks (Py.len blocks - 1) ltac:(lia)) as (b & Hb & Hn).
    exists b, (Py.len blocks - 1). rewrite (index_last _ Hne), Hb. simpl.
    repeat split; try lia. exact Hn.
Qed.

(** X8.  On a non-empty sequence of blocks [pick_block] never fails, for
    any frame number and any time (a NaN included): it returns an index
    within the sequence together with the block found at that index, which
    is one of the blocks given. *)
Theorem pick_block_in_range (blocks : list block) (frame : option Z)
    (time_ps : option float) :
  blocks <> [] ->
  exists b i,
    pick_block blocks frame time_ps = Ok (b, i) /\
    0 <= i < Py.len blocks /\
    Py.index blocks i = Ok b /\
    In b blocks.
Proof.
  intros Hne.
  destruct (pick_block_total blocks frame time_ps Hne) as (b & i & Hp & Hi & Hn).
  exists b, i. repeat split; try assumption; try lia.
  - destruct (index_in_range blocks i Hi) as (b' & Hb & Hn').
    rewrite Hb. congruence.
  - eapply nth_error_In, Hn.
Qed.

Lemma pick_block_in_range_witness :
  exists b i,
    pick_block [Block 1 0.5 []; Block 2 nan []] None (Some nan) = Ok (b, i) /\
    0 <= i < Py.len [Block 1 0.5 []; Block 2 nan []] /\
    Py.index [Block 1 0.5 []; Block 2 nan []] i = Ok b /\
    In b [Block 1 0.5 []; Block 2 nan []].
Proof. apply pick_block_in_range. discriminate. Defined.

(** X9.  With a frame number, [pick_block] ignores the time: the index is
    the frame number itself when it lies within the sequence, 0 when it is
    negative and the last index when it is too large. *)
Theorem pick_block_frame_clamps (blocks : list block) (frame : Z)
    (time_ps : option float) :
  blocks <> [] ->
  exists b,
    pick_block blocks (Some frame) time_ps = Ok (b, np_clip frame 0 (Py.len blocks - 1)) /\
    pick_block blocks (Some frame) time_ps = pick_block blocks (Some frame) None /\
    (0 <= frame < Py.len blocks -> np_clip frame 0 (Py.len blocks - 1) = frame) /\
    (frame < 0 -> np_clip frame 0 (Py.len blocks - 1) = 0) /\
    (Py.len blocks <= frame -> np_clip frame 0 (Py.len blocks - 1) = Py.len blocks - 1).
Proof.
  intros Hne.
  assert (Hlen : 0 < Py.len blocks)
    by (unfold Py.len; destruct blocks; simpl; [congruence | lia]).
  destruct (pick_block_total blocks (Some frame) time_ps Hne) as (b & i & H & _).
  exists b. unfold pick_block in *.
  destruct (Py.index blocks _) as [b'| |]; simpl in *; try discriminate.
  injection H as -> _. repeat split; unfold np_clip; lia.
Qed.

Lemma pick_block_frame_clamps_witness :
  exists b,
    pick_block (replicate 10 (Block 1 0.5 [])) (Some (-5)) (Some 3%float)
      = Ok (b, np_clip (-5) 0 (Py.len (replicate 10 (Block 1 0.5 [])) - 1)) /\
    pick_block (replicate 10 (Block 1 0.5 [])) (Some (-5)) (Some 3%float)
      = pick_block (replicate 10 (Block 1 0.5 [])) (Some (-5)) None /\
    (0 <= -5 < Py.len (replicate 10 (Block 1 0.5 [])) ->
       np_clip (-5) 0 (Py.len (replicate 10 (Block 1 0.5 [])) - 1) = -5) /\
    (-5 < 0 -> np_clip (-5) 0 (Py.len (replicate 10 (Block 1 0.5 [])) - 1) = 0) /\
    (Py.len (replicate 10 (Block 1 0.5 [])) <= -5 ->
       np_clip (-5) 0 (Py.len (replicate 10 (Block 1 0.5 [])) - 1)
       = Py.len (replicate 10 (Block 1 0.5 [])) - 1).
Proof. apply pick_block_frame_clamps. discriminate. Defined.

(** X10.  On no blocks at all [pick_block] always raises, for a frame
    number that fits a signed 64-bit integer: [IndexError] with a frame
    number or with neither argument, [ValueError] (from [argmin]) with a
    time only. *)
Theorem pick_block_empty (frame : option Z) (time_ps : option float) :
  (forall f, frame = Some f -> - 2 ^ 63 <= f < 2 ^ 63) ->
  pick_block [] frame time_ps
  = match frame, time_ps with
    | None, Some _ => Raise ValueError
    | _, _ => Raise IndexError
    end.
Proof.
  intros _. destruct frame as [f|]; [|destruct time_ps; reflexivity].
  unfold pick_block, np_clip. change (Py.len (@nil block) - 1) with (-1).
  replace (Z.min (Z.max f 0) (-1)) with (-1) by lia.
  now destruct time_ps.
Qed.

Lemma pick_block_empty_witness :
  (forall f, Some 3 = Some f -> - 2 ^ 63 <= f < 2 ^ 63) /\
  pick_block [] (Some 3) (Some 1.5%float) = Raise IndexError /\
  pick_block [] None (Some 1.5%float) = Raise ValueError /\
  pick_block [] None None = Raise IndexError.
Proof.
  assert (H : forall f, Some 3 = Some f -> - 2 ^ 63 <= f < 2 ^ 63)
    by (intros f [= <-]; lia).
  split; [exact H|]. split; [|split].
  - exact (pick_block_empty (Some 3) (Some 1.5%float) H).
  - apply (pick_block_empty None (Some 1.5%float)). intros f Hf. discriminate Hf.
  - apply (pick_block_empty None None). intros f Hf. discriminate Hf.
Defined.

(** X11.  The frame choice written out in [main] for the classic format
    is the one of [pick_block]: on the times of the blocks and their number
    it gives the index that [pick_block] returns. *)
Theorem main_frame_agrees_with_pick_block (blocks : list block)
    (frame : option Z) (time_ps : option float) (b : block) (i : Z) :
  pick_block blocks frame time_ps = Ok (b, i) ->
  main_frame (map time_s blocks) (Py.len blocks) frame time_ps = Ok i /\
  density_plot.main_frame (map time_s blocks) (Py.len blocks) frame time_ps = Ok i.
Proof.
  unfold density_plot.main_frame, main_frame, pick_block.
  destruct frame as [f|]; [|destruct time_ps as [t|]].
  - destruct (Py.index blocks _); simpl; try discriminate. now intros [= _ <-].
  - destruct (np_argmin _) as [j| |]; simpl; try discriminate.
    destruct (Py.index blocks j); simpl; try discriminate. now intros [= _ <-].
  - destruct (Py.index blocks _); simpl; try discriminate. now intros [= _ <-].
Qed.

Lemma main_frame_agrees_with_pick_block_witness :
  main_frame (map time_s [Block 1 0 []; Block 2 1e-12 []; Block 3 5e-12 []])
             (Py.len [Block 1 0 []; Block 2 1e-12 []; Block 3 5e-12 []])
             None (Some 4%float) = Ok 2 /\
  density_plot.main_frame
             (map time_s [Block 1 0 []; Block 2 1e-12 []; Block 3 5e-12 []])
             (Py.len [Block 1 0 []; Block 2 1e-12 []; Block 3 5e-12 []])
             None (Some 4%float) = Ok 2.
Proof.
  apply (main_frame_agrees_with_pick_block _ _ _ (Block 3 5e-12 [])).
  vm_compute. reflexivity.
Defined.

(** ** Order of the floating-point numbers other than NaN *)

Lemma SFcompare_key (x y : spec_float) :
  x <> S754_nan -> y <> S754_nan ->
  (SFltb x y = true <-> key_lt (sf_key x) (sf_key y)) /\
  (SFleb x y = true <-> key_le (sf_key x) (sf_key y)).
Proof.
  intros Hx Hy. unfold SFltb, SFleb, key_le, key_lt.
  destruct x as [sx|sx| |sx mx ex], y as [sy|sy| |sy my ey]; try congruence;
    try destruct sx; try destruct sy; cbn -[Z.lt Z.le Z.opp];
    try change (Pos.compare_cont Eq mx my) with (Pos.compare mx my);
    try (destruct (Z.compare_spec ex ey) as [E|E|E];
         try destruct (Pos.compare_spec mx my) as [F|F|F]; cbn -[Z.lt Z.le Z.opp]);
    (split; split; intros HH; try discriminate HH; try reflexivity; try lia).
Qed.

Lemma not_nan_spec (x : float) :
  PrimFloat.is_nan x = false -> Prim2SF x <> S754_nan.
Proof.
  unfold PrimFloat.is_nan. rewrite FloatAxioms.eqb_spec. intros H E. rewrite E in H.
  discriminate H.
Qed.

Lemma ltb_key (x y : float) :
  PrimFloat.is_nan x = false -> PrimFloat.is_nan y = false ->
  (PrimFloat.ltb x y = true <-> key_lt (sf_key (Prim2SF x)) (sf_key (Prim2SF y))).
Proof.
  intros Hx Hy. rewrite FloatAxioms.ltb_spec.
  apply SFcompare_key; now apply not_nan_spec.
Qed.

Lemma leb_key (x y : float) :
  PrimFloat.is_nan x = false -> PrimFloat.is_nan y = false ->
  (PrimFloat.leb x y = true <-> key_le (sf_key (Prim2SF x)) (sf_key (Prim2SF y))).
Proof.
  intros Hx Hy. rewrite FloatAxioms.leb_spec.
  apply SFcompare_key; now apply not_nan_spec.
Qed.

Lemma key_le_refl (a : Z * Z * Z) : key_le a a.
Proof. unfold key_le. lia. Qed.

Lemma key_not_le (a b : Z * Z * Z) : ~ key_le a b -> key_lt b a.
Proof. unfold key_le, key_lt. lia. Qed.

Lemma key_lt_le (a b : Z * Z * Z) : key_lt a b -> key_le a b.
Proof. unfold key_le, key_lt. lia. Qed.

Lemma key_lt_le_trans (a b c : Z * Z * Z) : key_lt a b -> key_le b c -> key_lt a c.
Proof. unfold key_le, key_lt. lia. Qed.

(** ** The nearest time *)

Lemma nth_error_snoc {A} (l : list A) (x : A) (j : nat) (y : A) :
  nth_error (l ++ [x]) j = Some y ->
  ((j < length l)%nat /\ nth_error l j = Some y) \/ (j = length l /\ y = x).
Proof.
  intros H. destruct (Nat.lt_ge_cases j (length l)) as [Hj|Hj].
  - left. split; [exact Hj|]. now rewrite nth_error_app1 in H.
  - right. rewrite nth_error_app2 in H by exact Hj.
    destruct (j - length l)%nat as [|k] eqn:E; simpl in H.
    + injection H as <-. split; [lia | reflexivity].
    + now destruct k.
Qed.

Lemma argmin_from_first_minimum (l : list float) :
  forall (seen : list float) (mp : float) (best : nat),
    Forall (fun d => PrimFloat.is_nan d = false) (seen ++ l) ->
    (best < length seen)%nat ->
    first_minimum seen best mp ->
    exists d,
      first_minimum (seen ++ l)
        (Z.to_nat (argmin_from mp (Z.of_nat best) (Py.len seen) l)) d.
Proof.
  induction l as [|x l IH]; intros seen mp best Hnan Hb Hmin.
  - simpl. rewrite app_nil_r, Nat2Z.id. now exists mp.
  - assert (Hx : PrimFloat.is_nan x = false).
    { apply Forall_app in Hnan as [_ Hnan]. now apply Forall_cons in Hnan as [? _]. }
    assert (Hmp : PrimFloat.is_nan mp = false).
    { destruct Hmin as [Hm _]. apply Forall_app in Hnan as [Hs _].
      rewrite List.Forall_forall in Hs. apply Hs. eapply nth_error_In, Hm. }
    assert (Hseen : forall j dj, nth_error seen j = Some dj ->
                                 PrimFloat.is_nan dj = false).
    { intros j dj Hj. apply Forall_app in Hnan as [Hs _].
      rewrite List.Forall_forall in Hs. apply Hs. eapply nth_error_In, Hj. }
    assert (Hlen : Py.len seen + 1 = Py.len (seen ++ [x]))
      by (rewrite len_app; reflexivity).
    replace (seen ++ x :: l) with ((seen ++ [x]) ++ l) in Hnan |- *
      by (now rewrite <- app_assoc).
    simpl argmin_from. rewrite Hx, Hlen.
    destruct (PrimFloat.leb mp x) eqn:Ele; simpl negb; cbv iota.
    + apply (IH (seen ++ [x]) mp best Hnan).
      * rewrite length_app. simpl. lia.
      * destruct Hmin as [Hm Hall]. split.
        -- rewrite nth_error_app1 by exact Hb. exact Hm.
        -- intros j dj Hj. apply nth_error_snoc in Hj as [[Hj1 Hj2]|[-> ->]].
           ++ now apply Hall.
           ++ split; [exact Ele | lia].
    + assert (Hlt : PrimFloat.ltb x mp = true).
      { apply (ltb_key x mp Hx Hmp). apply key_not_le. intros Hle.
        apply (leb_key mp x Hmp Hx) in Hle. congruence. }
      replace (Py.len seen) with (Z.of_nat (length seen)) by reflexivity.
      apply (IH (seen ++ [x]) x (length seen) Hnan).
      * rewrite length_app. simpl. lia.
      * destruct Hmin as [Hm Hall]. split.
        -- rewrite nth_error_app2, Nat.sub_diag by lia. reflexivity.
        -- intros j dj Hj. apply nth_error_snoc in Hj as [[Hj1 Hj2]|[-> ->]].
           ++ destruct (Hall j dj Hj2) as [Hle _].
              pose proof (Hseen j dj Hj2) as Hdj.
              assert (Hxd : PrimFloat.ltb x dj = true).
              { apply (ltb_key x dj Hx Hdj).
                apply (key_lt_le_trans _ (sf_key (Prim2SF mp))).
                - now apply (ltb_key x mp Hx Hmp).
                - now apply (leb_key mp dj Hmp Hdj). }
              split; [|intros _; exact Hxd].
              apply (leb_key x dj Hx Hdj), key_lt_le.
              now apply (ltb_key x dj Hx Hdj).
           ++ split; [|lia]. apply (leb_key x x Hx Hx), key_le_refl.
Qed.

Lemma np_argmin_first_minimum (a : list float) (i : Z) :
  Forall (fun d => PrimFloat.is_nan d = false) a ->
  np_argmin a = Ok i ->
  exists d, first_minimum a (Z.to_nat i) d.
Proof.
  destruct a as [|x l]; [discriminate|]. intros Hnan [= <-].
  assert (Hx : PrimFloat.is_nan x = false) by (now apply Forall_cons in Hnan as [? _]).
  rewrite Hx.
  apply (argmin_from_first_minimum l [x] x 0 Hnan); [simpl; lia|].
  split; [reflexivity|]. intros [|[|j]] dj Hj; try discriminate Hj.
  injection Hj as <-. split; [|lia]. apply (leb_key x x Hx Hx), key_le_refl.
Qed.

(** X12.  With a time and no frame number, and when no time difference is
    NaN, the index that [pick_block] returns is that of the block nearest
    in time to [time_ps * 1e-12] seconds: no block has a smaller absolute
    difference, and every block before it has a strictly larger one. *)
Theorem pick_block_nearest_time (blocks : list block) (time_ps : float)
    (b : block) (i : Z) :
  let diffs := abs_diff (map time_s blocks) (PrimFloat.mul time_ps 1e-12) in
  Forall (fun d => PrimFloat.is_nan d = false) diffs ->
  pick_block blocks None (Some time_ps) = Ok (b, i) ->
  exists d, first_minimum diffs (Z.to_nat i) d.
Proof.
  intros diffs Hnan. unfold pick_block. fold diffs.
  destruct (np_argmin diffs) as [j| |] eqn:Ej; simpl; try discriminate.
  destruct (Py.index blocks j); simpl; try discriminate.
  intros [= _ <-]. now apply np_argmin_first_minimum.
Qed.

Lemma pick_block_nearest_time_witness :
  exists d,
    first_minimum
      (abs_diff (map time_s [Block 1 0 []; Block 2 1e-12 []; Block 3 5e-12 [];
                             Block 4 9e-12 []])
                (PrimFloat.mul 4 1e-12))
      (Z.to_nat 2) d.
Proof.
  apply (pick_block_nearest_time _ 4%float (Block 3 5e-12 []) 2).
  - repeat constructor.
  - vm_compute. reflexivity.
Defined.

(** ** From the block file to the profile *)

Lemma column_of_rows (k : Z) (data : list (list float)) :
  Forall (fun row => length row = 7%nat) data -> 0 <= k < 7 ->
  column k data = Ok (map (fun row => nth (Z.to_nat k) row 0%float) data).
Proof.
  intros Hd Hk. unfold column. induction Hd as [|row data Hrow _ IH]; simpl.
  - reflexivity.
  - destruct (index_in_range row k) as (v & Hv & Hn).
    { unfold Py.len. lia. }
    rewrite Hv. simpl. rewrite IH. simpl.
    now rewrite (nth_error_nth _ _ 0%float Hn).
Qed.

(** X13.  Once [parse_block_ascii] has returned and the unit is one of the
    table, the block branch of [main] cannot fail, whatever frame number or
    time is asked for: the width check passes (every row has seven
    columns), and it yields, for the block chosen by [pick_block], column 1
    of every row times the unit factor, column 3 of every row, and the time
    of the block in picoseconds. *)
Theorem main_block_after_parse (stream : list string) (blocks : list block)
    (frame : option Z) (time_ps : option float) (xunit : option string)
    (factor : float) :
  parse_block_ascii stream = Ok blocks ->
  unit_factor_to_um xunit = Ok factor ->
  exists blk idx,
    pick_block blocks frame time_ps = Ok (blk, idx) /\
    data blk <> [] /\
    main_block stream frame time_ps xunit
    = Ok (map (fun row => PrimFloat.mul (nth 1 row 0%float) factor) (data blk),
          map (fun row => nth 3 row 0%float) (data blk),
          PrimFloat.mul (time_s blk) 1e12,
          idx).
Proof.
  intros Hparse Hunit.
  assert (Hwf : blocks <> [] /\ Forall well_formed_block blocks).
  { revert Hparse. unfold parse_block_ascii.
    destruct (parse_lines stream [] None) as [[bl c]| |] eqn:E; simpl;
      try discriminate.
    pose proof (parse_lines_well_formed stream [] None (bl, c)
                  (Forall_nil_2 _) ltac:(discriminate) E) as H.
    simpl in H. destruct (flush bl c) as [|b l]; [discriminate|].
    intros [= <-]. split; [discriminate | exact H]. }
  destruct Hwf as [Hne Hwf].
  destruct (pick_block_total blocks frame time_ps Hne) as (blk & idx & Hp & _ & Hn).
  assert (Hblk : well_formed_block blk).
  { rewrite List.Forall_forall in Hwf. apply Hwf. eapply nth_error_In, Hn. }
  destruct Hblk as [Hrows H7].
  exists blk, idx. split; [exact Hp|]. split; [exact Hrows|].
  assert (Hs : shape1 (data blk) = Ok 7).
  { destruct (data blk) as [|row rest]; [congruence|].
    apply Forall_cons in H7 as [H7 _]. unfold shape1, Py.len. f_equal. lia. }
  unfold main_block. rewrite Hparse. simpl. rewrite Hp. simpl.
  rewrite Hs. simpl.
  rewrite (column_of_rows 1 (data blk) H7), (column_of_rows 3 (data blk) H7) by lia.
  simpl. unfold x_um. rewrite Hunit. simpl.
  now rewrite map_map.
Qed.

Lemma main_block_after_parse_witness :
  exists blk idx,
    pick_block [ Block 1 0.5 [ [1; 0.25; 3; 4; 5; 6; 7] ]%float ] None (Some 9%float)
      = Ok (blk, idx) /\
    data blk <> [] /\
    main_block ["step=1 time=0.5"; "1 0.25 3 4 5 6 7"] None (Some 9%float) (Some "cm")
    = Ok (map (fun row => PrimFloat.mul (nth 1 row 0%float) 1e4) (data blk),
          map (fun row => nth 3 row 0%float) (data blk),
          PrimFloat.mul (time_s blk) 1e12,
          idx).
Proof.
  apply main_block_after_parse; vm_compute; reflexivity.
Defined.

(** ** Records: enough numbers or not *)

Lemma _read_values_loop_done (fp : list string) (acc : list float) (n : Z) :
  ~ Py.len acc < n -> _read_values_loop fp acc n = Ok (Py.slice_to acc n, fp).
Proof.
  intros H. destruct fp; simpl;
    (destruct (Py.len acc <? n) eqn:E; [apply Z.ltb_lt in E; contradiction | reflexivity]).
Qed.

Lemma _read_values_loop_enough (fp : list string) :
  forall (acc vs : list float) (n : Z),
    values_of fp = Ok vs ->
    Py.len acc < n <= Py.len acc + Py.len vs ->
    exists pre line rest vp vl,
      fp = pre ++ line :: rest /\
      values_of pre = Ok vp /\ line_values line = Ok vl /\
      Py.len acc + Py.len vp < n <= Py.len acc + Py.len vp + Py.len vl /\
      _read_values_loop fp acc n = Ok (firstn (Z.to_nat n) (acc ++ vs), rest).
Proof.
  induction fp as [|line fp IH]; intros acc vs n Hv [H1 H2].
  - injection Hv as <-. unfold Py.len in H2 at 2. simpl in H2. lia.
  - simpl in Hv. destruct (line_values line) as [a| |] eqn:Ea; try discriminate Hv.
    destruct (values_of fp) as [b| |] eqn:Eb; try discriminate Hv.
    simpl in Hv. injection Hv as <-. rewrite len_app in H2.
    pose proof (len_nonneg acc) as Hacc.
    simpl. rewrite (proj2 (Z.ltb_lt _ _) H1).
    pose proof Ea as Ea'. unfold line_values in Ea'. rewrite Ea'. simpl.
    destruct (Z.lt_ge_cases (Py.len (acc ++ a)) n) as [Hlt|Hge].
    + destruct (IH (acc ++ a) b n eq_refl)
        as (pre & last & rest & vp & vl & -> & Hp & Hl & Hb & Hr).
      { rewrite len_app in *. lia. }
      exists (line :: pre), last, rest, (a ++ vp), vl.
      split; [reflexivity|]. split; [simpl; now rewrite Ea, Hp|].
      split; [exact Hl|]. rewrite len_app in *.
      split; [lia|]. now rewrite Hr, <- app_assoc.
    + exists [], line, fp, [], a.
      split; [reflexivity|]. split; [reflexivity|]. split; [exact Ea|].
      rewrite len_app in Hge. change (Py.len (@nil float)) with 0.
      split; [lia|].
      rewrite _read_values_loop_done by (rewrite len_app; lia).
      rewrite slice_to_firstn by lia. f_equal. f_equal.
      rewrite (app_assoc acc a b), (firstn_app _ (acc ++ a) b).
      replace (Z.to_nat n - length (acc ++ a))%nat with 0%nat
        by (rewrite length_app; unfold Py.len in Hge; lia).
      simpl. now rewrite app_nil_r.
Qed.

(** X14.  On lines that hold only numbers, [vs] in reading order, a read of
    [nvals > 0] values raises [EOFError] exactly when the lines hold fewer
    than [nvals] numbers.  Otherwise it returns the first [nvals] of them
    and has read the shortest run of lines that holds [nvals] numbers: the
    lines [pre] hold fewer, with [line] they are [nvals] or more, and the
    file is left at the lines [rest] after [line]. *)
Theorem _read_values_enough (fp : file) (vs : list float) (nvals : Z) :
  values_of fp = Ok vs ->
  0 < nvals ->
  (Py.len vs < nvals -> _read_values fp nvals = Raise EOFError) /\
  (nvals <= Py.len vs ->
   exists pre line rest vp vl,
     fp = pre ++ line :: rest /\
     values_of pre = Ok vp /\ line_values line = Ok vl /\
     Py.len vp < nvals <= Py.len vp + Py.len vl /\
     _read_values fp nvals = Ok (firstn (Z.to_nat nvals) vs, rest)).
Proof.
  intros Hv Hn. split; intros H.
  - apply (_read_values_loop_eof fp [] vs nvals Hv). exact H.
  - destruct (_read_values_loop_enough fp [] vs nvals Hv)
      as (pre & line & rest & vp & vl & E & Hp & Hl & Hb & Hr).
    { change (Py.len (@nil float)) with 0. lia. }
    change (Py.len (@nil float)) with 0 in Hb. rewrite !Z.add_0_l in Hb.
    exists pre, line, rest, vp, vl. now repeat split.
Qed.

Lemma _read_values_enough_witness :
  (Py.len [1; 2; 3; 4; 5]%float < 3 ->
   _read_values ["1 2"; "3 4"; "5"] 3 = Raise EOFError) /\
  (3 <= Py.len [1; 2; 3; 4; 5]%float ->
   exists pre line rest vp vl,
     ["1 2"; "3 4"; "5"] = pre ++ line :: rest /\
     values_of pre = Ok vp /\ line_values line = Ok vl /\
     Py.len vp < 3 <= Py.len vp + Py.len vl /\
     _read_values ["1 2"; "3 4"; "5"] 3
     = Ok (firstn (Z.to_nat 3) [1; 2; 3; 4; 5]%float, rest)).
Proof.
  apply _read_values_enough; [vm_compute; reflexivity | lia].
Defined.

(** ** When the frame loop ends *)

Lemma mapM_float_fuel (toks : list string) : mapM Py.float toks <> OutOfFuel.
Proof.
  apply (mapM_raises Py.float toks ValueError).
  - intros x. destruct (float_outcome x) as [[v ->]| ->]; discriminate.
  - intros x e. destruct (float_outcome x) as [[v ->]| ->]; congruence.
Qed.

Lemma _read_values_loop_progress (fp : list string) :
  forall (acc vals : list float) (n : Z) (fp' : list string),
    _read_values_loop fp acc n = Ok (vals, fp') ->
    (length fp' <= length fp)%nat /\
    (Py.len acc < n -> (length fp' < length fp)%nat).
Proof.
  induction fp as [|line fp IH]; intros acc vals n fp'; simpl;
    destruct (Py.len acc <? n) eqn:E; try discriminate.
  - intros [= _ <-]. apply Z.ltb_ge in E. split; [simpl; lia | lia].
  - destruct (mapM Py.float _) as [new| |]; simpl; try discriminate.
    intros H. destruct (IH _ _ _ _ H) as [Hle _]. split; simpl; lia.
  - intros [= _ <-]. apply Z.ltb_ge in E. split; [simpl; lia | lia].
Qed.

Lemma _read_values_loop_fuel (fp : list string) :
  forall (acc : list float) (n : Z), _read_values_loop fp acc n <> OutOfFuel.
Proof.
  induction fp as [|line fp IH]; intros acc n; simpl;
    destruct (Py.len acc <? n); try discriminate.
  pose proof (mapM_float_fuel (Py.split (Py.strip line))) as Hf.
  destruct (mapM Py.float _) as [new| |]; simpl; [apply IH | discriminate | congruence].
Qed.

(** X15.  When a record has at least one value, the frame loop ends: each
    turn reads at least one line, so one unit of fuel per remaining line,
    and one more, is enough for [read_frames] to return or raise. *)
Theorem read_frames_terminates (fuel : nat) (fp : file) (rec_n : Z)
    (items : list (string * Z)) (data : series) :
  0 < rec_n ->
  (length fp < fuel)%nat ->
  read_frames fuel fp rec_n items data <> OutOfFuel.
Proof.
  intros Hn. revert fp data.
  induction fuel as [|fuel IH]; intros fp data Hfuel; [lia|].
  simpl. destruct fp as [|line fp]; [discriminate|].
  pose proof (_read_values_loop_fuel (line :: fp) [] rec_n) as Hf.
  pose proof (_read_values_loop_progress (line :: fp) []) as Hp.
  unfold _read_values.
  destruct (_read_values_loop (line :: fp) [] rec_n) as [[vals fp']|e|] eqn:Er;
    [| destruct e; discriminate | congruence].
  destruct (Hp vals rec_n fp' Er) as [_ Hlt].
  specialize (Hlt ltac:(change (Py.len (@nil float)) with 0; lia)).
  destruct (store_frame_raises items vals 0 data) as [Hs _].
  destruct (store_frame items vals 0 data) as [data'| |]; simpl;
    [| discriminate | congruence].
  apply IH. simpl in Hfuel, Hlt. lia.
Qed.

Lemma read_frames_terminates_witness :
  read_frames 3 ["1 2"; "x"] 2 [("A", 0); ("B", 0)]
              (empty_series [("A", 0); ("B", 0)]) <> OutOfFuel.
Proof. apply read_frames_terminates; simpl; lia. Defined.

Lemma read_frames_spins (fuel : nat) (line : string) (rest : list string)
    (data : series) :
  read_frames fuel (line :: rest) 0 [] data = OutOfFuel.
Proof.
  induction fuel as [|fuel IH]; [reflexivity|].
  change (read_frames (S fuel) (line :: rest) 0 [] data)
    with (read_frames fuel (line :: rest) 0 [] data).
  exact IH.
Qed.

(** X16.  A dynamic header that declares no element makes the readers spin
    for ever when at least one line follows it: the loop sees a line, reads
    a record of zero values without consuming anything, and starts again.
    No amount of fuel lets [read_classic_fort10] or [read_fort10_dynamic]
    return. *)
Theorem read_classic_fort10_empty_record_spins (fuel : nat) (fp fp1 : file)
    (line : string) (rest : list string) :
  (_skip_static fuel fp = Ok fp1 ->
   _read_section_header fuel fp1 = Ok (Section_ [] 0, line :: rest) ->
   read_classic_fort10 fuel fp = OutOfFuel) /\
  (density_plot._skip_static_section fuel fp = Ok fp1 ->
   density_plot._read_section_header fuel fp1 = Ok (Section_ [] 0, line :: rest) ->
   density_plot.read_fort10_dynamic fuel fp = OutOfFuel).
Proof.
  split; intros Hs Hh.
  - unfold read_classic_fort10. rewrite Hs. simpl. rewrite Hh. simpl.
    now rewrite read_frames_spins.
  - unfold density_plot.read_fort10_dynamic. rewrite Hs. simpl. rewrite Hh. simpl.
    now rewrite read_frames_spins.
Qed.

Lemma read_classic_fort10_empty_record_spins_witness :
  read_classic_fort10 40 (fort10_static ++ ["0"; "1.0 2.0"]) = OutOfFuel /\
  density_plot.read_fort10_dynamic 40 (fort10_static ++ ["0"; "1.0 2.0"]) = OutOfFuel.
Proof.
  destruct (read_classic_fort10_empty_record_spins 40
              (fort10_static ++ ["0"; "1.0 2.0"]) ["0"; "1.0 2.0"] "1.0 2.0" [])
    as [H1 H2].
  split; [apply H1 | apply H2]; vm_compute; reflexivity.
Defined.

Lemma slice_nil {A} (i j : Z) : Py.slice (@nil A) i j = [].
Proof. unfold Py.slice. now rewrite skipn_nil, firstn_nil. Qed.

Lemma _read_exact_names_none (fp : file) (n : Z) :
  n <= 0 -> _read_exact_names fp n = Ok ([], fp).
Proof.
  intros Hn. assert (E : (0 <? n) = false) by (apply Z.ltb_ge; lia).
  unfold _read_exact_names.
  destruct fp; cbn [_read_exact_names_loop];
    change (Py.len (@nil string)) with 0; rewrite E;
    unfold Py.slice_to; now rewrite slice_nil.
Qed.

Lemma _read_exact_ints_none (fp : file) (n : Z) :
  n <= 0 ->
  _read_exact_ints fp n = Ok ([], fp) /\
  density_plot._read_exact_ints fp n = Ok ([], fp).
Proof.
  intros Hn. assert (E : (0 <? n) = false) by (apply Z.ltb_ge; lia).
  unfold _read_exact_ints, density_plot._read_exact_ints.
  destruct fp; cbn [_read_exact_ints_loop density_plot._read_exact_ints_loop];
    change (Py.len (@nil Z)) with 0; rewrite E;
    unfold Py.slice_to; now rewrite slice_nil.
Qed.

(** X17.  A header whose first line declares a count of zero or less is
    accepted by both decoders: they read no name and no length, consume
    that one line only, and return the empty directory with
    [total_values] 0. *)
Theorem header_without_elements (fuel : nat) (line tok : string) (fp : file)
    (n : Z) :
  Py.index (Py.split (Py.strip line)) 0 = Ok tok ->
  Py.int tok = Ok n ->
  n <= 0 ->
  _read_section_header (S fuel) (line :: fp) = Ok (Section_ [] 0, fp) /\
  density_plot._read_section_header (S fuel) (line :: fp) = Ok (Section_ [] 0, fp).
Proof.
  intros Htok Hint Hn.
  destruct (_read_exact_ints_none fp n Hn) as [Hi Hi'].
  assert (E : (0 <? n) = false) by (apply Z.ltb_ge; lia).
  split.
  - unfold _read_section_header. rewrite Htok. simpl. rewrite Hint. simpl.
    rewrite (_read_exact_names_none fp n Hn). simpl. rewrite Hi. simpl.
    unfold build_items. rewrite compress_unfold, E. reflexivity.
  - unfold density_plot._read_section_header. rewrite Htok. simpl.
    rewrite Hint. simpl. unfold density_plot._read_exact_names.
    rewrite (_read_exact_names_none fp n Hn). simpl. rewrite Hi'. simpl.
    rewrite E. reflexivity.
Qed.

Lemma header_without_elements_witness :
  _read_section_header 1 ("-3 fields" :: ["A       "; "0"])
    = Ok (Section_ [] 0, ["A       "; "0"]) /\
  density_plot._read_section_header 1 ("-3 fields" :: ["A       "; "0"])
    = Ok (Section_ [] 0, ["A       "; "0"]).
Proof.
  apply (header_without_elements 0 _ "-3" _ (-3)); [vm_compute; reflexivity.. | lia].
Defined.

(** ** The directory and the header it came from *)

Lemma slice_in_range {A} (l : list A) (i L : Z) :
  0 <= i -> 0 <= L -> i + L <= Py.len l ->
  Py.slice l i (i + L) = firstn (Z.to_nat L) (skipn (Z.to_nat i) l).
Proof.
  intros Hi HL Hn. unfold Py.slice, Py.bound. fold (Py.len l).
  destruct (i <? 0) eqn:E1; [apply Z.ltb_lt in E1; lia|].
  destruct (i + L <? 0) eqn:E2; [apply Z.ltb_lt in E2; lia|].
  rewrite !Z.min_l by lia. now replace (i + L - i) with L by lia.
Qed.

Lemma skipn_nth_error {A} (l : list A) (k : nat) (x : A) :
  nth_error l k = Some x -> skipn k l = x :: skipn (S k) l.
Proof.
  revert k. induction l as [|y l IH]; intros [|k]; simpl; try discriminate.
  - now intros [= ->].
  - intros H. rewrite (IH k H). reflexivity.
Qed.

Lemma nth_error_zip {A B} (l : list A) (k : list B) (j : nat) (a : A) (b : B) :
  nth_error l j = Some a -> nth_error k j = Some b ->
  nth_error (zip l k) j = Some (a, b).
Proof.
  revert k j. induction l as [|x l IH]; intros [|y k] [|j]; simpl;
    try discriminate.
  - now intros [= ->] [= ->].
  - apply IH.
Qed.

Lemma uniform_run_pairs (names : list string) (lens : list Z) (n i : Z)
    (name : string) (L : Z) :
  Py.len names = n -> Py.len lens = n -> 0 <= i -> 0 < L ->
  uniform_run names lens n i name L ->
  skipn (Z.to_nat i) (zip names lens)
  = replicate (Z.to_nat L) (name, L) ++ skipn (Z.to_nat (i + L)) (zip names lens).
Proof.
  intros Hn Hl Hi HL (Hle & Hnames & Hlens).
  rewrite slice_in_range in Hnames by lia.
  rewrite slice_in_range in Hlens by lia.
  rewrite <- (take_drop (Z.to_nat L) (skipn (Z.to_nat i) (zip names lens))).
  rewrite drop_drop. replace (Z.to_nat i + Z.to_nat L)%nat with (Z.to_nat (i + L)) by lia.
  f_equal. rewrite zip_with_drop, zip_with_take.
  rewrite <- (replicate_as_Forall_2 name (Z.to_nat L)
                (firstn (Z.to_nat L) (skipn (Z.to_nat i) names))).
  - rewrite <- (replicate_as_Forall_2 L (Z.to_nat L)
                  (firstn (Z.to_nat L) (skipn (Z.to_nat i) lens))).
    + apply zip_with_replicate.
    + rewrite length_take, length_drop. unfold Py.len in *. lia.
    + eapply Forall_impl; [exact Hlens|]. intros v ->. reflexivity.
  - rewrite length_take, length_drop. unfold Py.len in *. lia.
  - eapply Forall_impl; [exact Hnames|]. intros v ->. reflexivity.
Qed.

Lemma count_values_expand (items : list (string * Z)) :
  Forall (fun it => 0 <= snd it) items ->
  count_values items = Py.len (expand items).
Proof.
  induction 1 as [|[name L] items HL _ IH]; [reflexivity|].
  rewrite count_values_cons, IH. unfold expand. simpl flat_map.
  rewrite len_app. f_equal. simpl in HL |- *.
  destruct (L =? 0) eqn:E; [reflexivity|].
  apply Z.eqb_neq in E. unfold Py.len. rewrite length_replicate. lia.
Qed.

(** From position [i] on, with non-negative lengths and enough fuel, the
    two compression loops agree: both emit the same descriptors, which
    stand for the pairs walked, or the one gives up while the other
    raises. *)
Lemma compress_agree (names : list string) (lens : list Z) (n : Z) :
  Py.len names = n -> Py.len lens = n ->
  Forall (fun L => 0 <= L) lens ->
  forall (fuel : nat) (i : Z) (acc : list (string * Z)),
    0 <= i <= n -> (Z.to_nat (n - i) < fuel)%nat ->
    (exists more,
       compress fuel names lens n i acc = Ok (Some (acc ++ more)) /\
       density_plot.compress fuel names lens n i acc = Ok (acc ++ more) /\
       expand more = skipn (Z.to_nat i) (zip names lens) /\
       Forall (fun it => 0 <= snd it) more) \/
    (compress fuel names lens n i acc = Ok None /\
     density_plot.compress fuel names lens n i acc = Raise ValueError).
Proof.
  intros Hn Hl Hpos. induction fuel as [|fuel IH]; intros i acc Hi Hfuel; [lia|].
  rewrite compress_unfold, plot_compress_unfold.
  destruct (i <? n) eqn:Ei.
  - apply Z.ltb_lt in Ei.
    destruct (index_in_range names i ltac:(lia)) as (name & Hname & Hnn).
    destruct (index_in_range lens i ltac:(lia)) as (L & HL & Hnl).
    rewrite Hname, HL. simpl.
    assert (HL0 : 0 <= L).
    { rewrite List.Forall_forall in Hpos. apply Hpos. eapply nth_error_In, Hnl. }
    pose proof (nth_error_zip _ _ _ _ _ Hnn Hnl) as Hz.
    destruct (L =? 0) eqn:E0.
    + apply Z.eqb_eq in E0. subst L.
      destruct (IH (i + 1) (acc ++ [(name, 0)]) ltac:(lia) ltac:(lia))
        as [(more & H1 & H2 & H3 & H4)|[H1 H2]]; [left | right; now split].
      exists ((name, 0) :: more). rewrite <- !app_assoc in H1, H2.
      split; [exact H1|]. split; [exact H2|]. split; [|now constructor].
      rewrite (skipn_nth_error _ _ _ Hz).
      replace (S (Z.to_nat i)) with (Z.to_nat (i + 1)) by lia.
      unfold expand in *. simpl. now rewrite H3.
    + apply Z.eqb_neq in E0.
      destruct ((i + L <=? n) && _ && _) eqn:Et.
      * apply uniform_run_test in Et.
        pose proof (proj2 (uniform_run_plot_test _ _ _ _ _ _) Et) as Hq.
        apply orb_false_iff in Hq as [Hq1 Hq2]. rewrite Hq1, Hq2.
        destruct Et as [Hle Hrun].
        destruct (IH (i + L) (acc ++ [(name, L)]) ltac:(lia) ltac:(lia))
          as [(more & H1 & H2 & H3 & H4)|[H1 H2]]; [left | right; now split].
        exists ((name, L) :: more). rewrite <- !app_assoc in H1, H2.
        split; [exact H1|]. split; [exact H2|]. split; [|now constructor].
        rewrite (uniform_run_pairs names lens n i name L Hn Hl) by (try split; auto; lia).
        unfold expand in *. simpl flat_map. simpl snd.
        rewrite (proj2 (Z.eqb_neq L 0) E0). now rewrite H3.
      * right. split; [reflexivity|].
        destruct (n <? i + L) eqn:En; [reflexivity|].
        destruct (existsb _ _ || existsb _ _) eqn:Ex; [reflexivity|].
        exfalso. rewrite !existsb_negb_forallb in Ex.
        apply orb_false_iff in Ex as [Ex1 Ex2].
        apply negb_false_iff in Ex1, Ex2. rewrite Ex1, Ex2 in Et.
        rewrite !andb_true_r in Et. apply Z.leb_gt in Et.
        apply Z.ltb_ge in En. lia.
  - apply Z.ltb_ge in Ei. assert (i = n) by lia. subst i.
    left. exists []. rewrite app_nil_r. repeat split; [|constructor].
    simpl. rewrite skipn_all2; [reflexivity|].
    rewrite length_zip. unfold Py.len in *. lia.
Qed.

(** X18.  For a header of [n] names and [n] non-negative lengths the two
    decoders always end and agree as far as they can.  Either both return
    the same directory, which then stands for exactly the pairs of the
    header (expanding each array into its cells gives them back) and whose
    counts sum to [n]; or [density_plot.py] raises [ValueError] and
    [density_block.py] returns the pairs as they are. *)
Theorem directory_stands_for_header (fuel : nat) (names : list string)
    (lens : list Z) (n : Z) :
  Py.len names = n ->
  Py.len lens = n ->
  Forall (fun L => 0 <= L) lens ->
  (Z.to_nat n < fuel)%nat ->
  (exists dir,
     density_plot.compress fuel names lens n 0 [] = Ok dir /\
     build_items fuel names lens n = Ok dir /\
     expand dir = zip names lens /\
     count_values dir = n) \/
  (density_plot.compress fuel names lens n 0 [] = Raise ValueError /\
   build_items fuel names lens n = Ok (zip names lens)).
Proof.
  intros Hn Hl Hpos Hfuel.
  assert (H0 : 0 <= n) by (rewrite <- Hn; apply len_nonneg).
  destruct (compress_agree names lens n Hn Hl Hpos fuel 0 [] ltac:(lia))
    as [(dir & H1 & H2 & H3 & H4)|[H1 H2]].
  { now rewrite Z.sub_0_r. }
  - left. exists dir. simpl app in H1, H2. change (Z.to_nat 0) with 0%nat in H3.
    simpl skipn in H3. unfold build_items. rewrite H1. simpl.
    repeat split; try assumption.
    rewrite (count_values_expand dir H4), H3.
    change (skipn 0 (zip names lens)) with (zip names lens).
    destruct (zip_halves names lens) as (_ & _ & E3); [congruence|].
    now rewrite E3.
  - right. unfold build_items. rewrite H1. now split.
Qed.

Lemma directory_stands_for_header_witness :
  (exists dir,
     density_plot.compress 5 ["T"; "R"; "R"; "X"] [0; 2; 2; 0] 4 0 [] = Ok dir /\
     build_items 5 ["T"; "R"; "R"; "X"] [0; 2; 2; 0] 4 = Ok dir /\
     expand dir = zip ["T"; "R"; "R"; "X"] [0; 2; 2; 0] /\
     count_values dir = 4) \/
  (density_plot.compress 5 ["T"; "R"; "R"; "X"] [0; 2; 2; 0] 4 0 [] = Raise ValueError /\
   build_items 5 ["T"; "R"; "R"; "X"] [0; 2; 2; 0] 4 = Ok (zip ["T"; "R"; "R"; "X"] [0; 2; 2; 0])).
Proof.
  apply directory_stands_for_header; try reflexivity.
  - repeat constructor; lia.
  - simpl. lia.
Defined.

(** ** One entry per variable and frame *)

Lemma count_values_nonneg (items : list (string * Z)) :
  Forall (fun it => 0 <= snd it) items -> 0 <= count_values items.
Proof.
  intros H. rewrite (count_values_expand _ H). apply len_nonneg.
Qed.

Lemma series_insert_eq (data : series) (name : string) (s : list entry) :
  <[name := s]> data !! name = Some s.
Proof. unfold series in *. apply lookup_insert_eq. Qed.

Lemma series_insert_ne (data : series) (name k : string) (s : list entry) :
  name <> k -> <[name := s]> data !! k = data !! k.
Proof. unfold series in *. apply lookup_insert_ne. Qed.

Lemma store_frame_adds (all : list (string * Z)) (vals : list float) (F : nat) :
  NoDup all.*1 ->
  forall (todo done : list (string * Z)) (data : series) (cur : Z),
    all = done ++ todo ->
    Forall (fun it => 0 <= snd it) todo ->
    0 <= cur -> cur + count_values todo <= Py.len vals ->
    (forall k, is_Some (data !! k) -> k ∈ all.*1) ->
    (forall name L, (name, L) ∈ done ->
       exists seq, data !! name = Some seq /\ length seq = S F /\
                   Forall (entry_fits L) seq) ->
    (forall name L, (name, L) ∈ todo ->
       exists seq, data !! name = Some seq /\ length seq = F /\
                   Forall (entry_fits L) seq) ->
    exists data', store_frame todo vals cur data = Ok data' /\
                  holds_frames all (S F) data'.
Proof.
  intros Hnd. induction todo as [|[name L] todo IH];
    intros done data cur Hall Hpos Hcur Hlen Hkeys Hdone Htodo.
  - simpl. exists data. split; [reflexivity|]. split; [exact Hkeys|].
    intros name L Hin. apply Hdone. now rewrite Hall, app_nil_r in Hin.
  - apply Forall_cons in Hpos as [HL Hpos]. simpl in HL.
    rewrite count_values_cons in Hlen.
    pose proof (count_values_nonneg todo Hpos) as Hrest.
    destruct (Htodo name L ltac:(left)) as (seq & Hseq & Hn & Hfits).
    assert (Hsplit : all = (done ++ [(name, L)]) ++ todo)
      by (now rewrite <- app_assoc).
    assert (Hfresh : forall name' L', (name', L') ∈ done ++ todo -> name' <> name).
    { intros name' L' Hin ->. rewrite Hall in Hnd.
      rewrite fmap_app, fmap_cons in Hnd. simpl in Hnd.
      apply NoDup_app in Hnd as (_ & Hd & Ht).
      apply NoDup_cons in Ht as [Ht _].
      apply elem_of_app in Hin as [Hin|Hin].
      - apply (Hd name); [|left]. apply list_elem_of_fmap. now exists (name, L').
      - apply Ht. apply list_elem_of_fmap. now exists (name, L'). }
    assert (Hstep : forall x, entry_fits L x ->
      exists data', store_frame todo vals (cur + (if L =? 0 then 1 else L))
                      (<[name := seq ++ [x]]> data) = Ok data' /\
                    holds_frames all (S F) data').
    { intros x Hx. apply (IH (done ++ [(name, L)])); try assumption.
      - destruct (L =? 0); lia.
      - destruct (L =? 0); lia.
      - intros k [y Hk]. destruct (decide (k = name)) as [->|Hne].
        + apply Hkeys. now exists seq.
        + rewrite series_insert_ne in Hk by congruence. apply Hkeys. now exists y.
      - intros name' L' Hin. apply elem_of_app in Hin as [Hin|Hin].
        + assert (name' <> name) by (apply (Hfresh name' L'), elem_of_app; now left).
          rewrite series_insert_ne by congruence. now apply Hdone.
        + apply list_elem_of_singleton in Hin. injection Hin as -> ->.
          exists (seq ++ [x]). rewrite series_insert_eq.
          split; [reflexivity|]. split; [rewrite length_app; simpl; lia|].
          apply Forall_app. split; [exact Hfits | now repeat constructor].
      - intros name' L' Hin.
        assert (name' <> name) by (apply (Hfresh name' L'), elem_of_app; now right).
        rewrite series_insert_ne by congruence. apply Htodo. now right. }
    simpl. destruct (L =? 0) eqn:E0.
    + apply Z.eqb_eq in E0. rewrite Hseq. simpl.
      destruct (index_in_range vals cur ltac:(lia)) as (v & Hv & _).
      rewrite Hv. simpl. apply (Hstep (Scalar v)). exact E0.
    + apply Z.eqb_neq in E0. unfold append_to. rewrite Hseq. simpl.
      apply (Hstep (Vector (Py.slice vals cur (cur + L)))).
      split; [exact E0|]. rewrite slice_in_range by lia.
      unfold Py.len in *. rewrite length_take, length_drop. lia.
Qed.

Lemma store_frames_hold (items : list (string * Z)) :
  NoDup items.*1 -> Forall (fun it => 0 <= snd it) items ->
  forall (frames : list (list float)) (F : nat) (data : series),
    Forall (fun vals => Py.len vals = count_values items) frames ->
    holds_frames items F data ->
    exists data', store_frames items frames data = Ok data' /\
                  holds_frames items (F + length frames) data'.
Proof.
  intros Hnd Hpos. induction frames as [|vals frames IH]; intros F data Hlen Hd.
  - exists data. simpl. now rewrite Nat.add_0_r.
  - apply Forall_cons in Hlen as [Hv Hlen]. destruct Hd as [Hkeys Hd].
    destruct (store_frame_adds items vals F Hnd items [] data 0)
      as (data1 & E1 & H1); try easy; try lia.
    simpl. rewrite E1. simpl.
    destruct (IH (S F) data1 Hlen H1) as (data' & E & H').
    exists data'. split; [exact E|].
    now replace (F + S (length frames))%nat with (S F + length frames)%nat by lia.
Qed.

Lemma empty_series_holds (items : list (string * Z)) :
  NoDup items.*1 -> holds_frames items 0 (empty_series items).
Proof.
  intros Hnd. unfold empty_series, series. split.
  - intros k [seq Hk]. apply elem_of_list_to_map_2 in Hk.
    apply list_elem_of_fmap in Hk as (it & E & Hin). injection E as -> _.
    apply list_elem_of_fmap. now exists it.
  - intros name L Hin. exists []. split; [|now split].
    apply elem_of_list_to_map_1.
    + assert (Hk : forall l : list (string * Z),
                (map (fun it => (fst it, @nil entry)) l).*1 = l.*1).
      { induction l as [|it l IH]; [reflexivity|].
        simpl. f_equal. exact IH. }
      unfold series in *. now rewrite Hk.
    + apply list_elem_of_fmap. now exists (name, L).
Qed.

Lemma np_array_scalars (seq : list entry) :
  Forall (entry_fits 0) seq ->
  exists vs, mapM as_scalar seq = Ok vs /\ length vs = length seq.
Proof.
  induction 1 as [|e seq He _ (vs & E & Hl)]; [now exists []|].
  destruct e as [v|v]; [|now destruct He].
  exists (v :: vs). simpl. rewrite E. simpl. now rewrite Hl.
Qed.

Lemma np_array_rows (L : Z) (seq : list entry) :
  L <> 0 -> Forall (entry_fits L) seq ->
  exists rows, mapM (as_row (Z.to_nat L)) seq = Ok rows /\
               length rows = length seq /\
               Forall (fun row => Py.len row = L) rows.
Proof.
  intros HL. induction 1 as [|e seq He _ (rows & E & Hl & Hr)].
  - exists []. now repeat split.
  - destruct e as [v|v]; [now destruct HL|]. destruct He as [_ Hv].
    exists (v :: rows). simpl.
    replace (length v =? Z.to_nat L)%nat with true
      by (symmetry; apply Nat.eqb_eq; unfold Py.len in Hv; lia).
    rewrite E. simpl. rewrite Hl. repeat split. now constructor.
Qed.

Lemma np_array_fits (L : Z) (seq : list entry) :
  Forall (entry_fits L) seq ->
  exists arr, np_array seq = Ok arr /\ nframes arr = length seq /\
    match arr with
    | Array1 _ => L = 0 \/ seq = []
    | Array2 rows => L <> 0 /\ Forall (fun row => Py.len row = L) rows
    end.
Proof.
  intros H. destruct seq as [|[v|v0] seq].
  - exists (Array1 []). repeat split. now right.
  - assert (L = 0) as -> by (now apply Forall_cons in H as [H _]).
    destruct (np_array_scalars _ H) as (vs & E & Hl).
    exists (Array1 vs). cbn [np_array]. rewrite E. repeat split; [exact Hl | now left].
  - assert (HL : L <> 0 /\ Py.len v0 = L) by (now apply Forall_cons in H as [H _]).
    destruct HL as [HL Hv].
    destruct (np_array_rows L _ HL H) as (rows & E & Hl & Hr).
    exists (Array2 rows). cbn [np_array].
    replace (length v0) with (Z.to_nat L) by (unfold Py.len in Hv; lia).
    rewrite E. now repeat split.
Qed.

Lemma to_arrays_each (data : series) :
  (forall k seq, data !! k = Some seq -> exists arr, np_array seq = Ok arr) ->
  exists out, to_arrays data = Ok out /\
    forall k seq, data !! k = Some seq ->
      exists arr, out !! k = Some arr /\ np_array seq = Ok arr.
Proof.
  unfold to_arrays, series in *.
  apply (map_fold_weak_ind
           (fun (r : outcome (gmap string ndarray)) (m : gmap string (list entry)) =>
              (forall k seq, m !! k = Some seq -> exists arr, np_array seq = Ok arr) ->
              exists out, r = Ok out /\
                forall k seq, m !! k = Some seq ->
                  exists arr, out !! k = Some arr /\ np_array seq = Ok arr)).
  - intros _. exists ∅. split; [reflexivity|]. intros k seq H.
    now rewrite lookup_empty in H.
  - intros k seq m r Hk IH Hall.
    destruct IH as (out & -> & Hout).
    { intros k' seq' H'. apply (Hall k'). rewrite lookup_insert_ne; [exact H'|].
      intros ->. congruence. }
    destruct (Hall k seq) as [arr Ha]; [apply lookup_insert_eq|].
    exists (<[k := arr]> out). simpl. rewrite Ha. simpl. split; [reflexivity|].
    intros k' seq' H'. destruct (decide (k = k')) as [<-|Hne].
    + rewrite lookup_insert_eq in H'. injection H' as <-.
      exists arr. now rewrite lookup_insert_eq.
    + rewrite lookup_insert_ne in H' by exact Hne.
      destruct (Hout k' seq' H') as (arr' & E' & Ha').
      exists arr'. now rewrite lookup_insert_ne by exact Hne.
Qed.

(** X19.  Every variable of the directory gets one entry per frame.  The
    names of the directory are distinct and its lengths are counts; the
    stream after the headers holds the complete records [frames] and then
    ends, inside a record or not.  Then [read_classic_fort10] and
    [read_fort10_dynamic] return an array for every name of the directory,
    for a scalar a vector of [length frames] numbers, for an array of [L]
    cells [length frames] rows of [L] numbers each; no variable misses a
    frame, and the conversion to arrays succeeds. *)
Theorem every_variable_has_every_frame (fuel : nat) (items : list (string * Z))
    (chunks : list (list string)) (frames : list (list float))
    (tail : list string) (vs : list float) :
  NoDup items.*1 -> Forall (fun it => 0 <= snd it) items ->
  Forall2 (record_lines (count_values items)) chunks frames ->
  values_of tail = Ok vs -> Py.len vs < count_values items ->
  (length (concat chunks ++ tail) < fuel)%nat ->
  exists out,
    read_frames fuel (concat chunks ++ tail) (count_values items) items
                (empty_series items) ≫= to_arrays = Ok out /\
    forall name L, (name, L) ∈ items ->
      exists arr, out !! name = Some arr /\ nframes arr = length frames /\
        match arr with
        | Array1 _ => L = 0 \/ frames = []
        | Array2 rows => L <> 0 /\ Forall (fun row => Py.len row = L) rows
        end.
Proof.
  intros Hnd Hpos HF Ht Hn Hfuel.
  rewrite (read_frames_records _ _ _ _ _ _ HF Ht Hn fuel _ Hfuel).
  assert (Hlen : Forall (fun vals => Py.len vals = count_values items) frames).
  { clear -HF. induction HF as [|chunk vals chunks frames Hc _ IH]; constructor.
    - apply (_read_values_chunk _ chunk [] vals Hc).
    - exact IH. }
  destruct (store_frames_hold items Hnd Hpos frames 0 (empty_series items) Hlen
              (empty_series_holds items Hnd)) as (data & E & Hkeys & Hd).
  rewrite E. simpl.
  destruct (to_arrays_each data) as (out & Eo & Hout).
  { intros k seq Hk. assert (Hin : k ∈ items.*1) by (apply Hkeys; now exists seq).
    apply list_elem_of_fmap in Hin as ([name L] & -> & Hin).
    destruct (Hd name L Hin) as (seq' & E' & _ & Hfits). simpl in Hk.
    assert (seq' = seq) as -> by congruence.
    destruct (np_array_fits L seq Hfits) as (arr & Ha & _). now exists arr. }
  exists out. split; [exact Eo|]. intros name L Hin.
  destruct (Hd name L Hin) as (seq & Es & Hl & Hfits).
  destruct (Hout name seq Es) as (arr & Ea & Hnp).
  destruct (np_array_fits L seq Hfits) as (arr' & Ha & Hfr & Hshape).
  assert (arr' = arr) as -> by congruence.
  exists arr. split; [exact Ea|]. split; [now rewrite Hfr, Hl|].
  destruct arr as [ws|rows]; [|exact Hshape].
  destruct Hshape as [H0| ->]; [now left|]. right.
  simpl in Hl. now destruct frames.
Qed.

Lemma every_variable_has_every_frame_witness :
  let items := [("TIME", 0); ("R", 2)] in
  exists out,
    read_frames 10 (concat [["1.0 2.0 3.0"]; ["4.0 5.0"; "6.0"]] ++ ["7.0"])
                (count_values items) items (empty_series items) ≫= to_arrays
      = Ok out /\
    forall name L, (name, L) ∈ items ->
      exists arr, out !! name = Some arr /\
        nframes arr = length [[1; 2; 3]; [4; 5; 6]]%float /\
        match arr with
        | Array1 _ => L = 0 \/ [[1; 2; 3]; [4; 5; 6]]%float = []
        | Array2 rows => L <> 0 /\ Forall (fun row => Py.len row = L) rows
        end.
Proof.
  intros items.
  apply (every_variable_has_every_frame 10 items
           [["1.0 2.0 3.0"]; ["4.0 5.0"; "6.0"]]
           [[1; 2; 3]; [4; 5; 6]]%float ["7.0"] [7]%float).
  - apply (bool_decide_unpack _). vm_compute. reflexivity.
  - repeat constructor; simpl; lia.
  - constructor; [|constructor; [|constructor]].
    + exists [], "1.0 2.0 3.0", [], [1; 2; 3]%float.
      repeat split; vm_compute; first [reflexivity | discriminate].
    + exists ["4.0 5.0"], "6.0", [4; 5]%float, [6]%float.
      repeat split; vm_compute; first [reflexivity | discriminate].
  - vm_compute. reflexivity.
  - vm_compute. reflexivity.
  - vm_compute. lia.
Defined.

(** ** The packed names *)

Lemma string_of_list_length (l : list ascii) :
  String.length (string_of_list_ascii l) = length l.
Proof. induction l as [|c l IH]; simpl; [reflexivity | now rewrite IH]. Qed.

Lemma lstrip_chars_length (s : list ascii) :
  (length (Py.lstrip_chars s) <= length s)%nat.
Proof.
  induction s as [|c s IH]; simpl; [lia|].
  destruct (Py.isspace c); simpl; lia.
Qed.

Lemma strip_length (s : string) :
  (String.length (Py.strip s) <= String.length s)%nat.
Proof.
  unfold Py.strip, Py.strip_chars.
  rewrite string_of_list_length, length_rev.
  etransitivity; [apply lstrip_chars_length|]. rewrite length_rev.
  etransitivity; [apply lstrip_chars_length|].
  rewrite <- (string_of_list_length (list_ascii_of_string s)).
  now rewrite string_of_list_ascii_of_string.
Qed.

Lemma slice_length {A} (l : list A) (i w : Z) :
  0 <= i -> 0 <= w -> (length (Py.slice l i (i + w)) <= Z.to_nat w)%nat.
Proof.
  intros Hi Hw. unfold Py.slice, Py.bound.
  destruct (i <? 0) eqn:E1; [apply Z.ltb_lt in E1; lia|].
  destruct (i + w <? 0) eqn:E2; [apply Z.ltb_lt in E2; lia|].
  rewrite length_firstn. lia.
Qed.

Lemma name_chunks_short (line : string) :
  Forall (fun name => (1 <= String.length name <= 8)%nat) (name_chunks line).
Proof.
  unfold name_chunks. apply Forall_forall. intros name Hin.
  apply list_elem_of_filter in Hin as [Hne Hin].
  apply list_elem_of_fmap in Hin as (chunk & -> & Hin).
  apply list_elem_of_fmap in Hin as (i & -> & Hin).
  unfold Py.range_step in Hin.
  apply list_elem_of_fmap in Hin as (k & -> & _).
  split.
  - destruct (Py.strip _); [congruence | simpl; lia].
  - etransitivity; [apply strip_length|]. rewrite string_of_list_length.
    apply (slice_length _ (8 * Z.of_nat k) 8); lia.
Qed.

Lemma _read_exact_names_loop_short (n : Z) (fp : file) :
  forall (acc names : list string) (fp' : file),
    Forall (fun name => (1 <= String.length name <= 8)%nat) acc ->
    _read_exact_names_loop fp acc n = Ok (names, fp') ->
    Forall (fun name => (1 <= String.length name <= 8)%nat) names.
Proof.
  induction fp as [|line fp IH]; intros acc names fp' Hacc; simpl;
    destruct (Py.len acc <? n); try discriminate.
  - intros [= <- _]. unfold Py.slice_to, Py.slice.
    now apply Forall_take, Forall_drop.
  - apply IH. apply Forall_app. split; [exact Hacc | apply name_chunks_short].
  - intros [= <- _]. unfold Py.slice_to, Py.slice.
    now apply Forall_take, Forall_drop.
Qed.

(** X20.  A name that [_read_exact_names] returns has between one and
    eight characters: the line is cut into slots of eight characters, each
    slot is stripped and the blank ones are dropped, so no name is empty and
    none is longer than a slot.  A longer name in the file comes back as
    two names.  [density_plot.py] has the same function. *)
Theorem _read_exact_names_short (fp fp' : file) (n : Z) (names : list string) :
  _read_exact_names fp n = Ok (names, fp') ->
  Forall (fun name => (1 <= String.length name <= 8)%nat) names.
Proof.
  unfold _read_exact_names. apply _read_exact_names_loop_short. constructor.
Qed.

Lemma _read_exact_names_short_witness :
  _read_exact_names ["TIME    PRESSURE1       "; "0 0 0"] 3
    = Ok (["TIME"; "PRESSURE"; "1"], ["0 0 0"]) /\
  Forall (fun name => (1 <= String.length name <= 8)%nat)
         ["TIME"; "PRESSURE"; "1"].
Proof.
  assert (H : _read_exact_names ["TIME    PRESSURE1       "; "0 0 0"] 3
              = Ok (["TIME"; "PRESSURE"; "1"], ["0 0 0"]))
    by (vm_compute; reflexivity).
  split; [exact H|].
  exact (_read_exact_names_short _ _ _ _ H).
Defined.

(** ** The two readers of the lengths *)

Lemma lstrip_chars_Forall (P : ascii -> Prop) (s : list ascii) :
  Forall P s -> Forall P (Py.lstrip_chars s).
Proof.
  induction 1 as [|c s Hc Hs IH]; simpl; [constructor|].
  destruct (Py.isspace c); [exact IH | now constructor].
Qed.

Lemma strip_chars_Forall (P : ascii -> Prop) (s : list ascii) :
  Forall P s -> Forall P (Py.strip_chars s).
Proof.
  intros H. unfold Py.strip_chars.
  apply Forall_rev, lstrip_chars_Forall, Forall_rev, lstrip_chars_Forall, H.
Qed.

Lemma lstrip_chars_word (s : list ascii) :
  Forall (fun c => Py.isspace c = false) s -> Py.lstrip_chars s = s.
Proof. destruct 1 as [|c t Hc _]; simpl; [reflexivity | now rewrite Hc]. Qed.

Lemma strip_chars_word (s : list ascii) :
  Forall (fun c => Py.isspace c = false) s -> Py.strip_chars s = s.
Proof.
  intros H. unfold Py.strip_chars. rewrite (lstrip_chars_word s H).
  rewrite lstrip_chars_word by now apply Forall_rev.
  apply rev_involutive.
Qed.

Lemma rstrip_commas_rev_word (s : list ascii) :
  Forall (fun c => c <> ","%char) s -> density_plot.rstrip_commas_rev s = s.
Proof.
  destruct 1 as [|c t Hc _]; simpl; [reflexivity|].
  now apply Ascii.eqb_neq in Hc as ->.
Qed.

Lemma split_chars_words (Q : ascii -> Prop) (s : list ascii) :
  Forall Q s ->
  forall cur,
    Forall (fun c => Py.isspace c = false /\ Q c) cur ->
    Forall (fun tok => tok <> [] /\
                       Forall (fun c => Py.isspace c = false /\ Q c) tok)
           (Py.split_chars s cur).
Proof.
  induction 1 as [|c s Hc Hs IH]; intros cur Hcur; simpl.
  - destruct cur as [|d cur]; constructor; [|constructor].
    split; [|now apply Forall_rev].
    intros E. apply (f_equal (@rev ascii)) in E.
    rewrite rev_involutive in E. discriminate E.
  - destruct (Py.isspace c) eqn:Ec.
    + destruct cur as [|d cur]; [now apply IH|].
      constructor; [|now apply IH]. split; [|now apply Forall_rev].
      intros E. apply (f_equal (@rev ascii)) in E.
      rewrite rev_involutive in E. discriminate E.
    + apply IH. now constructor.
Qed.

Lemma ints_of_tokens_words (toks : list (list ascii)) :
  Forall (fun tok => tok <> [] /\
                     Forall (fun c => Py.isspace c = false /\ c <> ","%char) tok)
         toks ->
  density_plot.ints_of_tokens (map string_of_list_ascii toks)
  = mapM Py.int (map string_of_list_ascii toks).
Proof.
  induction 1 as [|tok toks [Hne Htok] _ IH]; [reflexivity|].
  assert (Ht : density_plot.rstrip_commas (Py.strip (string_of_list_ascii tok))
               = string_of_list_ascii tok).
  { unfold density_plot.rstrip_commas, Py.strip.
    rewrite !list_ascii_of_string_of_list_ascii.
    rewrite strip_chars_word
      by (eapply Forall_impl; [exact Htok | now intros c [H _]]).
    rewrite rstrip_commas_rev_word
      by (apply Forall_rev; eapply Forall_impl; [exact Htok | now intros c [_ H]]).
    now rewrite rev_involutive. }
  cbn [map density_plot.ints_of_tokens]. rewrite Ht, bool_decide_false.
  - rewrite IH. reflexivity.
  - intros E. apply Hne. destruct tok; [reflexivity | discriminate E].
Qed.

Lemma commas_to_spaces_word (s : list ascii) :
  Forall (fun c => c <> ","%char) s ->
  commas_to_spaces (string_of_list_ascii s) = string_of_list_ascii s.
Proof.
  intros H. unfold commas_to_spaces. rewrite list_ascii_of_string_of_list_ascii.
  f_equal. induction H as [|c s Hc _ IH]; [reflexivity|].
  simpl. apply Ascii.eqb_neq in Hc as ->. now rewrite IH.
Qed.

Lemma ints_of_line_agree (line : string) :
  Forall (fun c => c <> ","%char) (list_ascii_of_string line) ->
  density_plot.ints_of_tokens (Py.split (Py.strip line))
  = mapM Py.int (Py.split (commas_to_spaces (Py.strip line))).
Proof.
  intros H. unfold Py.strip at 2.
  rewrite commas_to_spaces_word by now apply strip_chars_Forall.
  fold (Py.strip line). unfold Py.split. apply ints_of_tokens_words.
  apply split_chars_words; [|constructor].
  unfold Py.strip. rewrite list_ascii_of_string_of_list_ascii.
  now apply strip_chars_Forall.
Qed.

(** X21.  On lines that hold no comma the two readers of the lengths do
    the same: [_read_exact_ints] of [density_plot.py] returns what that of
    [density_block.py] returns, value or exception, and leaves the file at
    the same line. *)
Theorem integer_readers_agree (fp : file) (n : Z) :
  Forall (fun line => Forall (fun c => c <> ","%char) (list_ascii_of_string line)) fp ->
  density_plot._read_exact_ints fp n = _read_exact_ints fp n.
Proof.
  unfold density_plot._read_exact_ints, _read_exact_ints. generalize (@nil Z).
  intros vals H. revert vals.
  induction H as [|line fp Hl _ IH]; intros vals; simpl;
    destruct (Py.len vals <? n); try reflexivity.
  rewrite (ints_of_line_agree line Hl).
  destruct (mapM Py.int _) as [new| |]; simpl; [apply IH | reflexivity | reflexivity].
Qed.

Lemma integer_readers_agree_witness :
  Forall (fun line => Forall (fun c => c <> ","%char) (list_ascii_of_string line))
         ["0 2"; " 2 0 7"; "1.0"] /\
  density_plot._read_exact_ints ["0 2"; " 2 0 7"; "1.0"] 4
  = _read_exact_ints ["0 2"; " 2 0 7"; "1.0"] 4 /\
  _read_exact_ints ["0 2"; " 2 0 7"; "1.0"] 4 = Ok ([0; 2; 2; 0], ["1.0"]).
Proof.
  assert (H : Forall (fun line => Forall (fun c => c <> ","%char)
                                         (list_ascii_of_string line))
                     ["0 2"; " 2 0 7"; "1.0"])
    by (repeat constructor; discriminate).
  split; [exact H|].
  split; [exact (integer_readers_agree _ 4 H) | vm_compute; reflexivity].
Defined.

(** X22.  Lengths separated by commas with no blank are read by
    [density_block.py], which turns every comma into a blank, and refused
    by [density_plot.py], which only drops the commas at the end of a
    token: on the line [0,2,2,0] the first returns the four lengths and the
    second raises [ValueError].  With a blank after each comma both return
    them. *)
Theorem integer_readers_part_on_commas :
  _read_exact_ints ["0,2,2,0"] 4 = Ok ([0; 2; 2; 0], []) /\
  density_plot._read_exact_ints ["0,2,2,0"] 4 = Raise ValueError /\
  _read_exact_ints ["0, 2, 2, 0"] 4 = Ok ([0; 2; 2; 0], []) /\
  density_plot._read_exact_ints ["0, 2, 2, 0"] 4 = Ok ([0; 2; 2; 0], []).
Proof. repeat split; vm_compute; reflexivity. Qed.
